(** * mol_opt: the experiment harness of [main/optimizer.py] and [main/dog_gen/run.py]

    A shallow embedding of [BaseOptimizer] (score cache, buffer sorting,
    result logging and export, the [optimize]/[production] harness) and of
    [DoG_Gen_Optimizer._optimize], followed by the properties proved about
    them.

    Python values are modelled as follows.
    - [self.mol_buffer] is a Python [dict]: insertion ordered, keys unique.
      It is an association list in insertion order, with the dict operations
      written out ([dict_get], [dict_set], [dict_of_items]).
    - a stored value [[score, rank]] is a pair [(score, rank)].
    - scores are floats produced by an external oracle: the type [score] and
      its comparison [score_ltb] (Python's [<]) are parameters.
    - [sorted(..., key=, reverse=)] is Python's stable sort ([py_sorted]).
    - a method is a computation over the optimizer object and the outside
      world, which may raise; the state reached at the raise is kept. *)

From Stdlib Require Import List String Ascii ZArith Bool Arith Lia.
From Stdlib Require Import Permutation Sorted.
From Stdlib Require QArith DecimalString DecimalPos DecimalZ.
Import ListNotations.
Local Open Scope string_scope.
Local Open Scope list_scope.

(** ** Python containers *)

Definition dict (V : Type) : Type := list (string * V).

Definition dict_items {V} (d : dict V) : list (string * V) := d.
Definition dict_keys {V} (d : dict V) : list string := map fst d.
Definition dict_len {V} (d : dict V) : nat := List.length d.

(** [d[k]]: [None] stands for [KeyError]. *)
Fixpoint dict_get {V} (k : string) (d : dict V) : option V :=
  match d with
  | [] => None
  | (k', v) :: d' => if String.eqb k k' then Some v else dict_get k d'
  end.

(** [d[k] = v]: an existing key keeps its position, a new key goes last. *)
Fixpoint dict_set {V} (k : string) (v : V) (d : dict V) : dict V :=
  match d with
  | [] => [(k, v)]
  | (k', v') :: d' =>
      if String.eqb k k' then (k', v) :: d' else (k', v') :: dict_set k v d'
  end.

(** [dict(pairs)]. *)
Definition dict_of_items {V} (l : list (string * V)) : dict V :=
  fold_left (fun d kv => dict_set (fst kv) (snd kv) d) l [].

(** [sorted(l, key=key, reverse=reverse)].  Python's sort is stable, also
    with [reverse=True]: elements with equal keys keep their order.  The
    element [x], which stood before all of [l], passes the elements it must
    follow and stops at the first one it need not follow. *)
Fixpoint py_insert {A} (passes : A -> A -> bool) (x : A) (l : list A) : list A :=
  match l with
  | [] => [x]
  | y :: l' => if passes x y then y :: py_insert passes x l' else x :: l
  end.

Definition py_passes {A K} (ltk : K -> K -> bool) (key : A -> K)
    (reverse : bool) (x y : A) : bool :=
  if reverse then ltk (key x) (key y) else ltk (key y) (key x).

Definition py_sorted {A K} (ltk : K -> K -> bool) (key : A -> K)
    (reverse : bool) (l : list A) : list A :=
  fold_right (py_insert (py_passes ltk key reverse)) [] l.

(** [l[:n]] for an integer [n]: a negative [n] counts from the end. *)
Definition py_slice_to {A} (l : list A) (n : Z) : list A :=
  if (0 <=? n)%Z then firstn (Z.to_nat n) l
  else firstn (Z.to_nat (Z.of_nat (List.length l) + n)) l.

(** [os.path.join(a, b)] on POSIX, for two components. *)
Definition starts_with_sep (s : string) : bool :=
  match s with
  | String c _ => Ascii.eqb c "/"%char
  | EmptyString => false
  end.

Fixpoint ends_with_sep (s : string) : bool :=
  match s with
  | EmptyString => false
  | String c EmptyString => Ascii.eqb c "/"%char
  | String _ s' => ends_with_sep s'
  end.

Definition os_path_join (a b : string) : string :=
  if starts_with_sep b then b
  else if String.eqb a "" || ends_with_sep a then (a ++ b)%string
  else (a ++ "/" ++ b)%string.

(** ** Exceptions *)

Inductive exn : Type :=
| KeyError (key : string)
| IndexError
| ValueError
| TypeError
| NameError (name : string)
| AttributeError (attr : string)
| FileNotFoundError (path : string)
| NotImplementedError.

(** A value bound to a name, as far as name lookup is modelled: a string,
    or some other object. *)
Inductive pyval : Type :=
| PyStr (s : string)
| PyObject.

(** ** What the code takes from outside

    Libraries (RDKit, numpy, tdc, wandb, joblib), the oracle, the file
    system and the modules of the repository that the two files import. *)

Class Externals : Type := {
  (** [rdkit.Chem.Mol] and [Chem.MolToSmiles] *)
  mol : Type;
  MolToSmiles : mol -> string;
  (** oracle scores and Python's [<] on them *)
  score : Type;
  score_ltb : score -> score -> bool;
  (** the hidden state of an oracle: calling one may change it *)
  oracle_state : Type;
  (** [np.mean] *)
  np_mean : list score -> score;
  (** [tdc.Oracle(name='SA')], [tdc.Evaluator(name='Diversity')], [MolFilter] *)
  sa_scorer : list string -> list score;
  diversity_evaluator : list string -> score;
  mol_filter : list string -> list string;
  (** [wandb.Image(Draw.MolToImage(Chem.MolFromSmiles(smi)))] *)
  image : Type;
  mol_image : string -> image;
  (** [MolGen(name='ZINC').get_data()['smiles'].tolist()] *)
  zinc_smiles : list string;
  (** the module-level names that [from main.utils.chem import *] brings
      into [optimizer.py], and [canonicalize] from the same module *)
  chem_exports : dict pyval;
  canonicalize : string -> string;
  (** the lines of a file, [None] when it cannot be opened *)
  file_lines : string -> option (list string);
  (** what [open(path, 'w')] raises, [None] when the file can be opened for
      writing (its directory exists and is writable) *)
  open_write_error : string -> option exn;
  (** the object a caller may have stored in the attribute [oracle] *)
  evaluator : Type;
  (** [syn_dags]: tuple trees on disk, and the directory of [run.py] *)
  tree : Type;
  load_tuple_trees : string -> list tree;
  path_here : string;
  torch_device : string;
  run_name : string
}.

(** ** The optimizer object and the world around it *)

(** [args], as far as the two files read it. *)
Record Args : Type := {
  n_jobs : Z;
  smi_file : option string;
  output_dir : string
}.

Section Model.
Context `{Externals}.

(** An item [(smi, [score, rank])] of [mol_buffer.items()]. *)
Definition entry : Type := string * (score * nat).
Definition entry_score (kv : entry) : score := fst (snd kv).
Definition entry_rank (kv : entry) : nat := snd (snd kv).

(** The [oracle] argument of [optimize] and [_optimize]: it has a [name]
    and can be called on a SMILES string. *)
Record oracle : Type := {
  oracle_name : string;
  oracle_func : string -> oracle_state -> score * oracle_state
}.

(** The list returned by [_analyze_results]. *)
Record analysis : Type := {
  an_avg_top100 : score;
  an_avg_top10 : score;
  an_avg_top1 : score;
  an_diversity : score;
  an_avg_sa : score;
  an_pct_pass : QArith_base.Q;
  an_top1_pass : score
}.

(** What is handed to [wandb.log]. *)
Record intermediate : Type := {
  avg_top1 : score;
  avg_top10 : score;
  avg_top100 : score;
  avg_sa : score;
  diversity_top100 : score;
  n_oracle : nat
}.

Inductive wandb_payload : Type :=
| LogIntermediate (m : intermediate)
| LogTop100 (rows : list (nat * score * nat * image * string))
| LogBatchMetrics (rows : list (Z * analysis)).

(** Calls of [DoG_Gen_Optimizer._optimize] into modules outside [src/]. *)
Inductive ext_call : Type :=
| AssignEvaluator (target : evaluator) (o : oracle)
| NpRandomState (seed : Z)
| TorchManualSeed (seed : Z)
| GetTask (task : string)
| LoadTupleTrees (path : string)
| LoadDoggenModel (device log_path weight_path : string)
| SummaryWriter (log_dir : string)
| HillclimbingParams (n_rounds n_samples_per_round n_samples_to_keep_per_round : Z)
| HillclimberParts (oracle_part : evaluator) (device : string)
| NewHillclimber
| RunHillclimbing (trees : list tree).

(** Effects on the outside world, in the order they happen. *)
Inductive event : Type :=
| EOracle (smi : string)
| EOpenRead (path : string)
| EYamlDump (path : string) (doc : dict (score * nat))
| EWandbInit (project : string)
| ENpSeed (seed : Z)
| EWandbLog (p : wandb_payload)
| ERunFinish
| EExt (c : ext_call).

(** The attributes of a [BaseOptimizer].  [n_jobs] and [smi_file] repeat
    [args]; [pool], [sa_scorer], [diversity_evaluator] and [filter] are
    handles on external objects.  [oracle_attr] is the attribute [oracle]
    read by [DoG_Gen_Optimizer._optimize]: [None] when it was never set. *)
Record optimizer : Type := {
  model_name : string;
  args : Args;
  mol_buffer : dict (score * nat);
  all_smiles : list string;
  oracle_attr : option evaluator
}.

Record state : Type := {
  self : optimizer;
  ostate : oracle_state;
  trace : list event
}.

Definition with_mol_buffer (b : dict (score * nat)) (o : optimizer) : optimizer :=
  {| model_name := model_name o; args := args o; mol_buffer := b;
     all_smiles := all_smiles o; oracle_attr := oracle_attr o |}.

Definition with_model_name (n : string) (o : optimizer) : optimizer :=
  {| model_name := n; args := args o; mol_buffer := mol_buffer o;
     all_smiles := all_smiles o; oracle_attr := oracle_attr o |}.

(** ** Computations that change the state and may raise *)

Definition M (A : Type) : Type := state -> (exn + A) * state.

Definition ret {A} (a : A) : M A := fun st => (inr a, st).

Definition raise {A} (e : exn) : M A := fun st => (inl e, st).

Definition bind {A B} (m : M A) (k : A -> M B) : M B :=
  fun st =>
    match m st with
    | (inl e, st') => (inl e, st')
    | (inr a, st') => k a st'
    end.

Definition gets {A} (f : state -> A) : M A := fun st => (inr (f st), st).

Definition lift {A} (r : exn + A) : M A := fun st => (r, st).

Definition set_mol_buffer (b : dict (score * nat)) : M unit :=
  fun st => (inr tt, {| self := with_mol_buffer b (self st);
                        ostate := ostate st; trace := trace st |}).

Definition emit (e : event) : M unit :=
  fun st => (inr tt, {| self := self st; ostate := ostate st;
                        trace := trace st ++ [e] |}).

(** Calling the oracle: the call is recorded and the oracle's state moves. *)
Definition call_oracle
    (f : string -> oracle_state -> score * oracle_state) (smi : string) : M score :=
  fun st =>
    let (s, o') := f smi (ostate st) in
    (inr s, {| self := self st; ostate := o'; trace := trace st ++ [EOracle smi] |}).

End Model.

Declare Scope py_scope.
Delimit Scope py_scope with py.
Notation "x <- m ;; k" := (bind m (fun x => k))
  (at level 61, m at next level, right associativity) : py_scope.
Notation "m ;; k" := (bind m (fun _ => k))
  (at level 61, right associativity) : py_scope.
Local Open Scope py_scope.

(** Exceptions without state: [exn + A]. *)
Definition ebind {A B} (r : exn + A) (k : A -> exn + B) : exn + B :=
  match r with
  | inl e => inl e
  | inr a => k a
  end.

Fixpoint emap {A B} (f : A -> exn + B) (l : list A) : exn + list B :=
  match l with
  | [] => inr []
  | x :: r => ebind (f x) (fun y => ebind (emap f r) (fun ys => inr (y :: ys)))
  end.

(** [for x in l: body(x)] *)
Fixpoint for_each `{Externals} {A} (l : list A) (body : A -> M unit) : M unit :=
  match l with
  | [] => ret tt
  | x :: r => body x ;; for_each r body
  end.

(** [str(n)] for an integer. *)
Definition py_str_int (n : Z) : string :=
  DecimalString.NilZero.string_of_int (Z.to_int n).

(** [s.strip()] *)
Definition is_space (c : ascii) : bool :=
  let n := nat_of_ascii c in
  Nat.eqb n 32 || (Nat.leb 9 n && Nat.leb n 13).

Fixpoint lstrip (s : string) : string :=
  match s with
  | String c s' => if is_space c then lstrip s' else s
  | EmptyString => EmptyString
  end.

Fixpoint string_rev (s acc : string) : string :=
  match s with
  | String c s' => string_rev s' (String c acc)
  | EmptyString => acc
  end.

Definition py_strip (s : string) : string :=
  string_rev (lstrip (string_rev (lstrip s) "")) "".

(** [yaml.dump(d, f, sort_keys=...)]: the mapping that is written, with its
    keys in the order they are written. *)
Definition yaml_dump {V} (d : dict V) (sort_keys : bool) : dict V :=
  if sort_keys then py_sorted String.ltb fst false (dict_items d)
  else dict_items d.

(** The names bound at module level of [optimizer.py] by its import
    statements, before the star import. *)
Definition optimizer_imports : list string :=
  ["json"; "os"; "joblib"; "yaml"; "np"; "delayed"; "Chem"; "Draw"; "tdc";
   "MolGen"; "wandb"].

(** Python's built-in functions and types. *)
Definition py_builtins : list string :=
  ["abs"; "aiter"; "all"; "anext"; "any"; "ascii"; "bin"; "bool";
   "breakpoint"; "bytearray"; "bytes"; "callable"; "chr"; "classmethod";
   "compile"; "complex"; "delattr"; "dict"; "dir"; "divmod"; "enumerate";
   "eval"; "exec"; "filter"; "float"; "format"; "frozenset"; "getattr";
   "globals"; "hasattr"; "hash"; "help"; "hex"; "id"; "input"; "int";
   "isinstance"; "issubclass"; "iter"; "len"; "list"; "locals"; "map";
   "max"; "memoryview"; "min"; "next"; "object"; "oct"; "open"; "ord";
   "pow"; "print"; "property"; "range"; "repr"; "reversed"; "round"; "set";
   "setattr"; "slice"; "sorted"; "staticmethod"; "str"; "sum"; "super";
   "tuple"; "type"; "vars"; "zip"; "__import__"].

(** Reading a name inside a method of [optimizer.py]: the function's local
    variables, then the module's globals (a later binding hides an earlier
    one), then the built-ins. *)
Definition lookup_name `{Externals} (locals : dict pyval) (name : string)
    : exn + pyval :=
  match dict_get name locals with
  | Some v => inr v
  | None =>
      let globals :=
        [("BaseOptimizer", PyObject)] ++ chem_exports
        ++ map (fun n => (n, PyObject)) (rev optimizer_imports) in
      match dict_get name globals with
      | Some v => inr v
      | None =>
          if existsb (String.eqb name) py_builtins then inr PyObject
          else inl (NameError name)
      end
  end.

(** ** [class BaseOptimizer] *)

Module BaseOptimizer.
Section Methods.
Context `{Externals}.

Definition buffer : M (dict (score * nat)) := gets (fun st => mol_buffer (self st)).

(** [np.max]: raises [ValueError] on an empty sequence. *)
Definition np_max (l : list score) : exn + score :=
  match l with
  | [] => inl ValueError
  | x :: r => inr (fold_left (fun m y => if score_ltb m y then y else m) r x)
  end.

(** [load_smiles_from_file(self, file_name)]:
    [with open(smi_file) as f: return self.pool(delayed(canonicalize)(s.strip()) for s in f)] *)
Definition load_smiles_from_file (file_name : string) : M (list string) :=
  v <- lift (lookup_name [("self", PyObject); ("file_name", PyStr file_name)]
                         "smi_file") ;;
  match v with
  | PyStr path =>
      emit (EOpenRead path) ;;
      match file_lines path with
      | Some lines => ret (map (fun s => canonicalize (py_strip s)) lines)
      | None => raise (FileNotFoundError path)
      end
  | PyObject => raise TypeError
  end.

(** [__init__(self, args=None)].  With [args=None] the read of
    [args.n_jobs] raises. *)
Definition init (a : option Args) : M unit :=
  match a with
  | None => raise (AttributeError "n_jobs")
  | Some a =>
      (fun st => (inr tt,
         {| self := {| model_name := "Default"; args := a; mol_buffer := [];
                       all_smiles := all_smiles (self st);
                       oracle_attr := oracle_attr (self st) |};
            ostate := ostate st; trace := trace st |})) ;;
      smiles <- match smi_file a with
                | Some file_name => load_smiles_from_file file_name
                | None => ret zinc_smiles
                end ;;
      (fun st => (inr tt,
         {| self := {| model_name := model_name (self st); args := args (self st);
                       mol_buffer := mol_buffer (self st);
                       all_smiles := smiles;
                       oracle_attr := oracle_attr (self st) |};
            ostate := ostate st; trace := trace st |}))
  end.

(** [sort_buffer(self)] *)
Definition sort_buffer : M unit :=
  b <- buffer ;;
  set_mol_buffer
    (dict_of_items (py_sorted score_ltb entry_score true (dict_items b))).

(** The loop of [score_mol]; [score_list] is the list built so far.  The
    bare [except:] is entered on the [KeyError] of [self.mol_buffer[smi]]. *)
Fixpoint score_mol_loop (oracle_func : string -> oracle_state -> score * oracle_state)
    (mol_list : list mol) (score_list : list score) : M (list score) :=
  match mol_list with
  | [] => ret score_list
  | m :: rest =>
      let smi := MolToSmiles m in
      b <- buffer ;;
      match dict_get smi b with
      | Some v => score_mol_loop oracle_func rest (score_list ++ [fst v])
      | None =>
          s <- call_oracle oracle_func smi ;;
          b' <- buffer ;;
          set_mol_buffer (dict_set smi (s, dict_len b' + 1) b') ;;
          score_mol_loop oracle_func rest (score_list ++ [s])
      end
  end.

(** [score_mol(self, oracle_func, mol_list)] *)
Definition score_mol (oracle_func : string -> oracle_state -> score * oracle_state)
    (mol_list : list mol) : M (list score) :=
  score_list <- score_mol_loop oracle_func mol_list [] ;;
  sort_buffer ;;
  ret score_list.

(** [list(self.mol_buffer.items())[:100]] *)
Definition temp_top100 (b : dict (score * nat)) : list entry :=
  py_slice_to (dict_items b) 100.

(** [log_intermediate(self, mols=None, scores=None)] *)
Definition log_intermediate (mols : option (list mol))
    (scores : option (list score)) : M unit :=
  b <- buffer ;;
  smis_scores <-
    match mols, scores with
    | None, None =>
        ret (map fst (temp_top100 b), map entry_score (temp_top100 b))
    | Some ms, Some sc => ret (map MolToSmiles ms, sc)
    | _, _ => raise TypeError
    end ;;
  let smis := fst smis_scores in
  let scores := snd smis_scores in
  top1 <- lift (np_max scores) ;;
  len <- gets (fun st => dict_len (mol_buffer (self st))) ;;
  emit (EWandbLog (LogIntermediate
    {| avg_top1 := top1;
       avg_top10 := np_mean (py_slice_to (py_sorted score_ltb (fun s => s) true scores) 10);
       avg_top100 := np_mean scores;
       avg_sa := np_mean (sa_scorer smis);
       diversity_top100 := diversity_evaluator smis;
       n_oracle := len |})).

(** [_analyze_results(self, results)].  The elements of the returned list
    are evaluated in order, so [np.max(scores)] raises before the filter
    result is looked at. *)
Definition _analyze_results (results : list entry) : exn + analysis :=
  let results := py_slice_to results 100 in
  let scores_dict :=
    dict_of_items (map (fun item => (fst item, entry_score item)) results) in
  let smis := map fst results in
  let scores := map entry_score results in
  let smis_pass := mol_filter smis in
  ebind (np_max scores) (fun top1 =>
  ebind (emap (fun s => match dict_get s scores_dict with
                        | Some v => inr v
                        | None => inl (KeyError s)
                        end) smis_pass) (fun pass_scores =>
  ebind (np_max pass_scores) (fun top1_pass =>
  inr {| an_avg_top100 := np_mean scores;
         an_avg_top10 := np_mean (py_slice_to scores 10);
         an_avg_top1 := top1;
         an_diversity := diversity_evaluator smis;
         an_avg_sa := np_mean (sa_scorer smis);
         an_pct_pass := QArith_base.Qmake (Z.of_nat (List.length smis_pass)) 100;
         an_top1_pass := top1_pass |}))).

Definition log_num_oracles : list Z := [100; 500; 1000; 3000; 5000; 10000]%Z.

(** The first two statements of [log_result]: the items by insertion rank,
    cut to 10000. *)
Definition results_by_rank (b : dict (score * nat)) : list entry :=
  let results := py_sorted Nat.ltb entry_rank false (dict_items b) in
  if (10000 <? Z.of_nat (List.length results))%Z then py_slice_to results 10000
  else results.

(** [results_all_level] *)
Definition results_all_level (b : dict (score * nat)) : list (list entry) :=
  map (fun n_o => py_sorted score_ltb entry_score true
                    (py_slice_to (results_by_rank b) n_o))
      log_num_oracles.

(** The rows of the table "Top 100 Molecules": index [i] of the last level
    for [i in range(100)]. *)
Definition top100_rows (levels : list (list entry))
    : exn + list (nat * score * nat * image * string) :=
  emap (fun i =>
          match nth_error (last levels []) i with
          | Some item =>
              inr (i + 1, entry_score item, entry_rank item,
                   mol_image (fst item), fst item)
          | None => inl IndexError
          end)
       (seq 0 100).

(** The rows of the table "Batch metrics at various level". *)
Definition batch_rows (levels : list (list entry)) : exn + list (Z * analysis) :=
  emap (fun ir =>
          match nth_error log_num_oracles (fst ir) with
          | Some n_o => ebind (_analyze_results (snd ir)) (fun a => inr (n_o, a))
          | None => inl IndexError
          end)
       (combine (seq 0 (List.length levels)) levels).

(** [log_result(self)] *)
Definition log_result : M unit :=
  b <- buffer ;;
  let levels := results_all_level b in
  data <- lift (top100_rows levels) ;;
  emit (EWandbLog (LogTop100 data)) ;;
  data <- lift (batch_rows levels) ;;
  emit (EWandbLog (LogBatchMetrics data)).

(** [save_result(self, suffix=None)].  The buffer is sorted before the file
    is opened; when [open] raises, nothing is written. *)
Definition save_result (suffix : option string) : M unit :=
  dir <- gets (fun st => output_dir (args (self st))) ;;
  let output_file_path :=
    match suffix with
    | None => os_path_join dir "results.yaml"
    | Some suffix => os_path_join dir ("results_" ++ suffix ++ ".yaml")%string
    end in
  sort_buffer ;;
  match open_write_error output_file_path with
  | Some e => raise e
  | None =>
      b <- buffer ;;
      emit (EYamlDump output_file_path (yaml_dump b false))
  end.

(** [_optimize(self, oracle, config)]: to be overridden. *)
Definition _optimize (o : oracle) (config : dict Z) : M unit :=
  raise NotImplementedError.

(** [np.random.seed(seed)] for an integer: numpy raises [ValueError] unless
    the seed is between 0 and 2**32 - 1. *)
Definition np_random_seed (seed : Z) : M unit :=
  if ((0 <=? seed) && (seed <=? 2 ^ 32 - 1))%Z then emit (ENpSeed seed)
  else raise ValueError.

(** [optimize(self, oracle, config, seed=0)]; [_optimize] is the method of
    the subclass. *)
Definition optimize (_optimize : oracle -> dict Z -> M unit)
    (o : oracle) (config : dict Z) (seed : Z) : M unit :=
  name <- gets (fun st => model_name (self st)) ;;
  emit (EWandbInit (name ++ "_" ++ oracle_name o)%string) ;;
  np_random_seed seed ;;
  _optimize o config ;;
  log_result ;;
  name <- gets (fun st => model_name (self st)) ;;
  save_result (Some (name ++ "_" ++ oracle_name o ++ "_" ++ py_str_int seed)%string) ;;
  set_mol_buffer [] ;;
  emit ERunFinish.

Definition seeds : list Z :=
  [2; 3; 5; 7; 11; 13; 17; 19; 23; 29; 31; 37; 41; 43; 47; 53; 59; 61; 67;
   71; 73; 79; 83; 89; 97]%Z.

(** [production(self, oracle, config, num_runs=5)] *)
Definition production (_optimize : oracle -> dict Z -> M unit)
    (o : oracle) (config : dict Z) (num_runs : Z) : M unit :=
  for_each (py_slice_to seeds num_runs)
    (fun seed => optimize _optimize o config seed ;; set_mol_buffer []).

End Methods.
End BaseOptimizer.

(** ** [main/dog_gen/run.py] *)

Module DoG_Gen_Optimizer.
Section Methods.
Context `{Externals}.

Definition TB_LOGS_FILE : string := "tb_logs".

(** What the code outside [src/] does when it is called ([syn_dags], the
    evaluator behind [self.oracle], numpy, torch): it may change the
    optimizer object and the oracle's state (the hillclimber is handed
    [self.oracle] to score molecules), and it may raise.  The values that
    the calls return are those of the surroundings. *)
Variable absent :
  ext_call -> optimizer * oracle_state -> (exn + unit) * (optimizer * oracle_state).

(** A call into that code: the call is recorded, then it takes effect. *)
Definition external (c : ext_call) : M unit :=
  fun st =>
    let (r, so) := absent c (self st, ostate st) in
    (r, {| self := fst so; ostate := snd so; trace := trace st ++ [EExt c] |}).

(** [class Params], as far as [_optimize] reads it. *)
Record Params : Type := {
  device : string;
  train_tree_path : string;
  valid_tree_path : string;
  weight_path : string;
  num_dataloader_workers : Z;
  opt_name : string;
  log_for_reaction_predictor_path : string
}.

(** [Params.__init__(self, task_name, weight_path)] *)
Definition Params_init (task_name weight_path : string) : M Params :=
  external (GetTask "qed") ;;
  ret {| device := torch_device;
         train_tree_path := os_path_join path_here
           "scripts/dataset_creation/data/uspto-train-depth_and_tree_tuples.pick";
         valid_tree_path := os_path_join path_here
           "scripts/dataset_creation/data/uspto-valid-depth_and_tree_tuples.pick";
         weight_path := weight_path;
         num_dataloader_workers := 4;
         opt_name := task_name;
         log_for_reaction_predictor_path :=
           os_path_join (os_path_join path_here "logs")
                        ("reactions-" ++ run_name ++ ".log")%string |}.

(** [__init__(self, args=None)] *)
Definition init (a : option Args) : M unit :=
  BaseOptimizer.init a ;;
  (fun st => (inr tt, {| self := with_model_name "dog_gen" (self st);
                         ostate := ostate st; trace := trace st |})).

(** [config[key]] *)
Definition config_get (config : dict Z) (key : string) : M Z :=
  match dict_get key config with
  | Some v => ret v
  | None => raise (KeyError key)
  end.

(** [self.oracle]: the attribute must have been set. *)
Definition get_oracle_attr : M evaluator :=
  a <- gets (fun st => oracle_attr (self st)) ;;
  match a with
  | Some ev => ret ev
  | None => raise (AttributeError "oracle")
  end.

(** [_optimize(self, oracle, config)]. *)
Definition _optimize (o : oracle) (config : dict Z) : M unit :=
  ev <- get_oracle_attr ;;
  external (AssignEvaluator ev o) ;;
  external (NpRandomState 5156) ;;
  external (TorchManualSeed 5115) ;;
  let weight_path' :=
    os_path_join path_here "scripts/dog_gen/chkpts/doggen_weights.pth.pick" in
  params <- Params_init "optimize" weight_path' ;;
  external (LoadTupleTrees (train_tree_path params)) ;;
  let train_trees := load_tuple_trees (train_tree_path params) in
  external (LoadTupleTrees (valid_tree_path params)) ;;
  let val_trees := load_tuple_trees (valid_tree_path params) in
  let train_trees := train_trees ++ val_trees in
  external (LoadDoggenModel (device params)
              (log_for_reaction_predictor_path params) (weight_path params)) ;;
  external (SummaryWriter TB_LOGS_FILE) ;;
  n_rounds <- config_get config "n_rounds" ;;
  n_samples_per_round <- config_get config "n_samples_per_round" ;;
  n_samples_to_keep_per_round <- config_get config "n_samples_to_keep_per_round" ;;
  external (HillclimbingParams n_rounds n_samples_per_round
                                  n_samples_to_keep_per_round) ;;
  ev' <- get_oracle_attr ;;
  external (HillclimberParts ev' (device params)) ;;
  external NewHillclimber ;;
  external (RunHillclimbing train_trees).

End Methods.
End DoG_Gen_Optimizer.

(** ** Construction *)

(** An object on which no attribute has been set yet: what [__init__]
    receives as [self] when the class is called.  The fields that
    [__init__] assigns hold placeholders until then. *)
Definition blank_object `{Externals} : optimizer :=
  {| model_name := ""; args := {| n_jobs := 0; smi_file := None; output_dir := "" |};
     mol_buffer := []; all_smiles := []; oracle_attr := None |}.

Definition start `{Externals} (o : oracle_state) (t : list event) : state :=
  {| self := blank_object; ostate := o; trace := t |}.

(** ** A small instance: isotopologues of methane

    Molecule [n] is methane with a carbon of mass number [n], written
    [[nCH4]]; its score is the length of that string. *)

Module Demo.

Definition methane (n : nat) : string :=
  ("[" ++ py_str_int (Z.of_nat n) ++ "CH4]")%string.

Definition mean (l : list Z) : Z :=
  match l with
  | [] => 0
  | _ => fold_right Z.add 0%Z l / Z.of_nat (List.length l)
  end.

#[local] Instance demo_externals : Externals := {|
  mol := nat;
  MolToSmiles := methane;
  score := Z;
  score_ltb := Z.ltb;
  oracle_state := nat;
  np_mean := mean;
  sa_scorer := map (fun s => Z.of_nat (String.length s));
  diversity_evaluator := fun l => Z.of_nat (List.length l);
  mol_filter := fun l => l;
  image := string;
  mol_image := fun s => s;
  zinc_smiles := ["C"; "CC"];
  chem_exports := [("canonicalize", PyObject); ("Chem", PyObject)];
  canonicalize := fun s => s;
  file_lines := fun _ => None;
  open_write_error := fun path =>
    if String.prefix "out/" path then None else Some (FileNotFoundError path);
  evaluator := unit;
  tree := nat;
  load_tuple_trees := fun p => [String.length p];
  path_here := "/repo/main/dog_gen";
  torch_device := "cpu";
  run_name := "run"
|}.

(** The oracle counts its calls in its state. *)
Definition demo_oracle : oracle :=
  {| oracle_name := "len";
     oracle_func := fun smi calls => (Z.of_nat (String.length smi), S calls) |}.

Definition demo_args : Args :=
  {| n_jobs := 1; smi_file := None; output_dir := "out" |}.

(** A subclass whose [_optimize] scores 100 molecules, the first five of
    them twice. *)
Definition demo_optimize (o : oracle) (config : dict Z) : M unit :=
  BaseOptimizer.score_mol (oracle_func o) (seq 8 5) ;;
  BaseOptimizer.score_mol (oracle_func o) (seq 8 100) ;;
  ret tt.

Definition demo_start : state := start 0 [].

(** The object that [BaseOptimizer(demo_args)] constructs. *)
Definition demo_ready : state :=
  snd (BaseOptimizer.init (Some demo_args) demo_start).

(** The same after a first use of the cache. *)
Definition demo_used : state :=
  snd (BaseOptimizer.score_mol (oracle_func demo_oracle) [13; 12; 13; 100] demo_ready).

(** The same after one call of [demo_optimize]. *)
Definition demo_full : state :=
  snd (demo_optimize demo_oracle [] demo_ready).

(** An object whose buffer was filled by hand, lowest score first. *)
Definition demo_unsorted : state :=
  {| self := with_mol_buffer
               [("[1CH4]", (6%Z, 1)); ("[12CH4]", (7%Z, 2)); ("[100CH4]", (8%Z, 3));
                ("[13CH4]", (7%Z, 4))]
               (self demo_ready);
     ostate := 4; trace := [] |}.

(** The same buffer in an object whose output directory does not exist. *)
Definition demo_no_dir : state :=
  {| self := with_mol_buffer (mol_buffer (self demo_unsorted))
               (self (snd (BaseOptimizer.init
                  (Some {| n_jobs := 1; smi_file := None; output_dir := "missing" |})
                  demo_start)));
     ostate := 4; trace := [] |}.

(** The same surroundings with a filter that lets no molecule pass. *)
Definition strict_externals : Externals := {|
  mol := nat;
  MolToSmiles := methane;
  score := Z;
  score_ltb := Z.ltb;
  oracle_state := nat;
  np_mean := mean;
  sa_scorer := map (fun s => Z.of_nat (String.length s));
  diversity_evaluator := fun l => Z.of_nat (List.length l);
  mol_filter := fun _ => [];
  image := string;
  mol_image := fun s => s;
  zinc_smiles := ["C"; "CC"];
  chem_exports := [("canonicalize", PyObject); ("Chem", PyObject)];
  canonicalize := fun s => s;
  file_lines := fun _ => None;
  open_write_error := fun _ => None;
  evaluator := unit;
  tree := nat;
  load_tuple_trees := fun p => [String.length p];
  path_here := "/repo/main/dog_gen";
  torch_device := "cpu";
  run_name := "run"
|}.

End Demo.

(** ** Notions used in the statements *)

(** Python's [<] on scores is a strict weak order: no score is both below
    and above another, and "not below" is transitive.  Floats other than
    NaN satisfy this. *)
Definition strict_weak {K} (ltk : K -> K -> bool) : Prop :=
  (forall a b, ltk a b = true -> ltk b a = false) /\
  (forall a b c, ltk a b = false -> ltk b c = false -> ltk a c = false).

(** A Python dict holds each key once. *)
Definition keys_unique {V} (d : dict V) : Prop := NoDup (dict_keys d).

(** The keys of [l] that are not in [seen], each once, in the order of
    their first occurrence. *)
Fixpoint new_keys (seen : list string) (l : list string) : list string :=
  match l with
  | [] => []
  | x :: r =>
      if existsb (String.eqb x) seen then new_keys seen r
      else x :: new_keys (seen ++ [x]) r
  end.

Definition first_seen (l : list string) : list string := new_keys [] l.

(** [a] may stand before [b] in a list sorted with [py_insert passes]. *)
Definition in_order {A} (passes : A -> A -> bool) (a b : A) : Prop :=
  passes a b = false.

Section Notions.
Context `{Externals}.

(** Scores do not increase along the list. *)
Definition sorted_desc (l : list entry) : Prop :=
  StronglySorted (fun a b => score_ltb (entry_score a) (entry_score b) = false) l.

(** The order of [sorted(..., key=lambda kv: kv[1][1], reverse=False)]. *)
Definition rank_passes : entry -> entry -> bool := py_passes Nat.ltb entry_rank false.

(** A buffer whose entries, arranged suitably, carry the keys [keys] and the
    ranks 1, 2, ... in this order. *)
Definition ranked (b : dict (score * nat)) (keys : list string) : Prop :=
  exists L : list entry,
    Permutation b L /\ map fst L = keys /\
    map entry_rank L = seq 1 (List.length L) /\ NoDup keys.

(** The arguments of the calls of [np.random.seed], in order. *)
Definition np_seeds (t : list event) : list Z :=
  flat_map (fun e => match e with ENpSeed s => [s] | _ => [] end) t.






(** A sequence of [score_mol] calls. *)
Definition score_mols
    (cs : list ((string -> oracle_state -> score * oracle_state) * list mol))
    : M unit :=
  for_each cs (fun c => BaseOptimizer.score_mol (fst c) (snd c) ;; ret tt).

(** [runs seeds st st']: starting in [st], one call of [optimize] per seed,
    in order, each returning normally, each starting and ending with an
    empty buffer, leads to [st']. *)
Inductive runs (_optimize : oracle -> dict Z -> M unit) (o : oracle)
    (config : dict Z) : list Z -> state -> state -> Prop :=
| runs_nil : forall st, runs _optimize o config [] st st
| runs_cons : forall seed rest st st1 st2,
    mol_buffer (self st) = [] ->
    BaseOptimizer.optimize _optimize o config seed st = (inr tt, st1) ->
    mol_buffer (self st1) = [] ->
    runs _optimize o config rest st1 st2 ->
    runs _optimize o config (seed :: rest) st st2.

(** The levels of [log_result] as the specification words them: order by
    insertion rank, keep the first 10000, and for a budget [n] take the
    first [n] of these and order them by score, highest first. *)
Definition spec_level (b : dict (score * nat)) (n : Z) : list entry :=
  let by_rank := py_sorted Nat.ltb entry_rank false (dict_items b) in
  let truncated := firstn (Z.to_nat 10000) by_rank in
  py_sorted score_ltb entry_score true (firstn (Z.to_nat n) truncated).

Definition spec_levels (b : dict (score * nat)) : list (list entry) :=
  map (spec_level b) [100; 500; 1000; 3000; 5000; 10000]%Z.

End Notions.

(** ** Further code of [optimizer.py] *)

(** What [Chem.MolToSmiles(mol)] does inside [sanitize]: it returns a
    string, returns [None], or raises [ValueError]. *)
Inductive smiles_outcome : Type :=
| Smiles (s : string)
| NoSmiles
| SmilesValueError.

Section Sanitize.
Context `{Externals}.
Variable to_smiles : mol -> smiles_outcome.

(** The loop of [sanitize]; an element of [mol_list] may be [None].
    [smiles_set] is used for membership and insertion only; [printed]
    collects the lines written by [print]. *)
Fixpoint sanitize_loop (mol_list : list (option mol)) (new_mol_list : list mol)
    (smiles_set : list string) (printed : list string)
    : list mol * list string :=
  match mol_list with
  | [] => (new_mol_list, printed)
  | None :: rest => sanitize_loop rest new_mol_list smiles_set printed
  | Some m :: rest =>
      match to_smiles m with
      | Smiles smiles =>
          if existsb (String.eqb smiles) smiles_set
          then sanitize_loop rest new_mol_list smiles_set printed
          else sanitize_loop rest (new_mol_list ++ [m]) (smiles_set ++ [smiles])
                             printed
      | NoSmiles => sanitize_loop rest new_mol_list smiles_set printed
      | SmilesValueError =>
          sanitize_loop rest new_mol_list smiles_set (printed ++ ["bad smiles"])
      end
  end.

(** [sanitize(self, mol_list)]: the returned list and what was printed. *)
Definition sanitize (mol_list : list (option mol)) : list mol * list string :=
  sanitize_loop mol_list [] [] [].

(** The SMILES string of an element, when it has one. *)
Definition smiles_of (om : option mol) : list string :=
  match om with
  | Some m => match to_smiles m with Smiles s => [s] | _ => [] end
  | None => []
  end.

(** Whether converting an element raises [ValueError]. *)
Definition is_bad_smiles (om : option mol) : bool :=
  match om with
  | Some m => match to_smiles m with SmilesValueError => true | _ => false end
  | None => false
  end.

End Sanitize.

Section MoreNotions.
Context `{Externals}.

(** The arguments of the oracle calls, in order. *)
Definition oracle_calls (t : list event) : list string :=
  flat_map (fun e => match e with EOracle smi => [smi] | _ => [] end) t.

(** The paths written by [yaml.dump], in order. *)
Definition files_written (t : list event) : list string :=
  flat_map (fun e => match e with EYamlDump path _ => [path] | _ => [] end) t.

(** Every score in the buffer is the answer [g] gives for its key. *)
Definition answers (g : string -> score) (b : dict (score * nat)) : Prop :=
  forall k s r, dict_get k b = Some (s, r) -> s = g k.

(** The result file of a run of [optimize]. *)
Definition run_file (dir model oracle_name : string) (seed : Z) : string :=
  os_path_join dir
    ("results_" ++ (model ++ "_" ++ oracle_name ++ "_" ++ py_str_int seed)
     ++ ".yaml")%string.

(** The state in which [optimize] calls [_optimize]: the run has been
    opened and the generator seeded. *)
Definition run_started (o : oracle) (seed : Z) (st : state) : state :=
  {| self := self st; ostate := ostate st;
     trace := (trace st
               ++ [EWandbInit (model_name (self st) ++ "_" ++ oracle_name o)%string])
               ++ [ENpSeed seed] |}.

(** The code outside [src/] returns normally whenever it is called, and
    leaves the attribute [oracle] of the optimizer as it is. *)
Definition returns_normally_keeping_oracle
    (absent : ext_call -> optimizer * oracle_state ->
              (exn + unit) * (optimizer * oracle_state)) : Prop :=
  forall c s o, exists s' o',
    absent c (s, o) = (inr tt, (s', o')) /\ oracle_attr s' = oracle_attr s.

(** The state after a sequence of calls into that code. *)
Definition after_externals
    (absent : ext_call -> optimizer * oracle_state ->
              (exn + unit) * (optimizer * oracle_state))
    (cs : list ext_call) (st : state) : state :=
  fold_left (fun s c => snd (DoG_Gen_Optimizer.external absent c s)) cs st.

(** The calls that [DoG_Gen_Optimizer._optimize] makes before it reads the
    configuration, and those it makes afterwards. *)
Definition loading_calls (ev : evaluator) (o : oracle) : list ext_call :=
  [AssignEvaluator ev o; NpRandomState 5156; TorchManualSeed 5115;
   GetTask "qed";
   LoadTupleTrees (os_path_join path_here
     "scripts/dataset_creation/data/uspto-train-depth_and_tree_tuples.pick");
   LoadTupleTrees (os_path_join path_here
     "scripts/dataset_creation/data/uspto-valid-depth_and_tree_tuples.pick");
   LoadDoggenModel torch_device
     (os_path_join (os_path_join path_here "logs")
                   ("reactions-" ++ run_name ++ ".log")%string)
     (os_path_join path_here "scripts/dog_gen/chkpts/doggen_weights.pth.pick");
   SummaryWriter "tb_logs"].

Definition hillclimbing_calls (ev : evaluator) (n_rounds n_samples n_keep : Z)
    : list ext_call :=
  [HillclimbingParams n_rounds n_samples n_keep;
   HillclimberParts ev torch_device; NewHillclimber;
   RunHillclimbing
     (load_tuple_trees (os_path_join path_here
        "scripts/dataset_creation/data/uspto-train-depth_and_tree_tuples.pick")
      ++ load_tuple_trees (os_path_join path_here
        "scripts/dataset_creation/data/uspto-valid-depth_and_tree_tuples.pick"))].

(** The level of [log_result] for the budget [n_o]. *)
Definition level (b : dict (score * nat)) (n_o : Z) : list entry :=
  py_sorted score_ltb entry_score true
    (py_slice_to (BaseOptimizer.results_by_rank b) n_o).

End MoreNotions.

(** Further instances. *)
Module DemoMore.
Import Demo.
#[local] Existing Instance demo_externals.

(** Molecule 0 cannot be converted, molecule 1 has no SMILES string, every
    other molecule has the string of [methane]. *)
Definition demo_to_smiles : mol -> smiles_outcome := fun n : nat =>
  match n with
  | 0 => SmilesValueError
  | 1 => NoSmiles
  | _ => Smiles (methane n)
  end.

Definition demo_mols : list (option mol) :=
  [Some 13; None; Some 0; Some 12; Some 13; Some 1; Some 0; Some 14; Some 12].

(** The constructed object after a caller has set the attribute [oracle]. *)
Definition demo_with_oracle : state :=
  {| self := {| model_name := "dog_gen"; args := demo_args; mol_buffer := [];
                all_smiles := zinc_smiles; oracle_attr := Some tt |};
     ostate := 0; trace := [] |}.

(** Code outside [src/] for the instance: the hillclimber makes seven
    oracle calls of its own, everything else has no effect on the object. *)
Definition demo_absent (c : ext_call) (so : optimizer * oracle_state)
    : (exn + unit) * (optimizer * oracle_state) :=
  match c with
  | RunHillclimbing _ => (inr tt, (fst so, snd so + 7))
  | _ => (inr tt, so)
  end.

Definition demo_config : dict Z :=
  [("n_rounds", 3); ("n_samples_per_round", 40);
   ("n_samples_to_keep_per_round", 10)]%Z.

(** A subclass whose [_optimize] scores five molecules only. *)
Definition small_optimize (o : oracle) (config : dict Z) : M unit :=
  BaseOptimizer.score_mol (oracle_func o) (seq 8 5) ;;
  ret tt.

(** A subclass whose [_optimize] works for the seed 2 and raises afterwards:
    it scores 100 molecules as long as the oracle has not been called. *)
Definition flaky_optimize (o : oracle) (config : dict Z) : M unit :=
  calls <- gets (fun st => ostate st) ;;
  match calls with
  | 0 => demo_optimize o config
  | _ => raise ValueError
  end.

(** The surroundings with a filter that answers with a string of its own. *)
Definition foreign_externals : Externals := {|
  mol := nat;
  MolToSmiles := methane;
  score := Z;
  score_ltb := Z.ltb;
  oracle_state := nat;
  np_mean := mean;
  sa_scorer := map (fun s => Z.of_nat (String.length s));
  diversity_evaluator := fun l => Z.of_nat (List.length l);
  mol_filter := fun l => firstn 1 l ++ ["C"];
  image := string;
  mol_image := fun s => s;
  zinc_smiles := ["C"; "CC"];
  chem_exports := [("canonicalize", PyObject); ("Chem", PyObject)];
  canonicalize := fun s => s;
  file_lines := fun _ => None;
  open_write_error := fun _ => None;
  evaluator := unit;
  tree := nat;
  load_tuple_trees := fun p => [String.length p];
  path_here := "/repo/main/dog_gen";
  torch_device := "cpu";
  run_name := "run"
|}.

Definition two_results : list (string * (Z * nat)) :=
  [("[13CH4]", (7%Z, 1)); ("[12CH4]", (7%Z, 2))].

End DemoMore.

(** * Properties *)

(** ** Dicts *)

Lemma dict_get_app_some {V} (k : string) (v : V) (d d' : dict V) :
  dict_get k d = Some v -> dict_get k (d ++ d') = Some v.
Proof.
  induction d as [|[k' v'] d IH]; simpl; [discriminate|].
  destruct (String.eqb k k'); auto.
Qed.

Lemma dict_get_app_none {V} (k : string) (d d' : dict V) :
  dict_get k d = None -> dict_get k (d ++ d') = dict_get k d'.
Proof.
  induction d as [|[k' v'] d IH]; simpl; [reflexivity|].
  destruct (String.eqb k k'); [discriminate|auto].
Qed.

Lemma dict_get_none_iff {V} (k : string) (d : dict V) :
  dict_get k d = None <-> ~ In k (dict_keys d).
Proof.
  induction d as [|[k' v'] d IH]; simpl.
  - tauto.
  - destruct (String.eqb_spec k k') as [->|Hne].
    + split; [discriminate|intros Hn; exfalso; apply Hn; now left].
    + rewrite IH. split; intros Hn; [intros [E|Hin]; [congruence|tauto]|tauto].
Qed.

Lemma dict_get_existsb {V} (k : string) (d : dict V) :
  existsb (String.eqb k) (dict_keys d) =
  match dict_get k d with Some _ => true | None => false end.
Proof.
  induction d as [|[k' v'] d IH]; simpl; [reflexivity|].
  destruct (String.eqb k k'); simpl; auto.
Qed.

Lemma dict_get_in {V} (k : string) (v : V) (d : dict V) :
  dict_get k d = Some v -> In (k, v) d.
Proof.
  induction d as [|[k' v'] d IH]; simpl; [discriminate|].
  destruct (String.eqb_spec k k') as [->|Hne].
  - intros [= ->]. now left.
  - auto.
Qed.

Lemma in_dict_get {V} (k : string) (v : V) (d : dict V) :
  keys_unique d -> In (k, v) d -> dict_get k d = Some v.
Proof.
  unfold keys_unique, dict_keys.
  induction d as [|[k' v'] d IH]; simpl; [tauto|].
  intros Hnd [E|Hin]; inversion Hnd as [|? ? Hnotin Hnd']; subst.
  - inversion E; subst. now rewrite String.eqb_refl.
  - destruct (String.eqb_spec k k') as [->|Hne]; [|auto].
    exfalso. apply Hnotin. now apply (in_map fst) in Hin.
Qed.

Lemma dict_set_new {V} (k : string) (v : V) (d : dict V) :
  dict_get k d = None -> dict_set k v d = d ++ [(k, v)].
Proof.
  induction d as [|[k' v'] d IH]; simpl; [reflexivity|].
  destruct (String.eqb k k'); [discriminate|].
  intros Hn. now rewrite IH.
Qed.

Lemma dict_of_items_acc {V} (l acc : list (string * V)) :
  NoDup (map fst (acc ++ l)) ->
  fold_left (fun d kv => dict_set (fst kv) (snd kv) d) l acc = acc ++ l.
Proof.
  revert acc. induction l as [|[k v] l IH]; intros acc Hnd; simpl.
  - now rewrite app_nil_r.
  - rewrite dict_set_new.
    + rewrite IH; rewrite <- app_assoc; [reflexivity|exact Hnd].
    + apply dict_get_none_iff. unfold dict_keys.
      rewrite map_app in Hnd. simpl in Hnd.
      apply NoDup_remove_2 in Hnd. intros Hin. apply Hnd.
      apply in_or_app. now left.
Qed.

Lemma dict_of_items_unique {V} (l : list (string * V)) :
  NoDup (map fst l) -> dict_of_items l = l.
Proof. intros Hnd. unfold dict_of_items. now rewrite dict_of_items_acc. Qed.

Lemma keys_unique_perm {V} (d d' : dict V) :
  Permutation d d' -> keys_unique d -> keys_unique d'.
Proof.
  unfold keys_unique, dict_keys. intros Hp Hnd.
  eapply Permutation_NoDup; [|exact Hnd]. now apply Permutation_map.
Qed.

Lemma dict_get_perm {V} (d d' : dict V) (k : string) :
  Permutation d d' -> keys_unique d -> dict_get k d' = dict_get k d.
Proof.
  intros Hp Hnd.
  assert (Hnd' : keys_unique d') by (eapply keys_unique_perm; eauto).
  destruct (dict_get k d) as [v|] eqn:E.
  - apply in_dict_get; [exact Hnd'|].
    eapply Permutation_in; [exact Hp|]. now apply dict_get_in.
  - apply dict_get_none_iff. apply dict_get_none_iff in E.
    intros Hin. apply E. unfold dict_keys in *.
    eapply Permutation_in; [|exact Hin].
    apply Permutation_map. now apply Permutation_sym.
Qed.

(** ** Python's [sorted] *)

Section Sorting.
Context {A : Type} (passes : A -> A -> bool).

Lemma py_insert_perm (x : A) (l : list A) :
  Permutation (py_insert passes x l) (x :: l).
Proof.
  induction l as [|y l IH]; simpl; [reflexivity|].
  destruct (passes x y); [|reflexivity].
  rewrite IH. apply perm_swap.
Qed.

Lemma fold_insert_perm (l : list A) :
  Permutation (fold_right (py_insert passes) [] l) l.
Proof.
  induction l as [|x l IH]; simpl; [reflexivity|].
  rewrite py_insert_perm. now constructor.
Qed.

Hypothesis passes_asym : forall a b, passes a b = true -> passes b a = false.
Hypothesis passes_negtrans :
  forall a b c, passes a b = false -> passes b c = false -> passes a c = false.

Lemma py_insert_sorted (x : A) (l : list A) :
  StronglySorted (in_order passes) l ->
  StronglySorted (in_order passes) (py_insert passes x l).
Proof.
  induction l as [|y l IH]; simpl; intros Hs.
  - repeat constructor.
  - inversion Hs as [|? ? Hs' Hall]; subst.
    destruct (passes x y) eqn:E.
    + constructor; [auto|].
      eapply Permutation_Forall; [symmetry; apply py_insert_perm|].
      constructor; [now apply passes_asym|exact Hall].
    + constructor; [exact Hs|].
      constructor; [exact E|].
      eapply Forall_impl; [|exact Hall].
      intros z Hz. eapply passes_negtrans; eauto.
Qed.

Lemma fold_insert_sorted (l : list A) :
  StronglySorted (in_order passes) (fold_right (py_insert passes) [] l).
Proof.
  induction l as [|x l IH]; simpl; [constructor|now apply py_insert_sorted].
Qed.

End Sorting.

Section SortingFacts.
Context {A : Type} (passes : A -> A -> bool).

(** Sorting a sorted list changes nothing. *)
Lemma fold_insert_fixed (l : list A) :
  StronglySorted (in_order passes) l -> fold_right (py_insert passes) [] l = l.
Proof.
  induction l as [|x l IH]; simpl; intros Hs; [reflexivity|].
  inversion Hs as [|? ? Hs' Hall]; subst.
  rewrite IH by exact Hs'.
  destruct l as [|y l]; simpl; [reflexivity|].
  inversion Hall as [|? ? Hxy _]; subst.
  unfold in_order in Hxy. now rewrite Hxy.
Qed.

(** Two sorted arrangements of the same elements are equal when any two
    different elements are strictly ordered one way or the other. *)
Lemma sorted_perm_unique (l1 l2 : list A) :
  Permutation l1 l2 ->
  StronglySorted (in_order passes) l1 ->
  StronglySorted (in_order passes) l2 ->
  (forall a b, In a l1 -> In b l1 -> a <> b ->
               passes a b = true \/ passes b a = true) ->
  (forall a, In a l1 -> passes a a = false) ->
  NoDup l1 ->
  l1 = l2.
Proof.
  revert l2. induction l1 as [|a l1 IH]; intros l2 Hp H1 H2 Htot Hirr Hnd.
  - apply Permutation_nil in Hp. now subst.
  - destruct l2 as [|b l2].
    + symmetry in Hp. apply Permutation_nil in Hp. discriminate.
    + inversion H1 as [|? ? H1' Hall1]; subst.
      inversion H2 as [|? ? H2' Hall2]; subst.
      inversion Hnd as [|? ? Hnotin Hnd']; subst.
      assert (Eab : a = b).
      { assert (Hb : In b (a :: l1))
          by (eapply Permutation_in; [symmetry; exact Hp|now left]).
        assert (Ha : In a (b :: l2))
          by (eapply Permutation_in; [exact Hp|now left]).
        destruct Hb as [E|Hb]; [exact E|].
        destruct Ha as [E|Ha]; [now symmetry|].
        rewrite Forall_forall in Hall1, Hall2.
        pose proof (Hall1 b Hb) as Hab. pose proof (Hall2 a Ha) as Hba.
        unfold in_order in Hab, Hba.
        destruct (Htot a b) as [Ht|Ht]; [now left|now right| |congruence|congruence].
        intros ->. contradiction. }
      subst b. f_equal.
      apply IH; auto.
      * eapply Permutation_cons_inv; exact Hp.
      * intros x y Hx Hy. apply Htot; now right.
      * intros x Hx. apply Hirr. now right.
Qed.

End SortingFacts.

Lemma py_sorted_perm {A K} (ltk : K -> K -> bool) (key : A -> K)
    (reverse : bool) (l : list A) :
  Permutation (py_sorted ltk key reverse l) l.
Proof. apply fold_insert_perm. Qed.

Lemma py_sorted_length {A K} (ltk : K -> K -> bool) (key : A -> K)
    (reverse : bool) (l : list A) :
  List.length (py_sorted ltk key reverse l) = List.length l.
Proof. apply Permutation_length, py_sorted_perm. Qed.

Lemma py_slice_to_nonneg {A} (l : list A) (n : Z) :
  (0 <= n)%Z -> py_slice_to l n = firstn (Z.to_nat n) l.
Proof.
  intros Hn. unfold py_slice_to.
  destruct (Z.leb_spec 0 n); [reflexivity|lia].
Qed.

Section ScoreOrder.
Context `{Externals}.
Hypothesis score_order : strict_weak score_ltb.

Lemma sort_desc_sorted (l : list entry) :
  sorted_desc (py_sorted score_ltb entry_score true l).
Proof.
  destruct score_order as [Hasym Hneg].
  unfold sorted_desc, py_sorted.
  apply (fold_insert_sorted (py_passes score_ltb entry_score true)).
  - intros a b. unfold py_passes. apply Hasym.
  - intros a b c. unfold py_passes. apply Hneg.
Qed.

End ScoreOrder.

Lemma sort_desc_fixed `{Externals} (l : list entry) :
  sorted_desc l -> py_sorted score_ltb entry_score true l = l.
Proof.
  intros Hs. unfold py_sorted.
  apply (fold_insert_fixed (py_passes score_ltb entry_score true)).
  exact Hs.
Qed.

(** ** First occurrences *)

Lemma existsb_eqb_in (x : string) (l : list string) :
  existsb (String.eqb x) l = true <-> In x l.
Proof.
  rewrite existsb_exists. split.
  - intros (y & Hy & E). apply String.eqb_eq in E. now subst.
  - intros Hin. exists x. split; [exact Hin|apply String.eqb_refl].
Qed.

Lemma new_keys_fresh (seen l : list string) :
  NoDup (new_keys seen l) /\
  forall x, In x (new_keys seen l) -> ~ In x seen /\ In x l.
Proof.
  revert seen. induction l as [|y l IH]; intros seen; simpl.
  - split; [constructor|tauto].
  - destruct (existsb (String.eqb y) seen) eqn:E.
    + destruct (IH seen) as [Hnd Hin]. split; [exact Hnd|].
      intros x Hx. destruct (Hin x Hx). tauto.
    + destruct (IH (seen ++ [y])) as [Hnd Hin].
      assert (Hy : ~ In y seen).
      { intros Hy. apply existsb_eqb_in in Hy. congruence. }
      split.
      * constructor; [|exact Hnd].
        intros Hy'. destruct (Hin y Hy') as [Hn _].
        apply Hn. apply in_or_app. right. now left.
      * intros x [->|Hx]; [tauto|].
        destruct (Hin x Hx) as [Hn Hl]. split; [|tauto].
        intros Hs. apply Hn. apply in_or_app. now left.
Qed.

Lemma new_keys_ext (s1 s2 l : list string) :
  (forall x, In x s1 <-> In x s2) -> new_keys s1 l = new_keys s2 l.
Proof.
  revert s1 s2. induction l as [|y l IH]; intros s1 s2 Hs; simpl; [reflexivity|].
  assert (E : existsb (String.eqb y) s1 = existsb (String.eqb y) s2).
  { destruct (existsb (String.eqb y) s2) eqn:E2.
    - apply existsb_eqb_in. apply Hs. now apply existsb_eqb_in.
    - destruct (existsb (String.eqb y) s1) eqn:E1; [|reflexivity].
      apply existsb_eqb_in in E1. apply Hs in E1.
      apply existsb_eqb_in in E1. congruence. }
  rewrite E. destruct (existsb (String.eqb y) s2).
  - now apply IH.
  - f_equal. apply IH. intros x. rewrite !in_app_iff. now rewrite Hs.
Qed.

Lemma new_keys_app (seen l1 l2 : list string) :
  new_keys seen (l1 ++ l2) =
  new_keys seen l1 ++ new_keys (seen ++ new_keys seen l1) l2.
Proof.
  revert seen. induction l1 as [|y l1 IH]; intros seen; simpl.
  - now rewrite app_nil_r.
  - destruct (existsb (String.eqb y) seen).
    + apply IH.
    + simpl. f_equal. rewrite IH. f_equal. f_equal.
      rewrite <- app_assoc. reflexivity.
Qed.

(** ** The loop of [score_mol] *)

Section ScoreMol.
Context `{Externals}.

Lemma state_eta (st : state) :
  {| self := with_mol_buffer (mol_buffer (self st)) (self st);
     ostate := ostate st; trace := trace st |} = st.
Proof. destruct st as [[? ? ? ? ?] ? ?]. reflexivity. Qed.

(** The loop appends the new keys to the buffer in the order in which they
    are first met, calls the oracle once for each of them, numbers them
    from the size of the buffer on, and returns for every molecule the
    score that the buffer then holds for it. *)
Lemma score_mol_loop_spec (f : string -> oracle_state -> score * oracle_state)
    (ms : list mol) :
  forall (acc : list score) (st : state),
  exists (scores : list score) (news : list entry) (o' : oracle_state),
    BaseOptimizer.score_mol_loop f ms acc st =
      (inr (acc ++ scores),
       {| self := with_mol_buffer (mol_buffer (self st) ++ news) (self st);
          ostate := o';
          trace := trace st ++ map EOracle (map fst news) |}) /\
    map fst news =
      new_keys (dict_keys (mol_buffer (self st))) (map MolToSmiles ms) /\
    map entry_rank news =
      seq (dict_len (mol_buffer (self st)) + 1) (List.length news) /\
    Forall2 (fun m s => exists r,
               dict_get (MolToSmiles m) (mol_buffer (self st) ++ news) = Some (s, r))
            ms scores.
Proof.
  induction ms as [|m ms IH]; intros acc st.
  - exists [], [], (ostate st). simpl. rewrite !app_nil_r.
    repeat split; [|constructor].
    unfold ret. now rewrite state_eta.
  - simpl. unfold bind at 1. unfold BaseOptimizer.buffer at 1. unfold gets at 1.
    rewrite dict_get_existsb.
    destruct (dict_get (MolToSmiles m) (mol_buffer (self st))) as [v|] eqn:E.
    + destruct (IH (acc ++ [fst v]) st) as (scores & news & o' & Heq & Hk & Hr & Hf).
      exists (fst v :: scores), news, o'.
      rewrite Heq, <- app_assoc. repeat split; auto.
      constructor; [|exact Hf].
      exists (snd v). rewrite <- surjective_pairing.
      now apply dict_get_app_some.
    + unfold bind at 1. unfold call_oracle.
      destruct (f (MolToSmiles m) (ostate st)) as [s o1].
      unfold bind at 1. unfold BaseOptimizer.buffer at 1. unfold gets at 1.
      unfold bind at 1. unfold set_mol_buffer at 1. cbn [self ostate trace].
      rewrite dict_set_new by exact E.
      match goal with
      | |- context [BaseOptimizer.score_mol_loop f ms ?a ?s] =>
          destruct (IH a s) as (scores & news & o' & Heq & Hk & Hr & Hf)
      end.
      cbn [self ostate trace mol_buffer with_mol_buffer] in Heq, Hk, Hr, Hf.
      set (e := (MolToSmiles m, (s, dict_len (mol_buffer (self st)) + 1))) in *.
      exists (s :: scores), (e :: news), o'.
      rewrite Heq, <- !app_assoc. cbn [map fst List.length app].
      repeat split.
      * f_equal. rewrite Hk. unfold dict_keys. now rewrite map_app.
      * cbn [seq]. f_equal. rewrite Hr. unfold dict_len.
        rewrite length_app. cbn. f_equal. lia.
      * constructor; [|now rewrite <- app_assoc in Hf].
        exists (dict_len (mol_buffer (self st)) + 1).
        rewrite dict_get_app_none by exact E.
        cbn. now rewrite String.eqb_refl.
Qed.

End ScoreMol.

(** ** [sort_buffer] and [score_mol] *)

Section Buffer.
Context `{Externals}.

Lemma sort_buffer_run (st : state) :
  BaseOptimizer.sort_buffer st =
  (inr tt,
   {| self := with_mol_buffer
                (dict_of_items (py_sorted score_ltb entry_score true
                                  (dict_items (mol_buffer (self st)))))
                (self st);
      ostate := ostate st; trace := trace st |}).
Proof. reflexivity. Qed.

Lemma sorted_items_dict (b : dict (score * nat)) :
  keys_unique b ->
  dict_of_items (py_sorted score_ltb entry_score true (dict_items b)) =
  py_sorted score_ltb entry_score true b.
Proof.
  intros Hu. apply dict_of_items_unique.
  eapply Permutation_NoDup; [|exact Hu].
  apply Permutation_map. symmetry. apply py_sorted_perm.
Qed.

Lemma sorted_buffer_perm (b : dict (score * nat)) :
  keys_unique b ->
  Permutation (dict_of_items (py_sorted score_ltb entry_score true (dict_items b))) b.
Proof. intros Hu. rewrite sorted_items_dict by exact Hu. apply py_sorted_perm. Qed.

Lemma keys_unique_app_new (b news : dict (score * nat)) (l : list string) :
  keys_unique b ->
  map fst news = new_keys (dict_keys b) l ->
  keys_unique (b ++ news).
Proof.
  intros Hu Hk. unfold keys_unique, dict_keys in *. rewrite map_app, Hk.
  destruct (new_keys_fresh (map fst b) l) as [Hnd Hin].
  apply NoDup_app; auto.
  intros x Hx Hx'. destruct (Hin x Hx'). contradiction.
Qed.

Lemma score_mol_run (f : string -> oracle_state -> score * oracle_state)
    (ms : list mol) (st : state) :
  exists (scores : list score) (news : list entry) (o' : oracle_state),
    BaseOptimizer.score_mol f ms st =
      (inr scores,
       {| self := with_mol_buffer
                    (dict_of_items (py_sorted score_ltb entry_score true
                       (dict_items (mol_buffer (self st) ++ news))))
                    (self st);
          ostate := o';
          trace := trace st ++ map EOracle (map fst news) |}) /\
    map fst news =
      new_keys (dict_keys (mol_buffer (self st))) (map MolToSmiles ms) /\
    map entry_rank news =
      seq (dict_len (mol_buffer (self st)) + 1) (List.length news) /\
    Forall2 (fun m s => exists r,
               dict_get (MolToSmiles m) (mol_buffer (self st) ++ news) = Some (s, r))
            ms scores.
Proof.
  destruct (score_mol_loop_spec f ms [] st)
    as (scores & news & o' & Heq & Hk & Hr & Hf).
  exists scores, news, o'. repeat split; auto.
  unfold BaseOptimizer.score_mol. unfold bind at 1. rewrite Heq.
  unfold bind at 1. rewrite sort_buffer_run. reflexivity.
Qed.

End Buffer.

(** ** The claims about the cache *)

Section Cache.
Context `{Externals}.

(** C1.  [score_mol] is a deduplicating score cache.  Called with any list
    of molecules on a buffer with unique keys, it returns normally; the
    oracle calls it makes are for pairwise different SMILES strings, each
    the key of an input molecule that the buffer did not hold; an entry the
    buffer held is still there with the same [(score, rank)] pair, and the
    score returned for such a molecule is the first component of that pair;
    the returned list has one score per input molecule, in input order,
    each being the score that the buffer holds for the molecule's key
    afterwards. *)
Theorem score_mol_deduplicating_cache
    (f : string -> oracle_state -> score * oracle_state)
    (ms : list mol) (st : state) :
  keys_unique (mol_buffer (self st)) ->
  exists (scores : list score) (st' : state) (calls : list string),
    BaseOptimizer.score_mol f ms st = (inr scores, st') /\
    trace st' = trace st ++ map EOracle calls /\
    NoDup calls /\
    (forall smi, In smi calls ->
       In smi (map MolToSmiles ms) /\ dict_get smi (mol_buffer (self st)) = None) /\
    (forall smi v, dict_get smi (mol_buffer (self st)) = Some v ->
       dict_get smi (mol_buffer (self st')) = Some v) /\
    Forall2 (fun m s => forall v,
               dict_get (MolToSmiles m) (mol_buffer (self st)) = Some v -> s = fst v)
            ms scores /\
    List.length scores = List.length ms /\
    Forall2 (fun m s => exists r,
               dict_get (MolToSmiles m) (mol_buffer (self st')) = Some (s, r))
            ms scores.
Proof.
  intros Hu.
  destruct (score_mol_run f ms st) as (scores & news & o' & Heq & Hk & Hr & Hf).
  assert (Hu' : keys_unique (mol_buffer (self st) ++ news))
    by (eapply keys_unique_app_new; eauto).
  assert (Hget : forall k,
    dict_get k (dict_of_items (py_sorted score_ltb entry_score true
                  (dict_items (mol_buffer (self st) ++ news)))) =
    dict_get k (mol_buffer (self st) ++ news)).
  { intros k. apply dict_get_perm; [|exact Hu'].
    symmetry. now apply sorted_buffer_perm. }
  destruct (new_keys_fresh (dict_keys (mol_buffer (self st))) (map MolToSmiles ms))
    as [Hnd Hin].
  eexists scores, _, (map fst news). split; [exact Heq|].
  cbn [self trace mol_buffer with_mol_buffer].
  split; [reflexivity|]. rewrite Hk.
  split; [exact Hnd|]. split.
  { intros smi Hs. destruct (Hin smi Hs) as [Hn Hl]. split; [exact Hl|].
    now apply dict_get_none_iff. }
  split.
  { intros smi v Hv. rewrite Hget. now apply dict_get_app_some. }
  split.
  { eapply Forall2_impl; [|exact Hf].
    intros m s [r Hr'] v Hv.
    rewrite (dict_get_app_some _ _ _ news Hv) in Hr'.
    inversion Hr'. reflexivity. }
  split.
  { symmetry. eapply Forall2_length; exact Hf. }
  eapply Forall2_impl; [|exact Hf].
  intros m s [r Hr']. exists r. now rewrite Hget.
Qed.

End Cache.

Section SortBuffer.
Context `{Externals}.

Lemma sort_buffer_facts (st : state) :
  strict_weak score_ltb ->
  keys_unique (mol_buffer (self st)) ->
  exists st',
    BaseOptimizer.sort_buffer st = (inr tt, st') /\
    mol_buffer (self st') =
      py_sorted score_ltb entry_score true (mol_buffer (self st)) /\
    Permutation (mol_buffer (self st')) (mol_buffer (self st)) /\
    keys_unique (mol_buffer (self st')) /\
    (forall k, dict_get k (mol_buffer (self st')) = dict_get k (mol_buffer (self st))) /\
    sorted_desc (mol_buffer (self st')) /\
    BaseOptimizer.sort_buffer st' = (inr tt, st') /\
    ostate st' = ostate st /\ trace st' = trace st /\
    args (self st') = args (self st) /\ model_name (self st') = model_name (self st).
Proof.
  intros Hord Hu. eexists. split; [apply sort_buffer_run|].
  cbn [self ostate trace mol_buffer with_mol_buffer args model_name].
  rewrite sorted_items_dict by exact Hu.
  assert (Hp : Permutation (py_sorted score_ltb entry_score true (mol_buffer (self st)))
                           (mol_buffer (self st))) by apply py_sorted_perm.
  assert (Hu' : keys_unique (py_sorted score_ltb entry_score true (mol_buffer (self st)))).
  { eapply keys_unique_perm; [symmetry; exact Hp|exact Hu]. }
  assert (Hs : sorted_desc (py_sorted score_ltb entry_score true (mol_buffer (self st))))
    by now apply sort_desc_sorted.
  repeat split; auto.
  - intros k. now apply dict_get_perm.
  - rewrite sort_buffer_run.
    cbn [self ostate trace mol_buffer with_mol_buffer].
    rewrite sorted_items_dict by exact Hu'.
    unfold dict_items. now rewrite (sort_desc_fixed _ Hs).
Qed.

(** C5.  On a buffer with unique keys and scores ordered by a strict weak
    order, [sort_buffer] returns normally and leaves a buffer that is a
    rearrangement of the old one (the same key-to-value associations, no
    entry added, removed or changed), with scores that do not increase;
    nothing else of the state changes, and sorting again changes nothing. *)
Theorem sort_buffer_sorts_and_is_idempotent (st : state) :
  strict_weak score_ltb ->
  keys_unique (mol_buffer (self st)) ->
  exists st',
    BaseOptimizer.sort_buffer st = (inr tt, st') /\
    Permutation (mol_buffer (self st')) (mol_buffer (self st)) /\
    (forall k, dict_get k (mol_buffer (self st')) = dict_get k (mol_buffer (self st))) /\
    sorted_desc (mol_buffer (self st')) /\
    ostate st' = ostate st /\ trace st' = trace st /\
    BaseOptimizer.sort_buffer st' = (inr tt, st').
Proof.
  intros Hord Hu.
  destruct (sort_buffer_facts st Hord Hu)
    as (st' & Heq & _ & Hp & _ & Hget & Hs & Hidem & Ho & Ht & _).
  exists st'. repeat split; auto.
Qed.

Lemma save_result_run (suffix : option string) (st : state) :
  BaseOptimizer.save_result suffix st =
  let st1 := snd (BaseOptimizer.sort_buffer st) in
  let path := os_path_join (output_dir (args (self st)))
                match suffix with
                | None => "results.yaml"
                | Some s => ("results_" ++ s ++ ".yaml")%string
                end in
  match open_write_error path with
  | Some e => (inl e, st1)
  | None =>
      (inr tt,
       {| self := self st1; ostate := ostate st1;
          trace := trace st1 ++ [EYamlDump path (mol_buffer (self st1))] |})
  end.
Proof.
  destruct suffix; unfold BaseOptimizer.save_result, bind, gets;
    rewrite sort_buffer_run; cbn [snd];
    destruct (open_write_error _); reflexivity.
Qed.

(** C6.  [save_result] on a buffer with unique keys (scores ordered by a
    strict weak order).  The file is [os.path.join(output_dir, name)] where
    [name] is [results.yaml] without a suffix and [results_<suffix>.yaml]
    with one; for a non-empty [output_dir] that does not end in a slash this
    is [output_dir/name].  The buffer is sorted first.  When the file can be
    opened for writing, [save_result] returns normally after one write: the
    document is the whole buffer as it stands after sorting, scores not
    increasing, keys in the buffer's order.  When [open] raises,
    [save_result] raises the same exception and nothing is written.  Either
    way the buffer keeps its associations and nothing else changes. *)
Theorem save_result_writes_sorted_buffer (suffix : option string) (st : state) :
  strict_weak score_ltb ->
  keys_unique (mol_buffer (self st)) ->
  let name := match suffix with
              | None => "results.yaml"
              | Some s => ("results_" ++ s ++ ".yaml")%string
              end in
  let dir := output_dir (args (self st)) in
  let path := os_path_join dir name in
  (dir <> "" -> ends_with_sep dir = false -> path = (dir ++ "/" ++ name)%string) /\
  exists st',
    (match open_write_error path with
     | None =>
         BaseOptimizer.save_result suffix st = (inr tt, st') /\
         trace st' = trace st ++ [EYamlDump path (mol_buffer (self st'))]
     | Some e =>
         BaseOptimizer.save_result suffix st = (inl e, st') /\
         trace st' = trace st
     end) /\
    sorted_desc (mol_buffer (self st')) /\
    Permutation (mol_buffer (self st')) (mol_buffer (self st)) /\
    (forall k, dict_get k (mol_buffer (self st')) = dict_get k (mol_buffer (self st))) /\
    ostate st' = ostate st /\
    args (self st') = args (self st) /\ model_name (self st') = model_name (self st).
Proof.
  intros Hord Hu name dir path. split.
  - intros Hne Hend. unfold path, os_path_join.
    assert (Hstart : starts_with_sep name = false) by (subst name; now destruct suffix).
    rewrite Hstart, Hend.
    destruct (String.eqb_spec dir ""); [contradiction|reflexivity].
  - destruct (sort_buffer_facts st Hord Hu)
      as (st1 & Heq & _ & Hp & _ & Hget & Hs & _ & Ho & Ht & Ha & Hm).
    rewrite save_result_run, Heq. cbv zeta. cbn [snd]. fold name dir path.
    destruct (open_write_error path) as [e|].
    + exists st1. repeat split; auto.
    + eexists. split; [split; [reflexivity|]|].
      * cbn [self trace]. now rewrite Ht.
      * cbn [self ostate]. repeat split; auto.
Qed.

End SortBuffer.

(** ** Insertion ranks *)

Section Ranks.
Context `{Externals}.

Lemma rank_passes_false (a b : entry) :
  rank_passes a b = false <-> entry_rank a <= entry_rank b.
Proof.
  unfold rank_passes, py_passes.
  destruct (Nat.ltb_spec (entry_rank b) (entry_rank a)); split; intros; lia || congruence.
Qed.

Lemma rank_passes_true (a b : entry) :
  rank_passes a b = true <-> entry_rank b < entry_rank a.
Proof. unfold rank_passes, py_passes. apply Nat.ltb_lt. Qed.

Lemma by_rank_sorted (l : list entry) :
  StronglySorted (in_order rank_passes) (py_sorted Nat.ltb entry_rank false l).
Proof.
  apply (fold_insert_sorted rank_passes).
  - intros a b Hab. apply rank_passes_true in Hab. apply rank_passes_false. lia.
  - intros a b c Hab Hbc. apply rank_passes_false in Hab, Hbc.
    apply rank_passes_false. lia.
Qed.

Lemma consecutive_ranks_sorted (l : list entry) (s : nat) :
  map entry_rank l = seq s (List.length l) ->
  StronglySorted (in_order rank_passes) l /\ Forall (fun e => s <= entry_rank e) l.
Proof.
  revert s. induction l as [|e l IH]; intros s Hr; simpl in *.
  - split; constructor.
  - injection Hr as He Hl. destruct (IH (S s) Hl) as [Hs Hall].
    assert (Hall' : Forall (fun x => s <= entry_rank x) l).
    { eapply Forall_impl; [|exact Hall]. simpl. intros; lia. }
    split; constructor; auto; try lia.
    eapply Forall_impl; [|exact Hall]. simpl.
    intros x Hx. apply rank_passes_false. lia.
Qed.

Lemma NoDup_map_injective {A B} (g : A -> B) (l : list A) (a b : A) :
  NoDup (map g l) -> In a l -> In b l -> g a = g b -> a = b.
Proof.
  induction l as [|x l IH]; simpl; [tauto|].
  intros Hnd Ha Hb E. inversion Hnd as [|? ? Hn Hnd']; subst.
  destruct Ha as [->|Ha], Hb as [->|Hb]; auto.
  - exfalso. apply Hn. rewrite E. now apply in_map.
  - exfalso. apply Hn. rewrite <- E. now apply in_map.
Qed.

Lemma ranked_by_rank (b : dict (score * nat)) (keys : list string) :
  ranked b keys ->
  map fst (py_sorted Nat.ltb entry_rank false (dict_items b)) = keys.
Proof.
  intros (L & Hp & Hk & Hr & Hnd). rewrite <- Hk. f_equal. symmetry.
  destruct (consecutive_ranks_sorted L 1 Hr) as [Hs _].
  assert (HndR : NoDup (map entry_rank L)) by (rewrite Hr; apply seq_NoDup).
  apply (sorted_perm_unique rank_passes); auto.
  - rewrite <- Hp. symmetry. apply py_sorted_perm.
  - apply by_rank_sorted.
  - intros a c Ha Hc Hne.
    assert (entry_rank a <> entry_rank c).
    { intros E. apply Hne. eapply NoDup_map_injective; eauto. }
    rewrite !rank_passes_true. lia.
  - intros a _. apply rank_passes_false. lia.
  - rewrite <- Hk in Hnd. eapply NoDup_map_inv; exact Hnd.
Qed.

Lemma ranked_lookup (b : dict (score * nat)) (keys : list string) (k : nat)
    (smi : string) :
  ranked b keys -> nth_error keys k = Some smi ->
  exists s, dict_get smi b = Some (s, k + 1).
Proof.
  intros (L & Hp & Hk & Hr & Hnd) Hn. subst keys.
  rewrite nth_error_map in Hn.
  match type of Hn with
  | option_map _ ?t = _ => destruct t as [e|] eqn:E
  end; simpl in Hn; [|discriminate Hn].
  injection Hn as <-.
  assert (Hrk : nth_error (map entry_rank L) k = Some (entry_rank e))
    by (now apply map_nth_error).
  rewrite Hr in Hrk.
  rewrite nth_error_seq in Hrk.
  destruct (Nat.ltb k (List.length L)); [|discriminate Hrk].
  injection Hrk as Hrk.
  exists (entry_score e). apply in_dict_get.
  - eapply keys_unique_perm; [symmetry; exact Hp|exact Hnd].
  - eapply Permutation_in; [symmetry; exact Hp|].
    apply nth_error_In in E.
    destruct e as [k' [s r]]. unfold entry_rank, entry_score in *. simpl in *.
    replace (k + 1) with r by lia. exact E.
Qed.

Lemma ranked_ranks (b : dict (score * nat)) (keys : list string) :
  ranked b keys ->
  Permutation (map entry_rank b) (seq 1 (dict_len b)) /\
  dict_len b = List.length keys /\ keys_unique b.
Proof.
  intros (L & Hp & Hk & Hr & Hnd).
  assert (Hlen : dict_len b = List.length L) by now apply Permutation_length.
  split; [|split].
  - rewrite Hlen, <- Hr. now apply Permutation_map.
  - rewrite Hlen, <- Hk. now rewrite length_map.
  - eapply keys_unique_perm; [symmetry; exact Hp|].
    unfold keys_unique, dict_keys. now rewrite Hk.
Qed.

Lemma score_mol_ranked (f : string -> oracle_state -> score * oracle_state)
    (ms : list mol) (st : state) (keys : list string) :
  ranked (mol_buffer (self st)) keys ->
  exists scores st',
    BaseOptimizer.score_mol f ms st = (inr scores, st') /\
    ranked (mol_buffer (self st')) (keys ++ new_keys keys (map MolToSmiles ms)).
Proof.
  intros Hrk.
  destruct (ranked_ranks _ _ Hrk) as (_ & Hlen & Hu).
  destruct Hrk as (L & Hp & Hk & Hr & Hnd).
  destruct (score_mol_run f ms st) as (scores & news & o' & Heq & Hnk & Hnr & _).
  exists scores. eexists. split; [exact Heq|].
  cbn [self mol_buffer with_mol_buffer].
  assert (Hsame : new_keys (dict_keys (mol_buffer (self st))) (map MolToSmiles ms) =
                  new_keys keys (map MolToSmiles ms)).
  { apply new_keys_ext. intros x. unfold dict_keys. rewrite <- Hk.
    split; apply Permutation_in; apply Permutation_map; [exact Hp|now symmetry]. }
  assert (HlenL : List.length L = dict_len (mol_buffer (self st)))
    by (symmetry; now apply Permutation_length).
  exists (L ++ news). unfold entry in *. split; [|split; [|split]].
  - rewrite sorted_buffer_perm by (eapply keys_unique_app_new; eauto).
    now apply Permutation_app_tail.
  - rewrite map_app, Hk, Hnk, Hsame. reflexivity.
  - rewrite map_app, Hr, Hnr, length_app, seq_app, HlenL.
    f_equal. f_equal. lia.
  - destruct (new_keys_fresh keys (map MolToSmiles ms)) as [Hnd' Hin].
    apply NoDup_app; auto.
    intros x Hx Hx'. destruct (Hin x Hx'). contradiction.
Qed.

Lemma score_mols_ranked
    (cs : list ((string -> oracle_state -> score * oracle_state) * list mol)) :
  forall (st : state) (keys : list string),
  ranked (mol_buffer (self st)) keys ->
  exists st',
    score_mols cs st = (inr tt, st') /\
    ranked (mol_buffer (self st'))
           (keys ++ new_keys keys (map MolToSmiles (List.concat (map snd cs)))).
Proof.
  induction cs as [|[f ms] cs IH]; intros st keys Hrk.
  - exists st. split; [reflexivity|]. simpl. now rewrite app_nil_r.
  - destruct (score_mol_ranked f ms st keys Hrk) as (scores & st1 & Heq & Hrk1).
    destruct (IH st1 _ Hrk1) as (st' & Heq' & Hrk').
    exists st'. split.
    + unfold score_mols in *. cbn [for_each fst snd].
      unfold bind at 1. unfold bind at 1. rewrite Heq. unfold ret at 1.
      exact Heq'.
    + cbn [map List.concat snd]. rewrite map_app, new_keys_app, app_assoc.
      exact Hrk'.
Qed.

(** C2.  Every stored value is a [(score, rank)] pair (by the type of the
    buffer).  Starting from an empty buffer, any sequence of [score_mol]
    calls returns normally and leaves a buffer of [n] entries whose ranks
    are exactly 1..n, all different; the key that was the [k+1]-th to be
    inserted (the [k+1]-th first occurrence among the scored molecules) has
    rank [k+1], the size of the buffer before its insertion plus one; and
    ordering the items by rank gives the keys in first-insertion order. *)
Theorem insertion_rank_invariant
    (cs : list ((string -> oracle_state -> score * oracle_state) * list mol))
    (st : state) :
  mol_buffer (self st) = [] ->
  exists st',
    score_mols cs st = (inr tt, st') /\
    let b := mol_buffer (self st') in
    let order := first_seen (map MolToSmiles (List.concat (map snd cs))) in
    Permutation (map entry_rank b) (seq 1 (dict_len b)) /\
    NoDup (map entry_rank b) /\
    dict_len b = List.length order /\
    (forall k smi, nth_error order k = Some smi ->
       exists s, dict_get smi b = Some (s, k + 1)) /\
    map fst (py_sorted Nat.ltb entry_rank false (dict_items b)) = order.
Proof.
  intros Hempty.
  assert (Hrk0 : ranked (mol_buffer (self st)) []).
  { rewrite Hempty. exists []. repeat split; constructor. }
  destruct (score_mols_ranked cs st [] Hrk0) as (st' & Heq & Hrk).
  exists st'. split; [exact Heq|]. cbn zeta. cbn [app] in Hrk.
  destruct (ranked_ranks _ _ Hrk) as (Hperm & Hlen & _).
  repeat split.
  - exact Hperm.
  - eapply Permutation_NoDup; [symmetry; exact Hperm|apply seq_NoDup].
  - exact Hlen.
  - intros k smi Hn. eapply ranked_lookup; eauto.
  - now apply ranked_by_rank.
Qed.

End Ranks.

(** ** The buffer between calls *)

Section SortedOnRead.
Context `{Externals}.




Lemma sort_buffer_sorted_noop (st : state) :
  keys_unique (mol_buffer (self st)) ->
  sorted_desc (mol_buffer (self st)) ->
  BaseOptimizer.sort_buffer st = (inr tt, st).
Proof.
  intros Hu Hs. rewrite sort_buffer_run, sorted_items_dict by exact Hu.
  rewrite (sort_desc_fixed _ Hs). now rewrite state_eta.
Qed.










Lemma optimizer_eta (o : optimizer) : with_mol_buffer (mol_buffer o) o = o.
Proof. destruct o; reflexivity. Qed.


End SortedOnRead.

(** ** [log_result] *)

Section LogResult.
Context `{Externals}.

Lemma results_by_rank_truncated (b : dict (score * nat)) :
  BaseOptimizer.results_by_rank b =
  firstn (Z.to_nat 10000) (py_sorted Nat.ltb entry_rank false (dict_items b)).
Proof.
  unfold BaseOptimizer.results_by_rank.
  destruct (Z.ltb_spec 10000 (Z.of_nat (List.length
              (py_sorted Nat.ltb entry_rank false (dict_items b))))).
  - apply py_slice_to_nonneg. lia.
  - symmetry. apply firstn_all2. lia.
Qed.

Lemma results_all_level_spec (b : dict (score * nat)) :
  BaseOptimizer.results_all_level b = spec_levels b.
Proof.
  unfold BaseOptimizer.results_all_level, spec_levels, BaseOptimizer.log_num_oracles.
  apply map_ext_in. intros n Hn. unfold spec_level.
  rewrite results_by_rank_truncated, py_slice_to_nonneg; [reflexivity|].
  cbn [In] in Hn. lia.
Qed.

Lemma StronglySorted_weaken {A} (R S : A -> A -> Prop) (l : list A) :
  (forall a b, R a b -> S a b) -> StronglySorted R l -> StronglySorted S l.
Proof.
  intros HRS. induction 1 as [|a l Hs IH Hall]; constructor; auto.
  eapply Forall_impl; [|exact Hall]. intros b. apply HRS.
Qed.

(** The items by insertion rank: a rearrangement of the buffer in which
    ranks never decrease, cut to its first 10000 elements. *)
Lemma results_by_rank_ascending (b : dict (score * nat)) :
  exists full,
    Permutation full (dict_items b) /\
    StronglySorted (fun a c => entry_rank a <= entry_rank c) full /\
    BaseOptimizer.results_by_rank b = firstn (Z.to_nat 10000) full.
Proof.
  exists (py_sorted Nat.ltb entry_rank false (dict_items b)).
  split; [apply py_sorted_perm|]. split; [|apply results_by_rank_truncated].
  eapply StronglySorted_weaken; [|apply by_rank_sorted].
  intros a c. apply rank_passes_false.
Qed.

(** Each level holds the first [n] items by rank, rearranged. *)
Lemma level_rearranges (b : dict (score * nat)) (n : Z) :
  (0 <= n)%Z ->
  Permutation
    (py_sorted score_ltb entry_score true
       (py_slice_to (BaseOptimizer.results_by_rank b) n))
    (firstn (Z.to_nat n) (BaseOptimizer.results_by_rank b)).
Proof.
  intros Hn. rewrite py_slice_to_nonneg by exact Hn. apply py_sorted_perm.
Qed.

(** C4.  [log_result] orders the items of the buffer by insertion rank,
    ascending, and keeps the first 10000: the list it works on is the
    beginning of a rearrangement of the buffer whose ranks never decrease.
    For each budget [n] of 100, 500, 1000, 3000, 5000, 10000, in this
    order, the level for [n] is a rearrangement of the first [n] items of
    that list, in which scores never increase (for scores that [<] orders).
    These levels are those of the specification.  When [log_result] returns
    normally it has logged two tables and changed nothing else: the top-100
    table, whose row [i] is read at index [i] of the level for 10000, and
    the batch table, whose row for budget [n] is [n] followed by
    [_analyze_results] of the level for [n]. *)
Theorem log_result_levels (st : state) :
  let b := mol_buffer (self st) in
  (exists full,
     Permutation full (dict_items b) /\
     StronglySorted (fun a c => entry_rank a <= entry_rank c) full /\
     BaseOptimizer.results_by_rank b = firstn (Z.to_nat 10000) full) /\
  Forall2
    (fun n lvl =>
       Permutation lvl (firstn (Z.to_nat n) (BaseOptimizer.results_by_rank b)) /\
       (strict_weak score_ltb -> sorted_desc lvl))
    [100; 500; 1000; 3000; 5000; 10000]%Z
    (BaseOptimizer.results_all_level b) /\
  BaseOptimizer.results_all_level b = spec_levels b /\
  forall st', BaseOptimizer.log_result st = (inr tt, st') ->
    exists top batch,
      trace st' = trace st ++ [EWandbLog (LogTop100 top);
                               EWandbLog (LogBatchMetrics batch)] /\
      self st' = self st /\ ostate st' = ostate st /\
      emap (fun i => match nth_error (spec_level b 10000) i with
                     | Some item =>
                         inr (i + 1, entry_score item, entry_rank item,
                              mol_image (fst item), fst item)
                     | None => inl IndexError
                     end) (seq 0 100) = inr top /\
      emap (fun n => ebind (BaseOptimizer._analyze_results (spec_level b n))
                           (fun a => inr (n, a)))
           [100; 500; 1000; 3000; 5000; 10000]%Z = inr batch.
Proof.
  intros b. split; [apply results_by_rank_ascending|].
  split.
  { unfold BaseOptimizer.results_all_level, BaseOptimizer.log_num_oracles.
    cbn [map].
    repeat (constructor;
            [split; [apply level_rearranges; lia
                    |intros Hord; apply sort_desc_sorted; exact Hord]|]).
    constructor. }
  split; [apply results_all_level_spec|].
  intros st'.
  unfold BaseOptimizer.log_result, bind, BaseOptimizer.buffer, gets, lift, emit.
  rewrite results_all_level_spec. fold b.
  destruct (BaseOptimizer.top100_rows (spec_levels b)) as [e|top] eqn:Et;
    [discriminate|].
  cbn [self ostate trace].
  destruct (BaseOptimizer.batch_rows (spec_levels b)) as [e|batch] eqn:Eb;
    [discriminate|].
  intros [= <-]. exists top, batch. cbn [self ostate trace].
  rewrite <- app_assoc. repeat split.
  - exact Et.
  - unfold BaseOptimizer.batch_rows, spec_levels, BaseOptimizer.log_num_oracles in Eb.
    cbn [List.length map combine seq emap nth_error fst snd] in Eb.
    exact Eb.
Qed.

End LogResult.

Section LogResultFailures.
Context `{Externals}.

Lemma emap_first_error {A B} (f : A -> exn + B) (l1 l2 : list A) (x : A) (e : exn) :
  (forall y, In y l1 -> exists v, f y = inr v) ->
  f x = inl e ->
  emap f (l1 ++ x :: l2) = inl e.
Proof.
  induction l1 as [|y l1 IH]; simpl; intros Hok Hx.
  - now rewrite Hx.
  - destruct (Hok y (or_introl eq_refl)) as [v Hv]. rewrite Hv. simpl.
    rewrite IH; auto.
Qed.

Lemma emap_all_ok {A B} (f : A -> exn + B) (l : list A) :
  (forall y, In y l -> exists v, f y = inr v) ->
  exists vs, emap f l = inr vs.
Proof.
  induction l as [|y l IH]; simpl; intros Hok.
  - now exists [].
  - destruct (Hok y (or_introl eq_refl)) as [v Hv]. rewrite Hv. simpl.
    destruct IH as [vs Hvs]; [auto|]. rewrite Hvs. simpl. now exists (v :: vs).
Qed.

Lemma spec_level_length (b : dict (score * nat)) (n : Z) :
  List.length (spec_level b n) =
  Nat.min (Z.to_nat n) (Nat.min (Z.to_nat 10000) (dict_len b)).
Proof.
  unfold spec_level. now rewrite py_sorted_length, !length_firstn, py_sorted_length.
Qed.

Lemma last_level (b : dict (score * nat)) :
  last (BaseOptimizer.results_all_level b) [] = spec_level b 10000.
Proof. rewrite results_all_level_spec. reflexivity. Qed.

Lemma np_max_error (l : list score) (e : exn) :
  BaseOptimizer.np_max l = inl e -> e = ValueError.
Proof. destruct l; simpl; congruence. Qed.

Lemma seq_split (n k : nat) :
  k < n -> seq 0 n = seq 0 k ++ k :: seq (S k) (n - S k).
Proof.
  intros Hlt. assert (E : n = k + S (n - S k)) by lia.
  rewrite E at 1. now rewrite seq_app.
Qed.

Lemma top100_rows_short (b : dict (score * nat)) :
  dict_len b < 100 ->
  BaseOptimizer.top100_rows (BaseOptimizer.results_all_level b) = inl IndexError.
Proof.
  intros Hlt. unfold BaseOptimizer.top100_rows. rewrite last_level.
  pose proof (spec_level_length b 10000) as Hlen.
  set (lvl := spec_level b 10000) in *.
  assert (Hn : List.length lvl = dict_len b) by lia.
  rewrite (seq_split 100 (dict_len b)) by exact Hlt.
  apply emap_first_error.
  - intros i Hi. apply in_seq in Hi.
    destruct (nth_error lvl i) as [item|] eqn:E; [eauto|].
    apply nth_error_None in E. lia.
  - assert (E : nth_error lvl (dict_len b) = None) by (apply nth_error_None; lia).
    now rewrite E.
Qed.

Lemma top100_rows_long (b : dict (score * nat)) :
  100 <= dict_len b ->
  exists rows,
    BaseOptimizer.top100_rows (BaseOptimizer.results_all_level b) = inr rows.
Proof.
  intros Hge. unfold BaseOptimizer.top100_rows. rewrite last_level.
  pose proof (spec_level_length b 10000) as Hlen.
  set (lvl := spec_level b 10000) in *.
  apply emap_all_ok. intros i Hi. apply in_seq in Hi.
  destruct (nth_error lvl i) as [item|] eqn:E; [eauto|].
  apply nth_error_None in E. lia.
Qed.

(** C10.  With fewer than 100 entries in the buffer [log_result] raises
    [IndexError] while it builds the top-100 table, before anything is
    logged; with 100 or more that table is built.  Whenever
    [_analyze_results] returns, its %Pass is the number of filter-passing
    molecules among the first 100 results divided by the constant 100,
    however many results there are; and when no molecule passes the filter
    it does not return but raises [ValueError] (the maximum of nothing). *)
Theorem log_result_needs_100_molecules :
  (forall st, dict_len (mol_buffer (self st)) < 100 ->
     BaseOptimizer.log_result st = (inl IndexError, st)) /\
  (forall b, 100 <= dict_len b ->
     exists rows,
       BaseOptimizer.top100_rows (BaseOptimizer.results_all_level b) = inr rows) /\
  (forall results a,
     BaseOptimizer._analyze_results results = inr a ->
     an_pct_pass a =
       QArith_base.Qmake
         (Z.of_nat (List.length (mol_filter (map fst (py_slice_to results 100)))))
         100) /\
  (forall results,
     mol_filter (map fst (py_slice_to results 100)) = [] ->
     BaseOptimizer._analyze_results results = inl ValueError).
Proof.
  split; [|split; [|split]].
  - intros st Hlt.
    unfold BaseOptimizer.log_result, bind, BaseOptimizer.buffer, gets, lift.
    now rewrite top100_rows_short.
  - apply top100_rows_long.
  - intros results a. unfold BaseOptimizer._analyze_results, ebind.
    destruct (BaseOptimizer.np_max _); [discriminate|].
    destruct (emap _ _); [discriminate|].
    destruct (BaseOptimizer.np_max _); [discriminate|].
    intros [= <-]. reflexivity.
  - intros results Hnone. unfold BaseOptimizer._analyze_results, ebind.
    cbv zeta. unfold entry in *. rewrite Hnone.
    destruct (BaseOptimizer.np_max _) as [e|top1] eqn:E.
    + now rewrite (np_max_error _ _ E).
    + reflexivity.
Qed.

End LogResultFailures.

(** ** Construction and [load_smiles_from_file] *)

Section Construction.
Context `{Externals}.

Lemma lookup_smi_file (file_name : string) :
  dict_get "smi_file" chem_exports = None ->
  lookup_name [("self", PyObject); ("file_name", PyStr file_name)] "smi_file" =
  inl (NameError "smi_file").
Proof.
  intros Hchem. unfold lookup_name.
  cbn [dict_get app String.eqb Ascii.eqb Bool.eqb].
  rewrite dict_get_app_none by exact Hchem.
  reflexivity.
Qed.

(** C9.  Provided the star import from [main.utils.chem] binds no name
    [smi_file]: [load_smiles_from_file] raises [NameError] for every
    argument and in every state, and changes nothing; constructing a
    [BaseOptimizer] with [args.smi_file] set therefore raises that
    [NameError] without any file having been opened; and a construction
    that returns normally had [args.smi_file] equal to [None]. *)
Theorem load_smiles_from_file_raises_NameError :
  dict_get "smi_file" chem_exports = None ->
  (forall file_name st,
     BaseOptimizer.load_smiles_from_file file_name st =
     (inl (NameError "smi_file"), st)) /\
  (forall a file_name st,
     smi_file a = Some file_name ->
     exists st',
       BaseOptimizer.init (Some a) st = (inl (NameError "smi_file"), st') /\
       trace st' = trace st) /\
  (forall a st st',
     BaseOptimizer.init a st = (inr tt, st') ->
     exists a', a = Some a' /\ smi_file a' = None).
Proof.
  intros Hchem.
  assert (Hload : forall file_name st,
     BaseOptimizer.load_smiles_from_file file_name st =
     (inl (NameError "smi_file"), st)).
  { intros file_name st. unfold BaseOptimizer.load_smiles_from_file, bind, lift.
    now rewrite lookup_smi_file. }
  split; [exact Hload|]. split.
  - intros a file_name st Ha. eexists.
    unfold BaseOptimizer.init, bind. rewrite Ha, Hload. split; reflexivity.
  - intros [a|] st st'; [|discriminate].
    destruct (smi_file a) as [file_name|] eqn:Ha; [|eauto].
    unfold BaseOptimizer.init, bind. rewrite Ha, Hload. discriminate.
Qed.

End Construction.

(** ** [DoG_Gen_Optimizer._optimize] *)

Section DoGGen.
Context `{Externals}.
Variable absent :
  ext_call -> optimizer * oracle_state -> (exn + unit) * (optimizer * oracle_state).

Lemma bind_assoc {A B C} (m : M A) (f : A -> M B) (g : B -> M C) (st : state) :
  bind (bind m f) g st = bind m (fun x => bind (f x) g) st.
Proof. unfold bind. destruct (m st) as [[e|a] st1]; reflexivity. Qed.

Lemma external_returns (c : ext_call) (st : state) :
  returns_normally_keeping_oracle absent ->
  DoG_Gen_Optimizer.external absent c st =
    (inr tt, snd (DoG_Gen_Optimizer.external absent c st)) /\
  oracle_attr (self (snd (DoG_Gen_Optimizer.external absent c st))) =
    oracle_attr (self st) /\
  trace (snd (DoG_Gen_Optimizer.external absent c st)) = trace st ++ [EExt c].
Proof.
  intros Hq. unfold DoG_Gen_Optimizer.external.
  destruct (Hq c (self st) (ostate st)) as (s' & o' & Heq & Hattr).
  rewrite Heq. cbn. auto.
Qed.

Lemma bind_external {A} (c : ext_call) (k : unit -> M A) (st : state) :
  returns_normally_keeping_oracle absent ->
  bind (DoG_Gen_Optimizer.external absent c) k st =
  k tt (snd (DoG_Gen_Optimizer.external absent c st)).
Proof.
  intros Hq. unfold bind at 1.
  destruct (external_returns c st Hq) as (Heq & _). now rewrite Heq.
Qed.

Lemma after_externals_facts (cs : list ext_call) :
  returns_normally_keeping_oracle absent ->
  forall st,
  oracle_attr (self (after_externals absent cs st)) = oracle_attr (self st) /\
  trace (after_externals absent cs st) = trace st ++ map EExt cs.
Proof.
  intros Hq. induction cs as [|c cs IH]; intros st; cbn [after_externals fold_left map].
  - now rewrite app_nil_r.
  - destruct (external_returns c st Hq) as (_ & Hattr & Htrace).
    destruct (IH (snd (DoG_Gen_Optimizer.external absent c st))) as [Ha Ht].
    unfold after_externals in *. rewrite Ha, Ht, Hattr, Htrace, <- app_assoc.
    auto.
Qed.

Lemma bind_get_oracle {A} (k : evaluator -> M A) (st : state) (ev : evaluator) :
  oracle_attr (self st) = Some ev ->
  bind DoG_Gen_Optimizer.get_oracle_attr k st = k ev st.
Proof.
  intros Hev. unfold DoG_Gen_Optimizer.get_oracle_attr, bind, gets, ret.
  now rewrite Hev.
Qed.

(** Up to the point where it reads the configuration, [_optimize] on an
    object with the attribute [oracle] makes the loading calls, in order. *)
Lemma DoG_Gen_optimize_loads (o : oracle) (config : dict Z) (st : state)
    (ev : evaluator) :
  returns_normally_keeping_oracle absent ->
  oracle_attr (self st) = Some ev ->
  DoG_Gen_Optimizer._optimize absent o config st =
  (n_rounds <- DoG_Gen_Optimizer.config_get config "n_rounds" ;;
   n_samples <- DoG_Gen_Optimizer.config_get config "n_samples_per_round" ;;
   n_keep <- DoG_Gen_Optimizer.config_get config "n_samples_to_keep_per_round" ;;
   DoG_Gen_Optimizer.external absent (HillclimbingParams n_rounds n_samples n_keep) ;;
   ev' <- DoG_Gen_Optimizer.get_oracle_attr ;;
   DoG_Gen_Optimizer.external absent (HillclimberParts ev' torch_device) ;;
   DoG_Gen_Optimizer.external absent NewHillclimber ;;
   DoG_Gen_Optimizer.external absent
     (RunHillclimbing
        (load_tuple_trees (os_path_join path_here
           "scripts/dataset_creation/data/uspto-train-depth_and_tree_tuples.pick")
         ++ load_tuple_trees (os_path_join path_here
           "scripts/dataset_creation/data/uspto-valid-depth_and_tree_tuples.pick"))))
    (after_externals absent (loading_calls ev o) st).
Proof.
  intros Hq Hev. unfold DoG_Gen_Optimizer._optimize, DoG_Gen_Optimizer.Params_init.
  rewrite (bind_get_oracle _ st ev Hev).
  rewrite !bind_external by exact Hq.
  rewrite bind_assoc, bind_external by exact Hq.
  unfold bind at 1. unfold ret at 1.
  cbn [DoG_Gen_Optimizer.train_tree_path DoG_Gen_Optimizer.valid_tree_path
       DoG_Gen_Optimizer.device DoG_Gen_Optimizer.weight_path
       DoG_Gen_Optimizer.log_for_reaction_predictor_path].
  rewrite !bind_external by exact Hq.
  reflexivity.
Qed.

(** With the attribute [oracle] set and the three keys in the
    configuration, and the code outside [src/] returning normally,
    [_optimize] attaches the oracle, seeds the generators, loads the trees
    and the model from the checkpoint, and hands the train trees followed by
    the validation trees to the hillclimber. *)
Lemma DoG_Gen_optimize_delegates (o : oracle) (config : dict Z) (st : state)
    (ev : evaluator) (n_rounds n_samples n_keep : Z) :
  returns_normally_keeping_oracle absent ->
  oracle_attr (self st) = Some ev ->
  dict_get "n_rounds" config = Some n_rounds ->
  dict_get "n_samples_per_round" config = Some n_samples ->
  dict_get "n_samples_to_keep_per_round" config = Some n_keep ->
  DoG_Gen_Optimizer._optimize absent o config st =
  (inr tt,
   after_externals absent
     (loading_calls ev o ++ hillclimbing_calls ev n_rounds n_samples n_keep) st).
Proof.
  intros Hq Hev H1 H2 H3. rewrite (DoG_Gen_optimize_loads o config st ev Hq Hev).
  destruct (after_externals_facts (loading_calls ev o) Hq st) as [Hattr _].
  set (st1 := after_externals absent (loading_calls ev o) st) in *.
  unfold DoG_Gen_Optimizer.config_get. rewrite H1, H2, H3.
  unfold bind at 1. unfold ret at 1. unfold bind at 1. unfold ret at 1.
  unfold bind at 1. unfold ret at 1.
  rewrite bind_external by exact Hq.
  rewrite (bind_get_oracle _ _ ev).
  2:{ destruct (external_returns (HillclimbingParams n_rounds n_samples n_keep)
                  st1 Hq) as (_ & Ha & _). now rewrite Ha, Hattr. }
  rewrite !bind_external by exact Hq.
  destruct (external_returns
    (RunHillclimbing
       (load_tuple_trees (os_path_join path_here
          "scripts/dataset_creation/data/uspto-train-depth_and_tree_tuples.pick")
        ++ load_tuple_trees (os_path_join path_here
          "scripts/dataset_creation/data/uspto-valid-depth_and_tree_tuples.pick")))
    (snd (DoG_Gen_Optimizer.external absent NewHillclimber
       (snd (DoG_Gen_Optimizer.external absent (HillclimberParts ev torch_device)
          (snd (DoG_Gen_Optimizer.external absent
                  (HillclimbingParams n_rounds n_samples n_keep) st1))))))
    Hq) as (Heq & _).
  rewrite Heq. unfold after_externals. rewrite fold_left_app. reflexivity.
Qed.

(** C8.  On an object built by [DoG_Gen_Optimizer(args)] (with
    [args.smi_file] equal to [None], so that construction returns),
    [_optimize] raises [AttributeError] at its first statement, for every
    oracle and configuration and whatever the code outside [src/] would do:
    no constructor sets the attribute [oracle].  Nothing is attached,
    loaded or run. *)
Theorem DoG_Gen_optimize_raises_AttributeError
    (jobs : Z) (dir : string) (o : oracle) (config : dict Z)
    (os : oracle_state) (t : list event) :
  exists st,
    DoG_Gen_Optimizer.init
      (Some {| n_jobs := jobs; smi_file := None; output_dir := dir |})
      (start os t) = (inr tt, st) /\
    DoG_Gen_Optimizer._optimize absent o config st =
      (inl (AttributeError "oracle"), st) /\
    trace st = t.
Proof. eexists. repeat split. Qed.

End DoGGen.

(** ** The harness: [optimize] and [production] *)

Section Harness.
Context `{Externals}.
Variable _optimize : oracle -> dict Z -> M unit.
Variable o : oracle.
Variable config : dict Z.

(** A call of [optimize] that returns normally went through [_optimize],
    [log_result] and [save_result], each returning normally, and then
    emptied the buffer and finished the run. *)
Lemma optimize_returns (seed : Z) (st st1 : state) :
  BaseOptimizer.optimize _optimize o config seed st = (inr tt, st1) ->
  exists s_opt s_log s_save suffix,
    _optimize o config
      {| self := self st; ostate := ostate st;
         trace := (trace st
                   ++ [EWandbInit (model_name (self st) ++ "_" ++ oracle_name o)%string])
                   ++ [ENpSeed seed] |} = (inr tt, s_opt) /\
    BaseOptimizer.log_result s_opt = (inr tt, s_log) /\
    BaseOptimizer.save_result (Some suffix) s_log = (inr tt, s_save) /\
    st1 = {| self := with_mol_buffer [] (self s_save); ostate := ostate s_save;
             trace := trace s_save ++ [ERunFinish] |}.
Proof.
  unfold BaseOptimizer.optimize, BaseOptimizer.np_random_seed.
  destruct ((0 <=? seed) && (seed <=? 2 ^ 32 - 1))%Z;
    unfold bind, gets, emit, raise; cbn [self ostate trace fst snd];
    [|discriminate].
  destruct (_optimize o config _) as [[e|[]] s_opt] eqn:E1; [discriminate|].
  destruct (BaseOptimizer.log_result s_opt) as [[e|[]] s_log] eqn:E2; [discriminate|].
  destruct (BaseOptimizer.save_result _ s_log) as [[e|[]] s_save] eqn:E3;
    [discriminate|].
  unfold set_mol_buffer. cbn [self ostate trace]. intros [= <-].
  exists s_opt, s_log, s_save. eexists. repeat split; eauto.
Qed.

(** [np.random.seed] accepted the seed of a call that returns normally. *)
Lemma optimize_returns_seed (seed : Z) (st st1 : state) :
  BaseOptimizer.optimize _optimize o config seed st = (inr tt, st1) ->
  (0 <= seed <= 2 ^ 32 - 1)%Z.
Proof.
  unfold BaseOptimizer.optimize, BaseOptimizer.np_random_seed.
  destruct ((0 <=? seed) && (seed <=? 2 ^ 32 - 1))%Z eqn:E;
    unfold bind, gets, emit, raise; cbn [self ostate trace fst snd];
    [|discriminate].
  intros _. apply andb_true_iff in E. destruct E as [E1 E2].
  apply Z.leb_le in E1, E2. lia.
Qed.

Lemma optimize_empties_buffer (seed : Z) (st st1 : state) :
  BaseOptimizer.optimize _optimize o config seed st = (inr tt, st1) ->
  mol_buffer (self st1) = [].
Proof.
  intros Hrun. destruct (optimize_returns seed st st1 Hrun)
    as (s_opt & s_log & s_save & suffix & _ & _ & _ & ->).
  reflexivity.
Qed.

Lemma reset_empty (st : state) :
  mol_buffer (self st) = [] -> set_mol_buffer [] st = (inr tt, st).
Proof.
  destruct st as [[? ? ? ? ?] ? ?]. cbn. intros ->. reflexivity.
Qed.

Lemma for_each_runs (used : list Z) :
  forall st st',
  mol_buffer (self st) = [] ->
  for_each used
    (fun seed => BaseOptimizer.optimize _optimize o config seed ;; set_mol_buffer [])
    st = (inr tt, st') ->
  runs _optimize o config used st st' /\ mol_buffer (self st') = [].
Proof.
  induction used as [|seed rest IH]; intros st st' Hempty.
  - cbn. intros [= <-]. split; [constructor|exact Hempty].
  - cbn [for_each]. unfold bind at 1. unfold bind at 1.
    destruct (BaseOptimizer.optimize _optimize o config seed st)
      as [[e|[]] st1] eqn:E1; [discriminate|].
    pose proof (optimize_empties_buffer seed st st1 E1) as Hempty1.
    rewrite (reset_empty st1 Hempty1). intros Hrest.
    destruct (IH st1 st' Hempty1 Hrest) as [Hruns Hempty'].
    split; [|exact Hempty']. econstructor; eauto.
Qed.

Lemma seeds_slice (num_runs : Z) :
  (0 <= num_runs)%Z ->
  py_slice_to BaseOptimizer.seeds num_runs =
    firstn (Z.to_nat num_runs) BaseOptimizer.seeds /\
  List.length (py_slice_to BaseOptimizer.seeds num_runs) =
    Nat.min (Z.to_nat num_runs) 25.
Proof.
  intros Hn. rewrite py_slice_to_nonneg by exact Hn. split; [reflexivity|].
  now rewrite length_firstn.
Qed.

(** C7, as the code has it.  Let [production] be called with an empty
    buffer (as [__init__] leaves it) and return normally.  Then it has called
    [optimize] once for each element of [seeds[:num_runs]], in order, where
    [seeds] is the fixed list of the 25 primes below 100; for
    [num_runs >= 0] these are the first [min num_runs 25] of them.  Each of
    these calls started with an empty buffer and ended with an empty buffer,
    and every call of [optimize] that returns normally has gone through
    [_optimize], [log_result] and [save_result] before it emptied the buffer
    and finished the run. *)
Theorem production_runs_once_per_seed (num_runs : Z) (st st' : state) :
  mol_buffer (self st) = [] ->
  BaseOptimizer.production _optimize o config num_runs st = (inr tt, st') ->
  let used := py_slice_to BaseOptimizer.seeds num_runs in
  runs _optimize o config used st st' /\
  mol_buffer (self st') = [] /\
  ((0 <= num_runs)%Z ->
     used = firstn (Z.to_nat num_runs) BaseOptimizer.seeds /\
     List.length used = Nat.min (Z.to_nat num_runs) 25) /\
  (forall seed s s1,
     BaseOptimizer.optimize _optimize o config seed s = (inr tt, s1) ->
     mol_buffer (self s1) = [] /\
     exists s_opt s_log s_save suffix,
       BaseOptimizer.log_result s_opt = (inr tt, s_log) /\
       BaseOptimizer.save_result (Some suffix) s_log = (inr tt, s_save) /\
       s1 = {| self := with_mol_buffer [] (self s_save); ostate := ostate s_save;
               trace := trace s_save ++ [ERunFinish] |}).
Proof.
  intros Hempty Hrun used.
  destruct (for_each_runs used st st' Hempty Hrun) as [Hruns Hempty'].
  repeat split; auto; try (now apply seeds_slice).
  - eapply optimize_empties_buffer; eauto.
  - match goal with
    | Hopt : BaseOptimizer.optimize _ _ _ seed s = _ |- _ =>
        destruct (optimize_returns seed s s1 Hopt)
          as (s_opt & s_log & s_save & suffix & _ & Hlog & Hsave & Hs1)
    end.
    exists s_opt, s_log, s_save, suffix. auto.
Qed.

End Harness.

(** ** The properties on the instance *)

Lemma Z_ltb_strict_weak : strict_weak Z.ltb.
Proof.
  split.
  - intros a b Hab. apply Z.ltb_lt in Hab. apply Z.ltb_ge. lia.
  - intros a b c Hab Hbc. apply Z.ltb_ge in Hab, Hbc. apply Z.ltb_ge. lia.
Qed.

(** A computation whose outcome is known to be normal. *)
Lemma returns_normally `{Externals} {A} (m : M A) (st : state) (a : A) :
  fst (m st) = inr a -> m st = (inr a, snd (m st)).
Proof. destruct (m st) as [r st']. cbn. now intros ->. Qed.

Lemma analysis_returns `{Externals} (r : exn + analysis) :
  (match r with inr _ => true | inl _ => false end) = true ->
  exists a, r = inr a.
Proof. destruct r as [e|a]; [discriminate|eauto]. Qed.

Ltac distinct_strings :=
  vm_compute;
  repeat (constructor; [cbn; intuition discriminate|]); constructor.

Section OnDemo.
Import Demo.
#[local] Existing Instance demo_externals.

Lemma score_mol_deduplicating_cache_witness :
  keys_unique (mol_buffer (self demo_used)) /\
  exists scores st' calls,
    BaseOptimizer.score_mol (oracle_func demo_oracle) [12; 7; 7; 100] demo_used
      = (inr scores, st') /\
    trace st' = trace demo_used ++ map EOracle calls /\
    NoDup calls /\
    List.length scores = 4.
Proof.
  assert (Hu : keys_unique (mol_buffer (self demo_used))) by distinct_strings.
  split; [exact Hu|].
  destruct (score_mol_deduplicating_cache (oracle_func demo_oracle)
              [12; 7; 7; 100] demo_used Hu)
    as (scores & st' & calls & Hrun & Htrace & Hnd & _ & _ & _ & Hlen & _).
  exists scores, st', calls. auto.
Defined.

Lemma insertion_rank_invariant_witness :
  mol_buffer (self demo_ready) = [] /\
  exists st',
    score_mols [(oracle_func demo_oracle, [13; 12; 13]);
                (oracle_func demo_oracle, [12; 100; 7])] demo_ready = (inr tt, st') /\
    map fst (py_sorted Nat.ltb entry_rank false (dict_items (mol_buffer (self st')))) =
      ["[13CH4]"; "[12CH4]"; "[100CH4]"; "[7CH4]"].
Proof.
  split; [reflexivity|].
  destruct (insertion_rank_invariant
              [(oracle_func demo_oracle, [13; 12; 13]);
               (oracle_func demo_oracle, [12; 100; 7])] demo_ready eq_refl)
    as (st' & Hrun & _ & _ & _ & _ & Horder).
  exists st'. split; [exact Hrun|exact Horder].
Defined.


Lemma log_result_levels_witness :
  strict_weak score_ltb /\
  BaseOptimizer.log_result demo_full =
    (inr tt, snd (BaseOptimizer.log_result demo_full)) /\
  Forall sorted_desc (BaseOptimizer.results_all_level (mol_buffer (self demo_full))) /\
  exists top batch,
    trace (snd (BaseOptimizer.log_result demo_full)) =
    trace demo_full ++ [EWandbLog (LogTop100 top); EWandbLog (LogBatchMetrics batch)].
Proof.
  assert (Hrun : BaseOptimizer.log_result demo_full =
                 (inr tt, snd (BaseOptimizer.log_result demo_full)))
    by (apply returns_normally; vm_compute; reflexivity).
  split; [exact Z_ltb_strict_weak|]. split; [exact Hrun|].
  destruct (log_result_levels demo_full) as (_ & Hlevels & _ & Hlog).
  split.
  - revert Hlevels.
    generalize (BaseOptimizer.results_all_level (mol_buffer (self demo_full))).
    generalize [100; 500; 1000; 3000; 5000; 10000]%Z.
    induction 1 as [|n lvl ns lvls [_ Hs] _ IH]; constructor;
      [exact (Hs Z_ltb_strict_weak)|exact IH].
  - destruct (Hlog _ Hrun) as (top & batch & Htrace & _).
    exists top, batch. exact Htrace.
Defined.

Lemma sort_buffer_sorts_and_is_idempotent_witness :
  strict_weak score_ltb /\
  keys_unique (mol_buffer (self demo_unsorted)) /\
  exists st',
    BaseOptimizer.sort_buffer demo_unsorted = (inr tt, st') /\
    sorted_desc (mol_buffer (self st')) /\
    BaseOptimizer.sort_buffer st' = (inr tt, st').
Proof.
  assert (Hu : keys_unique (mol_buffer (self demo_unsorted))) by distinct_strings.
  split; [exact Z_ltb_strict_weak|]. split; [exact Hu|].
  destruct (sort_buffer_sorts_and_is_idempotent demo_unsorted Z_ltb_strict_weak Hu)
    as (st' & Hrun & _ & _ & Hs & _ & _ & Hidem).
  exists st'. auto.
Defined.

Lemma save_result_writes_sorted_buffer_witness :
  strict_weak score_ltb /\
  keys_unique (mol_buffer (self demo_unsorted)) /\
  keys_unique (mol_buffer (self demo_no_dir)) /\
  (exists st',
     BaseOptimizer.save_result (Some "dog_gen_qed_2") demo_unsorted = (inr tt, st') /\
     trace st' = [EYamlDump "out/results_dog_gen_qed_2.yaml" (mol_buffer (self st'))] /\
     sorted_desc (mol_buffer (self st'))) /\
  (exists st',
     BaseOptimizer.save_result None demo_no_dir =
       (inl (FileNotFoundError "missing/results.yaml"), st') /\
     trace st' = [] /\
     sorted_desc (mol_buffer (self st'))).
Proof.
  assert (Hu : keys_unique (mol_buffer (self demo_unsorted))) by distinct_strings.
  assert (Hu' : keys_unique (mol_buffer (self demo_no_dir))) by distinct_strings.
  split; [exact Z_ltb_strict_weak|]. split; [exact Hu|]. split; [exact Hu'|].
  split.
  - destruct (save_result_writes_sorted_buffer (Some "dog_gen_qed_2") demo_unsorted
                Z_ltb_strict_weak Hu)
      as (_ & st' & Hcase & Hs & _).
    assert (E : open_write_error
                  (os_path_join (output_dir (args (self demo_unsorted)))
                     ("results_" ++ "dog_gen_qed_2" ++ ".yaml")%string) = None)
      by reflexivity.
    rewrite E in Hcase. destruct Hcase as [Hrun Htrace].
    exists st'. auto.
  - destruct (save_result_writes_sorted_buffer None demo_no_dir
                Z_ltb_strict_weak Hu')
      as (_ & st' & Hcase & Hs & _).
    assert (E : open_write_error
                  (os_path_join (output_dir (args (self demo_no_dir))) "results.yaml")
                = Some (FileNotFoundError "missing/results.yaml"))
      by reflexivity.
    rewrite E in Hcase. destruct Hcase as [Hrun Htrace].
    exists st'. auto.
Defined.

Lemma production_runs_once_per_seed_witness :
  mol_buffer (self demo_ready) = [] /\
  BaseOptimizer.production demo_optimize demo_oracle [] 2 demo_ready =
    (inr tt, snd (BaseOptimizer.production demo_optimize demo_oracle [] 2 demo_ready)) /\
  runs demo_optimize demo_oracle [] [2; 3]%Z demo_ready
    (snd (BaseOptimizer.production demo_optimize demo_oracle [] 2 demo_ready)).
Proof.
  assert (Hrun : BaseOptimizer.production demo_optimize demo_oracle [] 2 demo_ready =
    (inr tt, snd (BaseOptimizer.production demo_optimize demo_oracle [] 2 demo_ready)))
    by (apply returns_normally; vm_compute; reflexivity).
  split; [reflexivity|]. split; [exact Hrun|].
  exact (proj1 (production_runs_once_per_seed demo_optimize demo_oracle [] 2
                  demo_ready _ eq_refl Hrun)).
Defined.

(** C7 as stated fails: asked for 26 runs, [production] returns normally
    after 25 calls of [optimize], one per prime below 100.  In this
    instance [np.random.seed] is called by [optimize] only. *)
Lemma production_26_makes_25_runs :
  exists st',
    BaseOptimizer.production demo_optimize demo_oracle [] 26 demo_ready = (inr tt, st') /\
    np_seeds (trace st') = BaseOptimizer.seeds /\
    List.length (np_seeds (trace st')) = 25 /\
    List.length (np_seeds (trace st')) <> Z.to_nat 26.
Proof.
  exists (snd (BaseOptimizer.production demo_optimize demo_oracle [] 26 demo_ready)).
  assert (Hseeds :
    np_seeds (trace (snd (BaseOptimizer.production demo_optimize demo_oracle []
                            26 demo_ready))) = BaseOptimizer.seeds)
    by (vm_compute; reflexivity).
  split; [apply returns_normally; vm_compute; reflexivity|].
  split; [exact Hseeds|]. rewrite Hseeds.
  split; [reflexivity|]. vm_compute. discriminate.
Qed.

Lemma load_smiles_from_file_raises_NameError_witness :
  dict_get "smi_file" chem_exports = None /\
  BaseOptimizer.load_smiles_from_file "zinc.smi" demo_start =
    (inl (NameError "smi_file"), demo_start) /\
  (exists st',
     BaseOptimizer.init
       (Some {| n_jobs := 1; smi_file := Some "zinc.smi"; output_dir := "out" |})
       demo_start = (inl (NameError "smi_file"), st') /\
     trace st' = trace demo_start) /\
  (exists a', Some demo_args = Some a' /\ smi_file a' = None).
Proof.
  assert (Hchem : dict_get "smi_file" chem_exports = None) by reflexivity.
  destruct (load_smiles_from_file_raises_NameError Hchem) as (Hload & Hinit & Hok).
  split; [exact Hchem|]. split; [apply Hload|]. split.
  - apply (Hinit _ "zinc.smi"). reflexivity.
  - apply (Hok (Some demo_args) demo_start demo_ready). reflexivity.
Defined.

Lemma log_result_needs_100_molecules_witness :
  (dict_len (mol_buffer (self demo_used)) < 100 /\
   BaseOptimizer.log_result demo_used = (inl IndexError, demo_used)) /\
  (100 <= dict_len (mol_buffer (self demo_full)) /\
   exists rows,
     BaseOptimizer.top100_rows
       (BaseOptimizer.results_all_level (mol_buffer (self demo_full))) = inr rows) /\
  (exists a,
     BaseOptimizer._analyze_results (mol_buffer (self demo_used)) = inr a /\
     an_pct_pass a = QArith_base.Qmake 3 100) /\
  (@mol_filter strict_externals
     (map fst (py_slice_to (mol_buffer (self demo_full)) 100)) = [] /\
   @BaseOptimizer._analyze_results strict_externals (mol_buffer (self demo_full)) =
     inl ValueError).
Proof.
  destruct log_result_needs_100_molecules as (Hshort & Hlong & Hpct & _).
  destruct (@log_result_needs_100_molecules strict_externals) as (_ & _ & _ & Hnone).
  assert (H1 : dict_len (mol_buffer (self demo_used)) < 100) by (vm_compute; lia).
  assert (H2 : 100 <= dict_len (mol_buffer (self demo_full))) by (vm_compute; lia).
  split; [split; [exact H1|exact (Hshort _ H1)]|].
  split; [split; [exact H2|exact (Hlong _ H2)]|].
  split.
  - destruct (analysis_returns
                (BaseOptimizer._analyze_results (mol_buffer (self demo_used))))
      as [a E]; [vm_compute; reflexivity|].
    exists a. split; [exact E|].
    rewrite (Hpct _ a E). vm_compute. reflexivity.
  - split; [reflexivity|]. apply Hnone. reflexivity.
Defined.

End OnDemo.

(** * Further properties *)

(** ** [sanitize] *)

Section SanitizeFacts.
Context `{Externals}.
Variable to_smiles : mol -> smiles_outcome.

Lemma sanitize_loop_spec (l : list (option mol)) :
  forall (new : list mol) (set printed : list string),
  exists added : list mol,
    sanitize_loop to_smiles l new set printed =
      (new ++ added,
       printed ++ repeat "bad smiles"
                    (List.length (filter (is_bad_smiles to_smiles) l))) /\
    Forall2 (fun m s => to_smiles m = Smiles s) added
            (new_keys set (flat_map (smiles_of to_smiles) l)) /\
    (forall m, In m added -> In (Some m) l).
Proof.
  induction l as [|[m|] l IH]; intros new set printed.
  - exists []. cbn. rewrite !app_nil_r. repeat split; [constructor|tauto].
  - cbn [sanitize_loop flat_map smiles_of filter is_bad_smiles].
    destruct (to_smiles m) as [s| |] eqn:E; cbn [app new_keys repeat List.length].
    + destruct (existsb (String.eqb s) set) eqn:Es.
      * destruct (IH new set printed) as (added & Heq & Hf & Hin).
        exists added. split; [exact Heq|]. split; [exact Hf|].
        intros x Hx. right. auto.
      * destruct (IH (new ++ [m]) (set ++ [s]) printed) as (added & Heq & Hf & Hin).
        exists (m :: added). rewrite Heq, <- app_assoc.
        split; [reflexivity|]. split; [now constructor|].
        intros x [->|Hx]; [now left|right; auto].
    + destruct (IH new set printed) as (added & Heq & Hf & Hin).
      exists added. split; [exact Heq|]. split; [exact Hf|].
      intros x Hx. right. auto.
    + destruct (IH new set (printed ++ ["bad smiles"])) as (added & Heq & Hf & Hin).
      exists added. rewrite Heq, <- app_assoc.
      split; [reflexivity|]. split; [exact Hf|].
      intros x Hx. right. auto.
  - cbn [sanitize_loop flat_map smiles_of filter is_bad_smiles app].
    destruct (IH new set printed) as (added & Heq & Hf & Hin).
    exists added. split; [exact Heq|]. split; [exact Hf|].
    intros x Hx. right. auto.
Qed.

Lemma sanitize_result (l : list (option mol)) :
  exists out,
    sanitize to_smiles l =
      (out, repeat "bad smiles" (List.length (filter (is_bad_smiles to_smiles) l))) /\
    Forall2 (fun m s => to_smiles m = Smiles s) out
            (first_seen (flat_map (smiles_of to_smiles) l)) /\
    (forall m, In m out -> In (Some m) l).
Proof.
  destruct (sanitize_loop_spec l [] [] []) as (added & Heq & Hf & Hin).
  exists added. unfold sanitize. rewrite Heq. auto.
Qed.

Lemma new_keys_complete (s : string) (keys : list string) :
  forall seen, In s keys -> In s seen \/ In s (new_keys seen keys).
Proof.
  induction keys as [|k keys IHk]; intros seen; cbn; [tauto|].
  intros [->|Hk].
  - destruct (existsb (String.eqb s) seen) eqn:Es.
    + left. now apply existsb_eqb_in.
    + right. now left.
  - destruct (existsb (String.eqb k) seen) eqn:Es.
    + now apply IHk.
    + destruct (IHk (seen ++ [k]) Hk) as [Hs|Hs]; [|right; now right].
      apply in_app_or in Hs. destruct Hs as [Hs|[->|[]]]; [now left|].
      right. now left.
Qed.

(** A molecule that the loop appends stands in the input at a position
    before which no element has its string, and its string was not in the
    set the loop started with. *)
Lemma sanitize_loop_first (l : list (option mol)) :
  forall (new : list mol) (set printed : list string) (m : mol),
  In m (fst (sanitize_loop to_smiles l new set printed)) ->
  In m new \/
  (forall s, to_smiles m = Smiles s ->
     exists before after,
       l = before ++ Some m :: after /\
       ~ In s (flat_map (smiles_of to_smiles) before) /\ ~ In s set).
Proof.
  induction l as [|[m0|] l IH]; intros new set printed m.
  - cbn. auto.
  - cbn [sanitize_loop].
    destruct (to_smiles m0) as [s0| |] eqn:E0.
    + destruct (existsb (String.eqb s0) set) eqn:Es.
      * intros Hin. destruct (IH _ _ _ _ Hin) as [Hnew|Hfirst]; [now left|].
        right. intros s Hs. destruct (Hfirst s Hs) as (before & after & -> & Hb & Hset).
        exists (Some m0 :: before), after. split; [reflexivity|]. split; [|exact Hset].
        cbn [flat_map smiles_of]. rewrite E0. cbn [app]. intros [->|Hin'].
        -- apply Hset. now apply existsb_eqb_in.
        -- now apply Hb.
      * intros Hin. destruct (IH _ _ _ _ Hin) as [Hnew|Hfirst].
        -- apply in_app_or in Hnew. destruct Hnew as [Hnew|[->|[]]]; [now left|].
           right. intros s Hs. rewrite E0 in Hs. injection Hs as <-.
           exists [], l. split; [reflexivity|]. split; [intros []|].
           intros Hset. apply existsb_eqb_in in Hset. congruence.
        -- right. intros s Hs.
           destruct (Hfirst s Hs) as (before & after & -> & Hb & Hset).
           exists (Some m0 :: before), after. split; [reflexivity|].
           split.
           ++ cbn [flat_map smiles_of]. rewrite E0. cbn [app]. intros [->|Hin'].
              ** apply Hset. apply in_or_app. right. now left.
              ** now apply Hb.
           ++ intros Hin'. apply Hset. apply in_or_app. now left.
    + intros Hin. destruct (IH _ _ _ _ Hin) as [Hnew|Hfirst]; [now left|].
      right. intros s Hs. destruct (Hfirst s Hs) as (before & after & -> & Hb & Hset).
      exists (Some m0 :: before), after. split; [reflexivity|]. split; [|exact Hset].
      cbn [flat_map smiles_of]. rewrite E0. exact Hb.
    + intros Hin. destruct (IH _ _ _ _ Hin) as [Hnew|Hfirst]; [now left|].
      right. intros s Hs. destruct (Hfirst s Hs) as (before & after & -> & Hb & Hset).
      exists (Some m0 :: before), after. split; [reflexivity|]. split; [|exact Hset].
      cbn [flat_map smiles_of]. rewrite E0. exact Hb.
  - cbn [sanitize_loop].
    intros Hin. destruct (IH _ _ _ _ Hin) as [Hnew|Hfirst]; [now left|].
    right. intros s Hs. destruct (Hfirst s Hs) as (before & after & -> & Hb & Hset).
    exists (None :: before), after. split; [reflexivity|]. split; [|exact Hset].
    exact Hb.
Qed.

(** X1.  [sanitize] keeps, in input order, the first molecule of every
    SMILES string: the strings of the returned molecules are the strings of
    the convertible input molecules, each once, in order of first
    occurrence.  Every returned molecule is an element of the input, and
    ["bad smiles"] is printed once for every element whose conversion
    raises [ValueError].  The molecule kept for a string is the first one
    with that string: it stands in the input at a position before which no
    element converts to its string. *)
Theorem sanitize_keeps_first_of_each_smiles (l : list (option mol)) :
  Forall2 (fun m s => to_smiles m = Smiles s)
          (fst (sanitize to_smiles l))
          (first_seen (flat_map (smiles_of to_smiles) l)) /\
  NoDup (first_seen (flat_map (smiles_of to_smiles) l)) /\
  (forall s, In s (flat_map (smiles_of to_smiles) l) ->
             In s (first_seen (flat_map (smiles_of to_smiles) l))) /\
  (forall m, In m (fst (sanitize to_smiles l)) -> In (Some m) l) /\
  snd (sanitize to_smiles l) =
    repeat "bad smiles" (List.length (filter (is_bad_smiles to_smiles) l)) /\
  (forall m s, In m (fst (sanitize to_smiles l)) -> to_smiles m = Smiles s ->
     exists before after,
       l = before ++ Some m :: after /\
       ~ In s (flat_map (smiles_of to_smiles) before)).
Proof.
  split; [|split; [|split; [|split; [|split]]]].
  - destruct (sanitize_result l) as (out & Heq & Hf & Hin). now rewrite Heq.
  - apply new_keys_fresh.
  - intros s Hs. destruct (new_keys_complete s _ [] Hs) as [[]|Hr]. exact Hr.
  - destruct (sanitize_result l) as (out & Heq & Hf & Hin). now rewrite Heq.
  - destruct (sanitize_result l) as (out & Heq & Hf & Hin). now rewrite Heq.
  - intros m s Hin Hs. unfold sanitize in Hin.
    destruct (sanitize_loop_first l [] [] [] m Hin) as [[]|Hfirst].
    destruct (Hfirst s Hs) as (before & after & Hl & Hb & _).
    exists before, after. auto.
Qed.

Lemma sanitize_loop_distinct (ms : list mol) (keys : list string) :
  Forall2 (fun m s => to_smiles m = Smiles s) ms keys ->
  forall (new : list mol) (set printed : list string),
  NoDup keys -> (forall s, In s keys -> ~ In s set) ->
  sanitize_loop to_smiles (map Some ms) new set printed = (new ++ ms, printed).
Proof.
  induction 1 as [|m s ms keys Hm Hf IH]; intros new set printed Hnd Hdis.
  - cbn. now rewrite app_nil_r.
  - cbn [map sanitize_loop]. rewrite Hm.
    inversion Hnd as [|? ? Hnotin Hnd']; subst.
    assert (Es : existsb (String.eqb s) set = false).
    { destruct (existsb (String.eqb s) set) eqn:Es; [|reflexivity].
      apply existsb_eqb_in in Es. exfalso. apply (Hdis s); [now left|exact Es]. }
    rewrite Es, IH; auto.
    + now rewrite <- app_assoc.
    + intros x Hx Hset. apply in_app_or in Hset.
      destruct Hset as [Hset|[->|[]]]; [|contradiction].
      apply (Hdis x); [now right|exact Hset].
Qed.

(** X2.  [sanitize] is idempotent: sanitizing its own result returns the
    same list and prints nothing. *)
Theorem sanitize_idempotent (l : list (option mol)) :
  sanitize to_smiles (map Some (fst (sanitize to_smiles l))) =
  (fst (sanitize to_smiles l), []).
Proof.
  destruct (sanitize_result l) as (out & Heq & Hf & _).
  rewrite Heq. cbn [fst]. unfold sanitize.
  rewrite (sanitize_loop_distinct _ _ Hf); auto.
  apply new_keys_fresh.
Qed.

End SanitizeFacts.

(** ** More on the score cache *)

Section CacheFacts.
Context `{Externals}.

Lemma score_mol_loop_cached (f : string -> oracle_state -> score * oracle_state)
    (ms : list mol) :
  forall (acc : list score) (st : state),
  (forall m, In m ms -> dict_get (MolToSmiles m) (mol_buffer (self st)) <> None) ->
  exists scores,
    BaseOptimizer.score_mol_loop f ms acc st = (inr (acc ++ scores), st) /\
    Forall2 (fun m s => exists r,
               dict_get (MolToSmiles m) (mol_buffer (self st)) = Some (s, r))
            ms scores.
Proof.
  induction ms as [|m ms IH]; intros acc st Hin.
  - exists []. cbn. rewrite app_nil_r. split; [reflexivity|constructor].
  - cbn [BaseOptimizer.score_mol_loop]. unfold bind at 1.
    unfold BaseOptimizer.buffer at 1. unfold gets at 1.
    destruct (dict_get (MolToSmiles m) (mol_buffer (self st))) as [[s r]|] eqn:E.
    + destruct (IH (acc ++ [s]) st) as (scores & Heq & Hf).
      { intros x Hx. apply Hin. now right. }
      exists (s :: scores). cbn [fst]. rewrite Heq, <- app_assoc.
      split; [reflexivity|]. constructor; [eauto|exact Hf].
    + exfalso. apply (Hin m); [now left|exact E].
Qed.

(** X3.  A call of [score_mol] whose molecules are all in the buffer is
    free: on a buffer as [score_mol] leaves it (unique keys, sorted) it
    returns the cached scores in input order, makes no oracle call and
    leaves the whole state as it was. *)
Theorem score_mol_cached_call_is_free
    (f : string -> oracle_state -> score * oracle_state)
    (ms : list mol) (st : state) :
  keys_unique (mol_buffer (self st)) ->
  sorted_desc (mol_buffer (self st)) ->
  (forall m, In m ms -> dict_get (MolToSmiles m) (mol_buffer (self st)) <> None) ->
  exists scores,
    BaseOptimizer.score_mol f ms st = (inr scores, st) /\
    Forall2 (fun m s => exists r,
               dict_get (MolToSmiles m) (mol_buffer (self st)) = Some (s, r))
            ms scores.
Proof.
  intros Hu Hs Hin.
  destruct (score_mol_loop_cached f ms [] st Hin) as (scores & Heq & Hf).
  exists scores. split; [|exact Hf].
  unfold BaseOptimizer.score_mol. unfold bind at 1. rewrite Heq.
  unfold bind at 1. now rewrite sort_buffer_sorted_noop.
Qed.

Lemma oracle_calls_app (t1 t2 : list event) :
  oracle_calls (t1 ++ t2) = oracle_calls t1 ++ oracle_calls t2.
Proof. apply flat_map_app. Qed.

Lemma oracle_calls_map (l : list string) : oracle_calls (map EOracle l) = l.
Proof. induction l as [|x l IH]; cbn; [reflexivity|now f_equal]. Qed.

Lemma score_mol_ranked_trace (f : string -> oracle_state -> score * oracle_state)
    (ms : list mol) (st : state) (keys : list string) :
  ranked (mol_buffer (self st)) keys ->
  exists scores st',
    BaseOptimizer.score_mol f ms st = (inr scores, st') /\
    ranked (mol_buffer (self st')) (keys ++ new_keys keys (map MolToSmiles ms)) /\
    trace st' = trace st ++ map EOracle (new_keys keys (map MolToSmiles ms)).
Proof.
  intros Hrk.
  destruct (score_mol_ranked f ms st keys Hrk) as (scores & st' & Heq & Hrk').
  exists scores, st'. split; [exact Heq|]. split; [exact Hrk'|].
  destruct (score_mol_run f ms st) as (scores2 & news & o' & Heq2 & Hnk & _).
  rewrite Heq in Heq2. injection Heq2 as _ ->. cbn [trace].
  rewrite Hnk. f_equal. f_equal.
  destruct Hrk as (L & Hp & Hk & _).
  apply new_keys_ext. intros x. unfold dict_keys. rewrite <- Hk.
  split; apply Permutation_in; apply Permutation_map; [exact Hp|now symmetry].
Qed.

Lemma score_mols_ranked_trace
    (cs : list ((string -> oracle_state -> score * oracle_state) * list mol)) :
  forall (st : state) (keys : list string),
  ranked (mol_buffer (self st)) keys ->
  exists st',
    score_mols cs st = (inr tt, st') /\
    ranked (mol_buffer (self st'))
           (keys ++ new_keys keys (map MolToSmiles (List.concat (map snd cs)))) /\
    trace st' = trace st ++
      map EOracle (new_keys keys (map MolToSmiles (List.concat (map snd cs)))).
Proof.
  induction cs as [|[f ms] cs IH]; intros st keys Hrk.
  - exists st. cbn. rewrite !app_nil_r. auto.
  - destruct (score_mol_ranked_trace f ms st keys Hrk)
      as (scores & st1 & Heq & Hrk1 & Ht1).
    destruct (IH st1 _ Hrk1) as (st' & Heq' & Hrk' & Ht').
    exists st'. split; [|split].
    + unfold score_mols in *. cbn [for_each fst snd].
      unfold bind at 1. unfold bind at 1. rewrite Heq. unfold ret at 1.
      exact Heq'.
    + cbn [map List.concat snd]. rewrite map_app, new_keys_app, app_assoc.
      exact Hrk'.
    + cbn [map List.concat snd]. rewrite map_app, new_keys_app.
      rewrite Ht', Ht1, map_app, <- app_assoc. reflexivity.
Qed.

(** X4.  The size of the buffer counts the oracle calls.  After any
    sequence of [score_mol] calls on an empty buffer, the oracle has been
    called exactly for the distinct SMILES strings of the scored molecules,
    in order of first occurrence, and the buffer has one entry per call: the
    value [len(self.mol_buffer)] that [log_intermediate] logs as [n_oracle]
    is the number of oracle calls made since the buffer was empty. *)
Theorem buffer_size_counts_oracle_calls
    (cs : list ((string -> oracle_state -> score * oracle_state) * list mol))
    (st : state) :
  mol_buffer (self st) = [] ->
  exists st',
    score_mols cs st = (inr tt, st') /\
    oracle_calls (trace st') =
      oracle_calls (trace st)
      ++ first_seen (map MolToSmiles (List.concat (map snd cs))) /\
    dict_len (mol_buffer (self st')) =
      List.length (oracle_calls (trace st')) - List.length (oracle_calls (trace st)).
Proof.
  intros Hempty.
  assert (Hrk0 : ranked (mol_buffer (self st)) []).
  { rewrite Hempty. exists []. repeat split; constructor. }
  destruct (score_mols_ranked_trace cs st [] Hrk0) as (st' & Heq & Hrk & Ht).
  exists st'. split; [exact Heq|]. cbn [app] in Hrk.
  destruct (ranked_ranks _ _ Hrk) as (_ & Hlen & _).
  rewrite Ht, oracle_calls_app, oracle_calls_map. split; [reflexivity|].
  rewrite Hlen, length_app. unfold first_seen. lia.
Qed.

Lemma dict_get_set {V} (k k' : string) (v : V) (d : dict V) :
  dict_get k (dict_set k' v d) =
  if String.eqb k k' then Some v else dict_get k d.
Proof.
  induction d as [|[k0 v0] d IH]; cbn.
  - reflexivity.
  - destruct (String.eqb_spec k' k0) as [->|Hne]; cbn.
    + destruct (String.eqb k k0); reflexivity.
    + rewrite IH. destruct (String.eqb_spec k k0) as [->|Hne'].
      * destruct (String.eqb_spec k0 k'); [congruence|reflexivity].
      * reflexivity.
Qed.

Lemma score_mol_loop_answers (g : string -> score)
    (f : string -> oracle_state -> score * oracle_state) (ms : list mol) :
  (forall smi o, fst (f smi o) = g smi) ->
  forall (acc : list score) (st : state),
  answers g (mol_buffer (self st)) ->
  exists st',
    BaseOptimizer.score_mol_loop f ms acc st =
      (inr (acc ++ map (fun m => g (MolToSmiles m)) ms), st') /\
    answers g (mol_buffer (self st')).
Proof.
  intros Hf. induction ms as [|m ms IH]; intros acc st Hans.
  - exists st. cbn. now rewrite app_nil_r.
  - cbn [BaseOptimizer.score_mol_loop map]. unfold bind at 1.
    unfold BaseOptimizer.buffer at 1. unfold gets at 1.
    destruct (dict_get (MolToSmiles m) (mol_buffer (self st))) as [[s r]|] eqn:E.
    + destruct (IH (acc ++ [s]) st Hans) as (st' & Heq & Hans').
      exists st'. cbn [fst]. rewrite Heq, <- app_assoc.
      rewrite (Hans _ _ _ E). auto.
    + unfold bind at 1. unfold call_oracle.
      pose proof (Hf (MolToSmiles m) (ostate st)) as Hs.
      destruct (f (MolToSmiles m) (ostate st)) as [s o1]. cbn [fst] in Hs. subst s.
      unfold bind at 1. unfold BaseOptimizer.buffer at 1. unfold gets at 1.
      unfold bind at 1. unfold set_mol_buffer at 1. cbn [self ostate trace].
      match goal with
      | |- context [BaseOptimizer.score_mol_loop f ms ?a ?s] =>
          destruct (IH a s) as (st' & Heq & Hans')
      end.
      { cbn [self mol_buffer with_mol_buffer]. intros k s r.
        rewrite dict_get_set.
        destruct (String.eqb_spec k (MolToSmiles m)) as [->|Hne].
        - now intros [= <- _].
        - apply Hans. }
      exists st'. rewrite Heq, <- app_assoc. auto.
Qed.

(** X5.  The cache is transparent for an oracle whose answer depends on
    the SMILES string only.  If every score in the buffer is the oracle's
    answer for its key (as in an empty buffer), then [score_mol] returns for
    each molecule the oracle's answer for its SMILES string, whether cached
    or not, and the buffer it leaves again holds only the oracle's answers,
    under unique keys. *)
Theorem score_mol_transparent (g : string -> score)
    (f : string -> oracle_state -> score * oracle_state)
    (ms : list mol) (st : state) :
  (forall smi o, fst (f smi o) = g smi) ->
  keys_unique (mol_buffer (self st)) ->
  answers g (mol_buffer (self st)) ->
  exists st',
    BaseOptimizer.score_mol f ms st =
      (inr (map (fun m => g (MolToSmiles m)) ms), st') /\
    keys_unique (mol_buffer (self st')) /\
    answers g (mol_buffer (self st')).
Proof.
  intros Hf Hu Hans.
  destruct (score_mol_loop_answers g f ms Hf [] st Hans) as (st1 & Heq & Hans1).
  destruct (score_mol_loop_spec f ms [] st) as (scores & news & o' & Heq2 & Hk & _).
  rewrite Heq in Heq2. injection Heq2 as _ Hst1.
  assert (Hu1 : keys_unique (mol_buffer (self st1))).
  { rewrite Hst1. cbn [self mol_buffer with_mol_buffer].
    eapply keys_unique_app_new; eauto. }
  eexists. split; [|split].
  - unfold BaseOptimizer.score_mol. unfold bind at 1. rewrite Heq.
    unfold bind at 1. rewrite sort_buffer_run. reflexivity.
  - cbn [self mol_buffer with_mol_buffer].
    eapply keys_unique_perm; [symmetry; now apply sorted_buffer_perm|exact Hu1].
  - cbn [self mol_buffer with_mol_buffer]. intros k s r.
    rewrite (dict_get_perm (mol_buffer (self st1))).
    + apply Hans1.
    + symmetry. now apply sorted_buffer_perm.
    + exact Hu1.
Qed.

End CacheFacts.

Section SanitizeThenScore.
Context `{Externals}.
Variable to_smiles : mol -> smiles_outcome.

Lemma new_keys_distinct (l seen : list string) :
  NoDup l -> (forall x, In x l -> ~ In x seen) -> new_keys seen l = l.
Proof.
  revert seen. induction l as [|x l IH]; intros seen Hnd Hdis; cbn; [reflexivity|].
  inversion Hnd as [|? ? Hnotin Hnd']; subst.
  destruct (existsb (String.eqb x) seen) eqn:E.
  - apply existsb_eqb_in in E. exfalso. apply (Hdis x); [now left|exact E].
  - f_equal. apply IH; [exact Hnd'|].
    intros y Hy Hs. apply in_app_or in Hs. destruct Hs as [Hs|[->|[]]].
    + apply (Hdis y); [now right|exact Hs].
    + contradiction.
Qed.

Lemma smiles_of_converted (out : list mol) (keys : list string) :
  (forall m s, to_smiles m = Smiles s -> MolToSmiles m = s) ->
  Forall2 (fun m s => to_smiles m = Smiles s) out keys ->
  map MolToSmiles out = keys.
Proof.
  intros Hagree. induction 1 as [|m s out keys Hm Hf IH]; cbn; [reflexivity|].
  now rewrite (Hagree m s Hm), IH.
Qed.

(** X6.  Sanitizing before scoring leaves no duplicate for the cache to
    catch.  Where [Chem.MolToSmiles] gives [score_mol] the string it gave
    [sanitize], scoring the sanitized list on an empty buffer returns
    normally, calls the oracle exactly once per molecule of the list, in
    list order, and leaves one buffer entry per molecule. *)
Theorem score_mol_after_sanitize
    (f : string -> oracle_state -> score * oracle_state)
    (l : list (option mol)) (st : state) :
  (forall m s, to_smiles m = Smiles s -> MolToSmiles m = s) ->
  mol_buffer (self st) = [] ->
  let out := fst (sanitize to_smiles l) in
  exists scores st',
    BaseOptimizer.score_mol f out st = (inr scores, st') /\
    trace st' = trace st ++ map EOracle (map MolToSmiles out) /\
    dict_len (mol_buffer (self st')) = List.length out /\
    List.length scores = List.length out.
Proof.
  intros Hagree Hempty out.
  destruct (sanitize_result to_smiles l) as (out' & Heq & Hf & _).
  assert (Hout : out = out') by (unfold out; now rewrite Heq). clearbody out.
  subst out'.
  pose proof (smiles_of_converted out _ Hagree Hf) as Hkeys.
  destruct (score_mol_run f out st) as (scores & news & o' & Hrun & Hk & _ & Hsc).
  rewrite Hempty in Hk. cbn [dict_keys map] in Hk.
  rewrite new_keys_distinct in Hk.
  2:{ rewrite Hkeys. apply new_keys_fresh. }
  2:{ intros x _ []. }
  exists scores. eexists. split; [exact Hrun|].
  cbn [self trace mol_buffer with_mol_buffer]. rewrite Hk.
  split; [reflexivity|]. split.
  - rewrite Hempty. cbn [app].
    assert (Hu : keys_unique news).
    { unfold keys_unique, dict_keys. rewrite Hk, Hkeys. apply new_keys_fresh. }
    unfold dict_len. rewrite (Permutation_length (sorted_buffer_perm news Hu)).
    rewrite <- (length_map fst news), Hk. apply length_map.
  - symmetry. eapply Forall2_length; exact Hsc.
Qed.

End SanitizeThenScore.

(** ** [log_intermediate] *)

Section LogIntermediate.
Context `{Externals}.

Lemma sorted_firstn {A} (R : A -> A -> Prop) (n : nat) (l : list A) :
  StronglySorted R l -> StronglySorted R (firstn n l).
Proof.
  revert n. induction l as [|x l IH]; intros [|n] Hs; cbn; try constructor.
  - apply IH. now inversion Hs.
  - inversion Hs as [|? ? _ Hall]; subst.
    rewrite Forall_forall in *. intros y Hy. apply Hall.
    rewrite <- (firstn_skipn n l). apply in_or_app. now left.
Qed.

Lemma sorted_map {A B} (R : B -> B -> Prop) (g : A -> B) (l : list A) :
  StronglySorted (fun a b => R (g a) (g b)) l -> StronglySorted R (map g l).
Proof.
  induction 1 as [|x l Hs IH Hall]; cbn; constructor; auto.
  rewrite Forall_forall in *. intros y Hy. apply in_map_iff in Hy.
  destruct Hy as (a & <- & Ha). auto.
Qed.

Lemma np_max_of_sorted (x : score) (l : list score) :
  StronglySorted (fun a b => score_ltb a b = false) (x :: l) ->
  BaseOptimizer.np_max (x :: l) = inr x.
Proof.
  intros Hs. inversion Hs as [|? ? _ Hall]; subst. clear Hs. cbn. f_equal.
  induction l as [|y l IH]; cbn; [reflexivity|].
  inversion Hall as [|? ? Hxy Hall']; subst. rewrite Hxy. now apply IH.
Qed.

(** X7.  Failures of [log_intermediate].  Called without arguments on an
    empty buffer it raises [ValueError] (the maximum of no scores); called
    with only one of [mols] and [scores], or with no scores, it raises as
    well.  In each case nothing is logged and the state is as before. *)
Theorem log_intermediate_failures (st : state) :
  (mol_buffer (self st) = [] ->
   BaseOptimizer.log_intermediate None None st = (inl ValueError, st)) /\
  (forall ms, BaseOptimizer.log_intermediate (Some ms) None st = (inl TypeError, st)) /\
  (forall sc, BaseOptimizer.log_intermediate None (Some sc) st = (inl TypeError, st)) /\
  (forall ms, BaseOptimizer.log_intermediate (Some ms) (Some []) st =
              (inl ValueError, st)).
Proof.
  split; [|repeat split].
  intros Hempty.
  unfold BaseOptimizer.log_intermediate, bind, BaseOptimizer.buffer, gets, ret, lift.
  rewrite Hempty. reflexivity.
Qed.

(** X8.  What [log_intermediate()] logs on a sorted buffer.  On a
    non-empty buffer with non-increasing scores it returns normally after
    one [wandb.log], the object unchanged: [avg_top1] is the score of the
    first entry, which no entry of the buffer exceeds; [avg_top10] and
    [avg_top100] are the means of the first 10 and first 100 scores of the
    buffer; [n_oracle] is the size of the whole buffer. *)
Theorem log_intermediate_logs_best (st : state) (e : entry) (rest : list entry) :
  strict_weak score_ltb ->
  sorted_desc (mol_buffer (self st)) ->
  mol_buffer (self st) = e :: rest ->
  exists m,
    BaseOptimizer.log_intermediate None None st =
      (inr tt, {| self := self st; ostate := ostate st;
                  trace := trace st ++ [EWandbLog (LogIntermediate m)] |}) /\
    avg_top1 m = entry_score e /\
    (forall x, In x (mol_buffer (self st)) ->
               score_ltb (avg_top1 m) (entry_score x) = false) /\
    avg_top10 m = np_mean (firstn 10 (map entry_score (mol_buffer (self st)))) /\
    avg_top100 m = np_mean (firstn 100 (map entry_score (mol_buffer (self st)))) /\
    n_oracle m = dict_len (mol_buffer (self st)).
Proof.
  intros [Hasym _] Hs Hb.
  set (b := mol_buffer (self st)) in *.
  assert (Htop : BaseOptimizer.temp_top100 b = firstn 100 b).
  { unfold BaseOptimizer.temp_top100, dict_items. now rewrite py_slice_to_nonneg by lia. }
  assert (Hsc : StronglySorted (fun a c => score_ltb a c = false)
                  (map entry_score (firstn 100 b))).
  { apply sorted_map. apply sorted_firstn. exact Hs. }
  assert (Hmax : BaseOptimizer.np_max (map entry_score (firstn 100 b)) =
                 inr (entry_score e)).
  { rewrite Hb in *. cbn [firstn map] in *. now apply np_max_of_sorted. }
  eexists. split.
  - unfold BaseOptimizer.log_intermediate, bind, BaseOptimizer.buffer, gets, ret,
      lift, emit.
    fold b. cbn [fst snd]. rewrite Htop, Hmax. reflexivity.
  - cbn [avg_top1 avg_top10 avg_top100 n_oracle self].
    split; [reflexivity|]. split; [|split; [|split]].
    + intros x Hx. rewrite Hb in Hx. destruct Hx as [<-|Hx].
      * destruct (score_ltb (entry_score e) (entry_score e)) eqn:E; [|reflexivity].
        now rewrite (Hasym _ _ E) in E.
      * unfold sorted_desc in Hs. rewrite Hb in Hs.
        inversion Hs as [|? ? _ Hall]; subst.
        rewrite Forall_forall in Hall. now apply Hall.
    + f_equal. rewrite py_slice_to_nonneg by lia.
      change (Z.to_nat 10) with 10. unfold py_sorted.
      rewrite (fold_insert_fixed (py_passes score_ltb (fun s => s) true)).
      * rewrite <- firstn_map, firstn_firstn. reflexivity.
      * exact Hsc.
    + now rewrite firstn_map.
    + reflexivity.
Qed.

End LogIntermediate.

(** ** More on [log_result] and [_analyze_results] *)

Section LogResultFacts.
Context `{Externals}.

Lemma dict_of_items_acc_none {V} (k : string) (l acc : list (string * V)) :
  dict_get k (fold_left (fun d kv => dict_set (fst kv) (snd kv) d) l acc) = None <->
  dict_get k acc = None /\ ~ In k (map fst l).
Proof.
  revert acc. induction l as [|[k' v] l IH]; intros acc; cbn [fold_left map In fst snd].
  - tauto.
  - rewrite IH, dict_get_set.
    destruct (String.eqb_spec k k') as [->|Hne]; split.
    + intros [Hd _]. discriminate.
    + intros [_ Hn]. exfalso. apply Hn. now left.
    + intros [Hd Hn]. split; [exact Hd|]. intros [E|Hin]; [congruence|tauto].
    + intros [Hd Hn]. split; [exact Hd|tauto].
Qed.

Lemma dict_of_items_none {V} (k : string) (l : list (string * V)) :
  dict_get k (dict_of_items l) = None <-> ~ In k (map fst l).
Proof. unfold dict_of_items. rewrite dict_of_items_acc_none. cbn. tauto. Qed.

Lemma emap_length {A B} (f : A -> exn + B) (l : list A) (ys : list B) :
  emap f l = inr ys -> List.length ys = List.length l.
Proof.
  revert ys. induction l as [|x l IH]; cbn; intros ys.
  - now intros [= <-].
  - destruct (f x) as [e|y]; cbn; [discriminate|].
    destruct (emap f l) as [e|ys']; cbn; [discriminate|].
    intros [= <-]. cbn. f_equal. now apply IH.
Qed.

Lemma np_max_nonempty (l : list score) :
  l <> [] -> exists x, BaseOptimizer.np_max l = inr x.
Proof. destruct l; [congruence|cbn; eauto]. Qed.

Lemma slice_100_nonempty {A} (l : list A) : l <> [] -> py_slice_to l 100 <> [].
Proof.
  rewrite py_slice_to_nonneg by lia. change (Z.to_nat 100) with 100.
  destruct l; [congruence|cbn; congruence].
Qed.

Lemma scores_dict_keys (results : list entry) (s : string) :
  dict_get s (dict_of_items (map (fun item : entry => (fst item, entry_score item))
                                 results)) = None <->
  ~ In s (map fst results).
Proof.
  rewrite dict_of_items_none, map_map. cbn [fst]. tauto.
Qed.

(** X9.  [_analyze_results] raises [KeyError] when the filter returns a
    string that is not among the first 100 keys it was given: on non-empty
    results, the first such string of the filter's output is the key of the
    error. *)
Theorem analyze_results_unknown_smiles (results : list entry)
    (known unknown_after : list string) (s : string) :
  results <> [] ->
  mol_filter (map fst (py_slice_to results 100)) = known ++ s :: unknown_after ->
  (forall k, In k known -> In k (map fst (py_slice_to results 100))) ->
  ~ In s (map fst (py_slice_to results 100)) ->
  BaseOptimizer._analyze_results results = inl (KeyError s).
Proof.
  intros Hne Hfilter Hknown Hs.
  unfold BaseOptimizer._analyze_results. cbv zeta. unfold entry in *.
  rewrite Hfilter.
  destruct (np_max_nonempty (map entry_score (py_slice_to results 100)))
    as [top1 Htop1].
  { intros E. apply map_eq_nil in E. now apply (slice_100_nonempty results). }
  unfold entry in *. rewrite Htop1. cbn [ebind].
  rewrite emap_first_error with (e := KeyError s); [reflexivity| |].
  - intros k Hk.
    destruct (dict_get k _) as [v|] eqn:E; [eauto|].
    apply scores_dict_keys in E. exfalso. apply E. now apply Hknown.
  - apply scores_dict_keys in Hs. unfold entry in *. now rewrite Hs.
Qed.

Lemma analyze_results_ok (results : list entry) :
  results <> [] ->
  mol_filter (map fst (py_slice_to results 100)) <> [] ->
  incl (mol_filter (map fst (py_slice_to results 100)))
       (map fst (py_slice_to results 100)) ->
  exists a, BaseOptimizer._analyze_results results = inr a.
Proof.
  intros Hne Hpass Hincl.
  unfold BaseOptimizer._analyze_results. cbv zeta. unfold entry in *.
  destruct (np_max_nonempty (map entry_score (py_slice_to results 100)))
    as [top1 Htop1].
  { intros E. apply map_eq_nil in E. now apply (slice_100_nonempty results). }
  unfold entry in *. rewrite Htop1. cbn [ebind].
  match goal with
  | |- context [emap ?f ?l] =>
      destruct (emap_all_ok f l) as [vs Hvs]
  end.
  { intros k Hk. destruct (dict_get k _) as [v|] eqn:E; [eauto|].
    apply scores_dict_keys in E. exfalso. apply E. now apply Hincl. }
  rewrite Hvs. cbn [ebind].
  destruct (np_max_nonempty vs) as [top1_pass Hp].
  { apply emap_length in Hvs. intros ->. cbn in Hvs.
    destruct (mol_filter _); [congruence|discriminate]. }
  rewrite Hp. cbn [ebind]. eauto.
Qed.

(** X10.  When [log_result] succeeds.  With at least 100 entries in the
    buffer, and a filter that lets at least one molecule of every non-empty
    list pass and returns only strings it was given, [log_result] returns
    normally: it logs the two tables and leaves the object as it was. *)
Theorem log_result_returns (st : state) :
  100 <= dict_len (mol_buffer (self st)) ->
  (forall smis, smis <> [] ->
     mol_filter smis <> [] /\ incl (mol_filter smis) smis) ->
  exists top batch,
    BaseOptimizer.log_result st =
    (inr tt, {| self := self st; ostate := ostate st;
                trace := trace st ++ [EWandbLog (LogTop100 top);
                                      EWandbLog (LogBatchMetrics batch)] |}).
Proof.
  intros Hlen Hfilter.
  destruct (top100_rows_long _ Hlen) as [top Htop].
  assert (Hbatch : exists batch,
    BaseOptimizer.batch_rows
      (BaseOptimizer.results_all_level (mol_buffer (self st))) = inr batch).
  { rewrite results_all_level_spec.
    unfold BaseOptimizer.batch_rows, spec_levels, BaseOptimizer.log_num_oracles.
    cbn [List.length map combine seq emap nth_error fst snd].
    assert (Hlvl : forall n, (100 <= n)%Z ->
      exists a, BaseOptimizer._analyze_results
                  (spec_level (mol_buffer (self st)) n) = inr a).
    { intros n Hn.
      assert (Hne : spec_level (mol_buffer (self st)) n <> []).
      { intros E. apply (f_equal (@List.length _)) in E.
        rewrite spec_level_length in E. cbn [List.length] in E. lia. }
      assert (Hsm : map fst (py_slice_to (spec_level (mol_buffer (self st)) n) 100)
                    <> []).
      { intros E. apply map_eq_nil in E. now apply (slice_100_nonempty _ Hne). }
      destruct (Hfilter _ Hsm) as [Hpass Hincl].
      now apply analyze_results_ok. }
    destruct (Hlvl 100%Z) as [a1 E1]; [lia|].
    destruct (Hlvl 500%Z) as [a2 E2]; [lia|].
    destruct (Hlvl 1000%Z) as [a3 E3]; [lia|].
    destruct (Hlvl 3000%Z) as [a4 E4]; [lia|].
    destruct (Hlvl 5000%Z) as [a5 E5]; [lia|].
    destruct (Hlvl 10000%Z) as [a6 E6]; [lia|].
    rewrite E1, E2, E3, E4, E5, E6. cbn [ebind]. eauto. }
  destruct Hbatch as [batch Hbatch].
  exists top, batch.
  unfold BaseOptimizer.log_result, bind, BaseOptimizer.buffer, gets, lift, emit.
  rewrite Htop. cbn [self ostate trace]. rewrite Hbatch.
  now rewrite <- app_assoc.
Qed.

(** X11.  Budgets beyond the number of scored molecules add nothing.  The
    levels of [log_result] are [level b n] for the six budgets; for two
    budgets that are both at least the size of the buffer the levels are the
    same list, hence so are their rows of the batch table. *)
Theorem levels_saturate (b : dict (score * nat)) (n m : Z) :
  (Z.of_nat (dict_len b) <= n)%Z ->
  (Z.of_nat (dict_len b) <= m)%Z ->
  BaseOptimizer.results_all_level b = map (level b) BaseOptimizer.log_num_oracles /\
  level b n = level b m /\
  BaseOptimizer._analyze_results (level b n) =
    BaseOptimizer._analyze_results (level b m).
Proof.
  intros Hn Hm.
  assert (Hfull : forall k, (Z.of_nat (dict_len b) <= k)%Z ->
    level b k = py_sorted score_ltb entry_score true (BaseOptimizer.results_by_rank b)).
  { intros k Hk. unfold level. f_equal.
    rewrite py_slice_to_nonneg by lia. apply firstn_all2.
    rewrite results_by_rank_truncated, length_firstn, py_sorted_length.
    unfold dict_len, dict_items, entry in *. lia. }
  split; [reflexivity|].
  rewrite (Hfull n Hn), (Hfull m Hm). split; reflexivity.
Qed.

Lemma emap_indexed {A B} (l : list A) (mk : nat -> A -> B) (e : exn) :
  forall (n s : nat) (rows : list B),
  emap (fun i => match nth_error l i with
                 | Some x => inr (mk i x)
                 | None => inl e
                 end) (seq s n) = inr rows ->
  rows = map (fun p => mk (fst p) (snd p))
             (combine (seq s n) (firstn n (skipn s l))) /\
  (n <> 0 -> s + n <= List.length l).
Proof.
  induction n as [|n IH]; intros s rows; cbn [seq emap].
  - intros [= <-]. split; [reflexivity|congruence].
  - destruct (nth_error l s) as [x|] eqn:E; [|discriminate]. cbn [ebind].
    destruct (emap _ (seq (S s) n)) as [e'|rows'] eqn:E'; [discriminate|].
    cbn [ebind]. intros [= <-].
    destruct (IH (S s) rows' E') as [Hrows Hlen].
    assert (Hlt : s < List.length l) by (apply nth_error_Some; congruence).
    assert (Hskip : skipn s l = x :: skipn (S s) l).
    { clear -E. revert l E. induction s as [|s IHs]; intros [|y l] E; cbn in *;
        try discriminate.
      - now injection E as ->.
      - now apply IHs. }
    rewrite Hskip. cbn [firstn combine map fst snd]. split; [now f_equal|].
    intros _. destruct n as [|n']; [lia|]. assert (S n' <> 0) by lia. lia.
Qed.

Lemma in_firstn {A} (n : nat) (l : list A) (x : A) : In x (firstn n l) -> In x l.
Proof.
  intros Hx. rewrite <- (firstn_skipn n l). apply in_or_app. now left.
Qed.

Lemma map_fst_combine {A B} (l : list A) (l' : list B) :
  List.length l = List.length l' -> map fst (combine l l') = l.
Proof.
  revert l'. induction l as [|x l IH]; intros [|y l'] Hlen; cbn in *;
    try discriminate; [reflexivity|].
  f_equal. apply IH. lia.
Qed.

Lemma map_snd_combine {A B} (l : list A) (l' : list B) :
  List.length l = List.length l' -> map snd (combine l l') = l'.
Proof.
  revert l'. induction l as [|x l IH]; intros [|y l'] Hlen; cbn in *;
    try discriminate; [reflexivity|].
  f_equal. apply IH. lia.
Qed.

Lemma in_spec_level (b : dict (score * nat)) (n : Z) (x : entry) :
  In x (spec_level b n) -> In x b.
Proof.
  unfold spec_level, dict_items. intros Hx.
  apply (Permutation_in _ (py_sorted_perm _ _ _ _)) in Hx.
  apply in_firstn in Hx. apply in_firstn in Hx.
  now apply (Permutation_in _ (py_sorted_perm _ _ _ _)) in Hx.
Qed.

(** X12.  The table "Top 100 Molecules".  When its rows can be built they
    are 100 rows whose first column counts 1..100, whose scores do not
    increase from row to row, and each of which shows the score, the
    insertion rank, the image and the SMILES string of one entry of the
    buffer. *)
Theorem top100_table_is_ranked (b : dict (score * nat))
    (rows : list (nat * score * nat * image * string)) :
  strict_weak score_ltb ->
  BaseOptimizer.top100_rows (BaseOptimizer.results_all_level b) = inr rows ->
  List.length rows = 100 /\
  map (fun row => fst (fst (fst (fst row)))) rows = seq 1 100 /\
  StronglySorted (fun s s' => score_ltb s s' = false)
                 (map (fun row => snd (fst (fst (fst row)))) rows) /\
  (forall i s r img smi, In (i, s, r, img, smi) rows ->
     In (smi, (s, r)) b /\ img = mol_image smi).
Proof.
  intros Hord Hrows. unfold BaseOptimizer.top100_rows in Hrows.
  rewrite last_level in Hrows.
  set (lvl := spec_level b 10000) in *.
  apply (emap_indexed lvl
           (fun i item => (i + 1, entry_score item, entry_rank item,
                           mol_image (fst item), fst item))
           IndexError 100 0 rows) in Hrows.
  destruct Hrows as [Hrows Hlen]. cbn [skipn] in Hrows.
  assert (Hlen' : 100 <= List.length lvl) by (apply Hlen; discriminate).
  assert (Hitems : List.length (seq 0 100) = List.length (firstn 100 lvl)).
  { rewrite length_seq, length_firstn. lia. }
  split; [|split; [|split]].
  - rewrite Hrows, length_map, length_combine, length_seq, length_firstn. lia.
  - rewrite Hrows, map_map. cbn [fst snd].
    rewrite <- (map_map fst (fun i => i + 1)), map_fst_combine by exact Hitems.
    reflexivity.
  - rewrite Hrows, map_map. cbn [fst snd].
    rewrite <- (map_map snd entry_score), map_snd_combine by exact Hitems.
    apply sorted_map. apply sorted_firstn.
    unfold lvl, spec_level. now apply sort_desc_sorted.
  - intros i s r img smi Hin. rewrite Hrows in Hin.
    apply in_map_iff in Hin. destruct Hin as ([j item] & Heq & Hin).
    cbn [fst snd] in Heq. injection Heq as _ Hs Hr Himg Hsmi.
    apply in_combine_r in Hin. apply in_firstn in Hin.
    apply in_spec_level in Hin.
    destruct item as [k [s0 r0]]. unfold entry_score, entry_rank in *.
    cbn [fst snd] in *. subst. auto.
Qed.

End LogResultFacts.

(** ** More on the harness *)

Section HarnessFacts.
Context `{Externals}.
Variable _optimize : oracle -> dict Z -> M unit.
Variable o : oracle.
Variable config : dict Z.

Lemma log_result_ok (st st' : state) :
  BaseOptimizer.log_result st = (inr tt, st') ->
  100 <= dict_len (mol_buffer (self st)) /\
  exists top batch,
    st' = {| self := self st; ostate := ostate st;
             trace := trace st ++ [EWandbLog (LogTop100 top);
                                   EWandbLog (LogBatchMetrics batch)] |}.
Proof.
  intros Hrun. split.
  - destruct (Nat.le_gt_cases 100 (dict_len (mol_buffer (self st)))) as [Hle|Hlt];
      [exact Hle|].
    unfold BaseOptimizer.log_result, bind, BaseOptimizer.buffer, gets, lift in Hrun.
    rewrite top100_rows_short in Hrun by exact Hlt. discriminate.
  - revert Hrun.
    unfold BaseOptimizer.log_result, bind, BaseOptimizer.buffer, gets, lift, emit.
    destruct (BaseOptimizer.top100_rows _) as [e|top]; [discriminate|].
    cbn [self ostate trace].
    destruct (BaseOptimizer.batch_rows _) as [e|batch]; [discriminate|].
    intros [= <-]. exists top, batch. now rewrite <- app_assoc.
Qed.

Lemma np_random_seed_ok (seed : Z) :
  (0 <= seed <= 2 ^ 32 - 1)%Z ->
  BaseOptimizer.np_random_seed seed = emit (ENpSeed seed).
Proof.
  intros Hs. unfold BaseOptimizer.np_random_seed.
  destruct (Z.leb_spec 0 seed); [|lia].
  destruct (Z.leb_spec seed (2 ^ 32 - 1)); [reflexivity|lia].
Qed.

Lemma np_random_seed_bad (seed : Z) :
  ~ (0 <= seed <= 2 ^ 32 - 1)%Z ->
  BaseOptimizer.np_random_seed seed = raise ValueError.
Proof.
  intros Hs. unfold BaseOptimizer.np_random_seed.
  destruct (Z.leb_spec 0 seed); [|reflexivity].
  destruct (Z.leb_spec seed (2 ^ 32 - 1)); [lia|reflexivity].
Qed.

(** X13.  A run that fails is not wound up.  With a seed that
    [np.random.seed] accepts (0 to 2**32 - 1): if [_optimize] raises,
    [optimize] raises the same exception; if [_optimize] returns with fewer
    than 100 molecules in the buffer, [optimize] raises [IndexError] from
    [log_result].  In both cases the state is the one [_optimize] left:
    nothing is logged or saved, the run is not finished, and the buffer is
    not emptied.  With any other seed [np.random.seed] raises [ValueError]
    after the run was started in wandb: [_optimize] is not called and the
    object is as it was. *)
Theorem optimize_failed_run (seed : Z) (st s_opt : state) :
  ((0 <= seed <= 2 ^ 32 - 1)%Z ->
   (forall e, _optimize o config (run_started o seed st) = (inl e, s_opt) ->
      BaseOptimizer.optimize _optimize o config seed st = (inl e, s_opt)) /\
   (_optimize o config (run_started o seed st) = (inr tt, s_opt) ->
    dict_len (mol_buffer (self s_opt)) < 100 ->
    BaseOptimizer.optimize _optimize o config seed st = (inl IndexError, s_opt))) /\
  (~ (0 <= seed <= 2 ^ 32 - 1)%Z ->
   BaseOptimizer.optimize _optimize o config seed st =
     (inl ValueError,
      {| self := self st; ostate := ostate st;
         trace := trace st
                  ++ [EWandbInit (model_name (self st) ++ "_" ++ oracle_name o)%string]
      |})).
Proof.
  split.
  - intros Hseed. split.
    + intros e Hopt. unfold BaseOptimizer.optimize.
      rewrite (np_random_seed_ok seed Hseed). unfold bind, gets, emit.
      cbn [self ostate trace fst snd]. unfold run_started in Hopt.
      now rewrite Hopt.
    + intros Hopt Hlt. unfold BaseOptimizer.optimize.
      rewrite (np_random_seed_ok seed Hseed). unfold bind, gets, emit.
      cbn [self ostate trace fst snd]. unfold run_started in Hopt.
      rewrite Hopt.
      assert (Hlog : BaseOptimizer.log_result s_opt = (inl IndexError, s_opt)).
      { unfold BaseOptimizer.log_result, bind, BaseOptimizer.buffer, gets, lift.
        now rewrite top100_rows_short. }
      now rewrite Hlog.
  - intros Hseed. unfold BaseOptimizer.optimize.
    rewrite (np_random_seed_bad seed Hseed). reflexivity.
Qed.

(** X14.  What a finished run has saved.  When [optimize] returns
    normally, [_optimize] had returned normally with at least 100 molecules
    in the buffer, and, the keys of that buffer being unique, all that
    happened afterwards is: the two tables of [log_result] were logged, the
    whole buffer that [_optimize] left was written, sorted by score, to the
    run's result file, and the run was finished. *)
Theorem optimize_saves_the_run (seed : Z) (st st1 : state) :
  strict_weak score_ltb ->
  BaseOptimizer.optimize _optimize o config seed st = (inr tt, st1) ->
  exists s_opt,
    _optimize o config (run_started o seed st) = (inr tt, s_opt) /\
    100 <= dict_len (mol_buffer (self s_opt)) /\
    (keys_unique (mol_buffer (self s_opt)) ->
     exists top batch doc,
       trace st1 =
         trace s_opt ++
         [EWandbLog (LogTop100 top); EWandbLog (LogBatchMetrics batch);
          EYamlDump (run_file (output_dir (args (self s_opt)))
                              (model_name (self s_opt)) (oracle_name o) seed) doc;
          ERunFinish] /\
       Permutation doc (mol_buffer (self s_opt)) /\
       sorted_desc doc /\
       mol_buffer (self st1) = []).
Proof.
  intros Hord Hrun.
  pose proof (optimize_returns_seed _optimize o config seed st st1 Hrun) as Hseed.
  revert Hrun. unfold BaseOptimizer.optimize.
  rewrite (np_random_seed_ok seed Hseed). unfold bind, gets, emit.
  cbn [self ostate trace fst snd]. fold (run_started o seed st).
  destruct (_optimize o config (run_started o seed st)) as [[e|[]] s_opt] eqn:E1;
    [discriminate|].
  destruct (BaseOptimizer.log_result s_opt) as [[e|[]] s_log] eqn:E2; [discriminate|].
  destruct (log_result_ok _ _ E2) as (Hlen & top & batch & ->).
  cbn [self ostate trace].
  rewrite save_result_run. cbv zeta. rewrite sort_buffer_run.
  cbn [snd self ostate trace mol_buffer with_mol_buffer args model_name].
  destruct (open_write_error _) as [e|]; [discriminate|].
  unfold set_mol_buffer. cbn [self ostate trace]. intros [= <-].
  exists s_opt. split; [reflexivity|]. split; [exact Hlen|]. intros Hu.
  cbn [snd self ostate trace mol_buffer with_mol_buffer args model_name].
  rewrite sorted_items_dict by exact Hu.
  exists top, batch. eexists. split; [|split; [|split]].
  - unfold run_file. rewrite <- !app_assoc. reflexivity.
  - apply py_sorted_perm.
  - now apply sort_desc_sorted.
  - reflexivity.
Qed.

Lemma runs_then_failure (done later : list Z) (seed : Z) (e : exn) :
  forall st st1 st2,
  runs _optimize o config done st st1 ->
  BaseOptimizer.optimize _optimize o config seed st1 = (inl e, st2) ->
  for_each (done ++ seed :: later)
    (fun seed => BaseOptimizer.optimize _optimize o config seed ;; set_mol_buffer [])
    st = (inl e, st2).
Proof.
  intros st st1 st2 Hruns. revert st2.
  induction Hruns as [st|s rest st sa sb Hempty Hopt Hempty' Hrest IH];
    intros st2 Hfail; cbn [app for_each].
  - unfold bind at 1. unfold bind at 1. now rewrite Hfail.
  - unfold bind at 1. unfold bind at 1. rewrite Hopt.
    rewrite (reset_empty sa Hempty'). now apply IH.
Qed.

(** X15.  [production] stops at the first run that fails: when the runs
    for the seeds before [seed] have returned normally and [optimize] raises
    for [seed], [production] raises the same exception in the same state, and
    [optimize] is not called for the later seeds. *)
Theorem production_stops_at_first_failure (num_runs : Z)
    (done later : list Z) (seed : Z) (e : exn) (st st1 st2 : state) :
  py_slice_to BaseOptimizer.seeds num_runs = done ++ seed :: later ->
  runs _optimize o config done st st1 ->
  BaseOptimizer.optimize _optimize o config seed st1 = (inl e, st2) ->
  BaseOptimizer.production _optimize o config num_runs st = (inl e, st2).
Proof.
  intros Hseeds Hruns Hfail. unfold BaseOptimizer.production.
  rewrite Hseeds. eapply runs_then_failure; eauto.
Qed.

(** X16.  [production] with a [num_runs] that is not positive.  With 0, or
    with -25 or less, it does nothing.  With a negative [num_runs] above -25
    the slice [seeds[:num_runs]] drops that many seeds from the end: a call
    with an empty buffer that returns normally has made [25 + num_runs]
    runs, for the first [25 + num_runs] primes. *)
Theorem production_nonpositive_runs (num_runs : Z) (st : state) :
  (num_runs = 0%Z \/ (num_runs <= -25)%Z ->
   BaseOptimizer.production _optimize o config num_runs st = (inr tt, st)) /\
  ((-25 < num_runs < 0)%Z ->
   List.length (py_slice_to BaseOptimizer.seeds num_runs) = Z.to_nat (25 + num_runs) /\
   forall st',
     mol_buffer (self st) = [] ->
     BaseOptimizer.production _optimize o config num_runs st = (inr tt, st') ->
     runs _optimize o config
          (firstn (Z.to_nat (25 + num_runs)) BaseOptimizer.seeds) st st').
Proof.
  split.
  - intros Hn. unfold BaseOptimizer.production, py_slice_to.
    destruct Hn as [->|Hn]; [reflexivity|].
    destruct (Z.leb_spec 0 num_runs); [lia|].
    replace (Z.to_nat (Z.of_nat (List.length BaseOptimizer.seeds) + num_runs))
      with 0 by (cbn [List.length BaseOptimizer.seeds]; lia).
    reflexivity.
  - intros Hn.
    assert (Hslice : py_slice_to BaseOptimizer.seeds num_runs =
                     firstn (Z.to_nat (25 + num_runs)) BaseOptimizer.seeds).
    { unfold py_slice_to. destruct (Z.leb_spec 0 num_runs); [lia|]. reflexivity. }
    split.
    + rewrite Hslice, length_firstn. cbn [List.length BaseOptimizer.seeds]. lia.
    + intros st' Hempty Hrun. unfold BaseOptimizer.production in Hrun.
      rewrite Hslice in Hrun.
      now destruct (for_each_runs _optimize o config _ st st' Hempty Hrun).
Qed.

End HarnessFacts.

(** ** The result files of the runs *)

Lemma string_app_inj_l (a b c : string) :
  (a ++ b)%string = (a ++ c)%string -> b = c.
Proof. induction a as [|x a IH]; cbn; [auto|]. intros [= E]. auto. Qed.

Lemma string_length_app (a b : string) :
  String.length (a ++ b) = String.length a + String.length b.
Proof. induction a as [|x a IH]; cbn; [reflexivity|now rewrite IH]. Qed.

Lemma string_app_inj_r (a b c : string) :
  (a ++ c)%string = (b ++ c)%string -> a = b.
Proof.
  revert b. induction a as [|x a IH]; intros [|y b] E; cbn in E.
  - reflexivity.
  - apply (f_equal String.length) in E. cbn in E.
    rewrite string_length_app in E. lia.
  - apply (f_equal String.length) in E. cbn in E.
    rewrite string_length_app in E. lia.
  - injection E as -> E. f_equal. now apply IH.
Qed.

Lemma py_str_int_inj (n m : Z) : py_str_int n = py_str_int m -> n = m.
Proof.
  unfold py_str_int. intros E.
  assert (Hparse : forall z,
    DecimalString.NilZero.int_of_string
      (DecimalString.NilZero.string_of_int (Z.to_int z)) = Some (Z.to_int z)).
  { intros z. destruct z as [|p|p]; [reflexivity| |];
      apply DecimalString.NilZero.isi; cbn; intros [= E'];
      now apply (DecimalPos.Unsigned.to_uint_nonnil p). }
  apply DecimalZ.to_int_inj.
  pose proof (Hparse n) as Hn. rewrite E, Hparse in Hn. now injection Hn.
Qed.

Lemma os_path_join_inj (d n1 n2 : string) :
  starts_with_sep n1 = false -> starts_with_sep n2 = false ->
  os_path_join d n1 = os_path_join d n2 -> n1 = n2.
Proof.
  unfold os_path_join. intros -> ->.
  destruct (String.eqb d "" || ends_with_sep d); intros E.
  - now apply string_app_inj_l in E.
  - apply string_app_inj_l in E. now apply (string_app_inj_l "/") in E.
Qed.

Lemma seeds_distinct : NoDup BaseOptimizer.seeds.
Proof.
  unfold BaseOptimizer.seeds.
  repeat (constructor; [cbn [In]; lia|]). constructor.
Qed.

Lemma NoDup_firstn_of {A} (n : nat) (l : list A) : NoDup l -> NoDup (firstn n l).
Proof.
  intros Hnd. rewrite <- (firstn_skipn n l) in Hnd.
  now apply NoDup_app_remove_r in Hnd.
Qed.

(** X17.  The runs of [production] never overwrite each other's results.
    For a given output directory, model name and oracle name, the result
    file of a run determines its seed; so the files of the runs that
    [production] makes, one per seed of [seeds[:num_runs]], are pairwise
    different. *)
Theorem run_files_distinct `{Externals} (dir model oname : string) (num_runs : Z) :
  (forall seed seed',
     run_file dir model oname seed = run_file dir model oname seed' -> seed = seed') /\
  NoDup (map (run_file dir model oname) (py_slice_to BaseOptimizer.seeds num_runs)).
Proof.
  assert (Hinj : forall seed seed',
     run_file dir model oname seed = run_file dir model oname seed' -> seed = seed').
  { intros seed seed' E. unfold run_file in E.
    apply os_path_join_inj in E; [|reflexivity|reflexivity].
    apply (string_app_inj_l "results_") in E.
    apply string_app_inj_r in E.
    apply string_app_inj_l in E. apply (string_app_inj_l "_") in E.
    apply string_app_inj_l in E. apply (string_app_inj_l "_") in E.
    now apply py_str_int_inj. }
  split; [exact Hinj|].
  assert (Hnd : NoDup (py_slice_to BaseOptimizer.seeds num_runs)).
  { unfold py_slice_to. destruct (0 <=? num_runs)%Z;
      apply NoDup_firstn_of, seeds_distinct. }
  revert Hnd. generalize (py_slice_to BaseOptimizer.seeds num_runs).
  induction l as [|x l IH]; cbn; intros Hnd; [constructor|].
  inversion Hnd as [|? ? Hnotin Hnd']; subst. constructor; [|auto].
  intros Hin. apply in_map_iff in Hin. destruct Hin as (y & E & Hy).
  apply Hinj in E. subst y. contradiction.
Qed.

(** ** More on [DoG_Gen_Optimizer._optimize] *)

Section DoGGenFacts.
Context `{Externals}.

(** X18.  [_optimize] on an object whose attribute [oracle] a caller has
    set, when the code outside [src/] returns normally from every call and
    leaves that attribute in place.  It attaches the oracle, seeds the
    generators, and loads the trees and the model from the checkpoint, in
    this order, before it reads the configuration.  If one of the keys
    [n_rounds], [n_samples_per_round], [n_samples_to_keep_per_round] is
    missing, it then raises [KeyError] for the first missing one, and no
    hillclimber is created.  With the three keys it builds the hillclimber
    from them and runs it on the train trees followed by the validation
    trees, and returns.  The object and the oracle's state are then as the
    called code left them. *)
Theorem DoG_Gen_optimize_with_oracle_attribute
    (absent : ext_call -> optimizer * oracle_state ->
              (exn + unit) * (optimizer * oracle_state))
    (o : oracle) (config : dict Z) (st : state) (ev : evaluator) :
  returns_normally_keeping_oracle absent ->
  oracle_attr (self st) = Some ev ->
  let loaded := after_externals absent (loading_calls ev o) st in
  trace loaded = trace st ++ map EExt (loading_calls ev o) /\
  (dict_get "n_rounds" config = None ->
   DoG_Gen_Optimizer._optimize absent o config st =
     (inl (KeyError "n_rounds"), loaded)) /\
  (dict_get "n_rounds" config <> None ->
   dict_get "n_samples_per_round" config = None ->
   DoG_Gen_Optimizer._optimize absent o config st =
     (inl (KeyError "n_samples_per_round"), loaded)) /\
  (dict_get "n_rounds" config <> None ->
   dict_get "n_samples_per_round" config <> None ->
   dict_get "n_samples_to_keep_per_round" config = None ->
   DoG_Gen_Optimizer._optimize absent o config st =
     (inl (KeyError "n_samples_to_keep_per_round"), loaded)) /\
  (forall n_rounds n_samples n_keep,
   dict_get "n_rounds" config = Some n_rounds ->
   dict_get "n_samples_per_round" config = Some n_samples ->
   dict_get "n_samples_to_keep_per_round" config = Some n_keep ->
   let final :=
     after_externals absent (hillclimbing_calls ev n_rounds n_samples n_keep)
                     loaded in
   DoG_Gen_Optimizer._optimize absent o config st = (inr tt, final) /\
   trace final =
     trace loaded ++ map EExt (hillclimbing_calls ev n_rounds n_samples n_keep)).
Proof.
  intros Hq Hev loaded.
  assert (Hirr : forall k, dict_get k config <> None ->
                           exists v, dict_get k config = Some v).
  { intros k Hk. destruct (dict_get k config) as [v|]; [eauto|congruence]. }
  split; [apply (after_externals_facts absent _ Hq st)|].
  split; [|split; [|split]].
  - intros H1. rewrite (DoG_Gen_optimize_loads absent o config st ev Hq Hev).
    unfold DoG_Gen_Optimizer.config_get. rewrite H1. reflexivity.
  - intros H1 H2. destruct (Hirr _ H1) as [a E1].
    rewrite (DoG_Gen_optimize_loads absent o config st ev Hq Hev).
    unfold DoG_Gen_Optimizer.config_get. rewrite E1, H2. reflexivity.
  - intros H1 H2 H3. destruct (Hirr _ H1) as [a E1]. destruct (Hirr _ H2) as [b E2].
    rewrite (DoG_Gen_optimize_loads absent o config st ev Hq Hev).
    unfold DoG_Gen_Optimizer.config_get. rewrite E1, E2, H3. reflexivity.
  - intros a b c H1 H2 H3 final. split.
    + rewrite (DoG_Gen_optimize_delegates absent o config st ev a b c Hq Hev H1 H2 H3).
      unfold final, loaded, after_externals. now rewrite fold_left_app.
    + apply (after_externals_facts absent _ Hq loaded).
Qed.

End DoGGenFacts.

(** ** The further properties on the instance *)

Lemma raises_known `{Externals} {A} (m : M A) (st : state) (e : exn) :
  fst (m st) = inl e -> m st = (inl e, snd (m st)).
Proof. destruct (m st) as [r st']. cbn. now intros ->. Qed.

Section OnDemoMore.
Import Demo DemoMore.
#[local] Existing Instance demo_externals.

Lemma sanitize_keeps_first_of_each_smiles_witness :
  In "[12CH4]" (flat_map (smiles_of demo_to_smiles) demo_mols) /\
  In "[12CH4]" (first_seen (flat_map (smiles_of demo_to_smiles) demo_mols)) /\
  In 14 (fst (sanitize demo_to_smiles demo_mols)) /\
  In (Some 14) demo_mols /\
  demo_to_smiles 14 = Smiles "[14CH4]" /\
  exists before after,
    demo_mols = before ++ Some 14 :: after /\
    ~ In "[14CH4]" (flat_map (smiles_of demo_to_smiles) before).
Proof.
  destruct (sanitize_keeps_first_of_each_smiles demo_to_smiles demo_mols)
    as (_ & _ & Hall & Hin & _ & Hfirst).
  assert (H1 : In "[12CH4]" (flat_map (smiles_of demo_to_smiles) demo_mols))
    by (vm_compute; tauto).
  assert (H2 : In 14 (fst (sanitize demo_to_smiles demo_mols)))
    by (vm_compute; tauto).
  assert (H3 : demo_to_smiles 14 = Smiles "[14CH4]") by reflexivity.
  split; [exact H1|]. split; [exact (Hall _ H1)|]. split; [exact H2|].
  split; [exact (Hin _ H2)|]. split; [exact H3|].
  exact (Hfirst 14 "[14CH4]" H2 H3).
Defined.

Lemma demo_used_buffer :
  mol_buffer (self demo_used) =
  [("[100CH4]", (8%Z, 3)); ("[13CH4]", (7%Z, 1)); ("[12CH4]", (7%Z, 2))].
Proof. vm_compute. reflexivity. Qed.

Lemma demo_used_sorted : sorted_desc (mol_buffer (self demo_used)).
Proof. rewrite demo_used_buffer. unfold sorted_desc. repeat constructor. Qed.

Lemma score_mol_cached_call_is_free_witness :
  keys_unique (mol_buffer (self demo_used)) /\
  sorted_desc (mol_buffer (self demo_used)) /\
  (forall m, In m [12; 100; 12] ->
     dict_get (MolToSmiles m) (mol_buffer (self demo_used)) <> None) /\
  exists scores,
    BaseOptimizer.score_mol (oracle_func demo_oracle) [12; 100; 12] demo_used =
    (inr scores, demo_used).
Proof.
  assert (Hu : keys_unique (mol_buffer (self demo_used))) by distinct_strings.
  assert (Hin : forall m, In m [12; 100; 12] ->
     dict_get (MolToSmiles m) (mol_buffer (self demo_used)) <> None).
  { rewrite demo_used_buffer. intros m [<-|[<-|[<-|[]]]]; vm_compute; discriminate. }
  split; [exact Hu|]. split; [exact demo_used_sorted|]. split; [exact Hin|].
  destruct (score_mol_cached_call_is_free (oracle_func demo_oracle) [12; 100; 12]
              demo_used Hu demo_used_sorted Hin) as (scores & Hrun & _).
  exists scores. exact Hrun.
Defined.

Lemma buffer_size_counts_oracle_calls_witness :
  mol_buffer (self demo_ready) = [] /\
  exists st',
    score_mols [(oracle_func demo_oracle, [13; 12; 13]);
                (oracle_func demo_oracle, [12; 100; 7])] demo_ready = (inr tt, st') /\
    oracle_calls (trace st') = ["[13CH4]"; "[12CH4]"; "[100CH4]"; "[7CH4]"].
Proof.
  split; [reflexivity|].
  destruct (buffer_size_counts_oracle_calls
              [(oracle_func demo_oracle, [13; 12; 13]);
               (oracle_func demo_oracle, [12; 100; 7])] demo_ready eq_refl)
    as (st' & Hrun & Hcalls & _).
  exists st'. split; [exact Hrun|exact Hcalls].
Defined.

Lemma score_mol_transparent_witness :
  (forall smi o, fst (oracle_func demo_oracle smi o) = Z.of_nat (String.length smi)) /\
  keys_unique (mol_buffer (self demo_used)) /\
  answers (fun smi => Z.of_nat (String.length smi)) (mol_buffer (self demo_used)) /\
  exists st',
    BaseOptimizer.score_mol (oracle_func demo_oracle) [7; 100; 7] demo_used =
    (inr [6; 8; 6]%Z, st').
Proof.
  assert (Hf : forall smi o,
    fst (oracle_func demo_oracle smi o) = Z.of_nat (String.length smi))
    by (intros smi o; reflexivity).
  assert (Hu : keys_unique (mol_buffer (self demo_used))) by distinct_strings.
  assert (Ha : answers (fun smi => Z.of_nat (String.length smi))
                       (mol_buffer (self demo_used))).
  { rewrite demo_used_buffer. intros k s r E. apply dict_get_in in E.
    cbn [In] in E. destruct E as [E|[E|[E|[]]]]; injection E as <- <- _;
      reflexivity. }
  split; [exact Hf|]. split; [exact Hu|]. split; [exact Ha|].
  destruct (score_mol_transparent _ (oracle_func demo_oracle) [7; 100; 7]
              demo_used Hf Hu Ha) as (st' & Hrun & _).
  exists st'. exact Hrun.
Defined.

Lemma score_mol_after_sanitize_witness :
  (forall m s, demo_to_smiles m = Smiles s -> MolToSmiles m = s) /\
  mol_buffer (self demo_ready) = [] /\
  exists scores st',
    BaseOptimizer.score_mol (oracle_func demo_oracle)
      (fst (sanitize demo_to_smiles demo_mols)) demo_ready = (inr scores, st') /\
    trace st' = trace demo_ready
                ++ map EOracle (map MolToSmiles (fst (sanitize demo_to_smiles demo_mols))).
Proof.
  assert (Hagree : forall m s, demo_to_smiles m = Smiles s -> MolToSmiles m = s).
  { intros [|[|m]] s; cbn; [discriminate|discriminate|]. now intros [= <-]. }
  split; [exact Hagree|]. split; [reflexivity|].
  destruct (score_mol_after_sanitize demo_to_smiles (oracle_func demo_oracle)
              demo_mols demo_ready Hagree eq_refl)
    as (scores & st' & Hrun & Htrace & _).
  exists scores, st'. split; [exact Hrun|exact Htrace].
Defined.

Lemma log_intermediate_failures_witness :
  mol_buffer (self demo_ready) = [] /\
  BaseOptimizer.log_intermediate None None demo_ready = (inl ValueError, demo_ready).
Proof.
  split; [reflexivity|].
  exact (proj1 (log_intermediate_failures demo_ready) eq_refl).
Defined.

Lemma log_intermediate_logs_best_witness :
  strict_weak score_ltb /\
  sorted_desc (mol_buffer (self demo_used)) /\
  mol_buffer (self demo_used) =
    ("[100CH4]", (8%Z, 3)) :: [("[13CH4]", (7%Z, 1)); ("[12CH4]", (7%Z, 2))] /\
  exists m,
    BaseOptimizer.log_intermediate None None demo_used =
      (inr tt, {| self := self demo_used; ostate := ostate demo_used;
                  trace := trace demo_used ++ [EWandbLog (LogIntermediate m)] |}) /\
    avg_top1 m = 8%Z /\ n_oracle m = dict_len (mol_buffer (self demo_used)).
Proof.
  split; [exact Z_ltb_strict_weak|]. split; [exact demo_used_sorted|].
  split; [exact demo_used_buffer|].
  destruct (log_intermediate_logs_best demo_used _ _ Z_ltb_strict_weak
              demo_used_sorted demo_used_buffer)
    as (m & Hrun & Htop & _ & _ & _ & Hn).
  exists m. split; [exact Hrun|]. split; [exact Htop|exact Hn].
Defined.

Lemma analyze_results_unknown_smiles_witness :
  two_results <> [] /\
  @mol_filter foreign_externals (map fst (py_slice_to two_results 100)) =
    ["[13CH4]"] ++ "C" :: [] /\
  (forall k, In k ["[13CH4]"] -> In k (map fst (py_slice_to two_results 100))) /\
  ~ In "C" (map fst (py_slice_to two_results 100)) /\
  @BaseOptimizer._analyze_results foreign_externals two_results = inl (KeyError "C").
Proof.
  assert (H1 : two_results <> []) by discriminate.
  assert (H2 : @mol_filter foreign_externals (map fst (py_slice_to two_results 100)) =
               ["[13CH4]"] ++ "C" :: []) by reflexivity.
  assert (H3 : forall k, In k ["[13CH4]"] ->
                         In k (map fst (py_slice_to two_results 100))).
  { intros k [<-|[]]. vm_compute. tauto. }
  assert (H4 : ~ In "C" (map fst (py_slice_to two_results 100))).
  { vm_compute. intuition discriminate. }
  split; [exact H1|]. split; [exact H2|]. split; [exact H3|]. split; [exact H4|].
  exact (@analyze_results_unknown_smiles foreign_externals two_results
           ["[13CH4]"] [] "C" H1 H2 H3 H4).
Defined.

Lemma log_result_returns_witness :
  100 <= dict_len (mol_buffer (self demo_full)) /\
  (forall smis : list string, smis <> [] ->
     mol_filter smis <> [] /\ incl (mol_filter smis) smis) /\
  exists top batch,
    BaseOptimizer.log_result demo_full =
    (inr tt, {| self := self demo_full; ostate := ostate demo_full;
                trace := trace demo_full ++ [EWandbLog (LogTop100 top);
                                             EWandbLog (LogBatchMetrics batch)] |}).
Proof.
  assert (H1 : 100 <= dict_len (mol_buffer (self demo_full))) by (vm_compute; lia).
  assert (H2 : forall smis : list string, smis <> [] ->
     mol_filter smis <> [] /\ incl (mol_filter smis) smis).
  { intros smis Hne. split; [exact Hne|apply incl_refl]. }
  split; [exact H1|]. split; [exact H2|].
  exact (log_result_returns demo_full H1 H2).
Defined.

Lemma levels_saturate_witness :
  (Z.of_nat (dict_len (mol_buffer (self demo_used))) <= 500)%Z /\
  (Z.of_nat (dict_len (mol_buffer (self demo_used))) <= 1000)%Z /\
  level (mol_buffer (self demo_used)) 500 = level (mol_buffer (self demo_used)) 1000.
Proof.
  assert (H1 : (Z.of_nat (dict_len (mol_buffer (self demo_used))) <= 500)%Z)
    by (rewrite demo_used_buffer; cbn; lia).
  assert (H2 : (Z.of_nat (dict_len (mol_buffer (self demo_used))) <= 1000)%Z)
    by (rewrite demo_used_buffer; cbn; lia).
  split; [exact H1|]. split; [exact H2|].
  exact (proj1 (proj2 (levels_saturate _ 500 1000 H1 H2))).
Defined.

Lemma top100_table_is_ranked_witness :
  strict_weak score_ltb /\
  exists rows,
    BaseOptimizer.top100_rows
      (BaseOptimizer.results_all_level (mol_buffer (self demo_full))) = inr rows /\
    List.length rows = 100 /\
    map (fun row => fst (fst (fst (fst row)))) rows = seq 1 100.
Proof.
  split; [exact Z_ltb_strict_weak|].
  assert (H1 : 100 <= dict_len (mol_buffer (self demo_full))) by (vm_compute; lia).
  destruct (top100_rows_long _ H1) as [rows Hrows].
  destruct (top100_table_is_ranked _ rows Z_ltb_strict_weak Hrows)
    as (Hlen & Hcol & _).
  exists rows. split; [exact Hrows|]. split; [exact Hlen|exact Hcol].
Defined.

Lemma optimize_failed_run_witness :
  (0 <= 3 <= 2 ^ 32 - 1)%Z /\ (0 <= 2 <= 2 ^ 32 - 1)%Z /\
  ~ (0 <= -1 <= 2 ^ 32 - 1)%Z /\
  (flaky_optimize demo_oracle [] (run_started demo_oracle 3 demo_used) =
     (inl ValueError, run_started demo_oracle 3 demo_used) /\
   BaseOptimizer.optimize flaky_optimize demo_oracle [] 3 demo_used =
     (inl ValueError, run_started demo_oracle 3 demo_used)) /\
  (small_optimize demo_oracle [] (run_started demo_oracle 2 demo_ready) =
     (inr tt, snd (small_optimize demo_oracle [] (run_started demo_oracle 2 demo_ready))) /\
   dict_len (mol_buffer (self (snd (small_optimize demo_oracle []
                                      (run_started demo_oracle 2 demo_ready))))) < 100 /\
   BaseOptimizer.optimize small_optimize demo_oracle [] 2 demo_ready =
     (inl IndexError,
      snd (small_optimize demo_oracle [] (run_started demo_oracle 2 demo_ready)))) /\
  BaseOptimizer.optimize demo_optimize demo_oracle [] (-1) demo_ready =
    (inl ValueError,
     {| self := self demo_ready; ostate := ostate demo_ready;
        trace := trace demo_ready
                 ++ [EWandbInit (model_name (self demo_ready) ++ "_"
                                 ++ oracle_name demo_oracle)%string] |}).
Proof.
  assert (R3 : (0 <= 3 <= 2 ^ 32 - 1)%Z) by (split; apply Z.leb_le; reflexivity).
  assert (R2 : (0 <= 2 <= 2 ^ 32 - 1)%Z) by (split; apply Z.leb_le; reflexivity).
  assert (R1 : ~ (0 <= -1 <= 2 ^ 32 - 1)%Z) by (intros [Hneg _]; now apply Hneg).
  assert (H1 : flaky_optimize demo_oracle [] (run_started demo_oracle 3 demo_used) =
     (inl ValueError, run_started demo_oracle 3 demo_used)) by reflexivity.
  assert (H2 : small_optimize demo_oracle [] (run_started demo_oracle 2 demo_ready) =
     (inr tt, snd (small_optimize demo_oracle [] (run_started demo_oracle 2 demo_ready))))
    by (apply returns_normally; vm_compute; reflexivity).
  assert (H3 : dict_len (mol_buffer (self (snd (small_optimize demo_oracle []
                  (run_started demo_oracle 2 demo_ready))))) < 100)
    by (vm_compute; lia).
  split; [exact R3|]. split; [exact R2|]. split; [exact R1|].
  split; [|split].
  - split; [exact H1|].
    exact (proj1 (proj1 (optimize_failed_run flaky_optimize demo_oracle [] 3
                           demo_used _) R3) ValueError H1).
  - split; [exact H2|]. split; [exact H3|].
    exact (proj2 (proj1 (optimize_failed_run small_optimize demo_oracle [] 2
                           demo_ready _) R2) H2 H3).
  - exact (proj2 (optimize_failed_run demo_optimize demo_oracle [] (-1)
                    demo_ready demo_ready) R1).
Defined.

Lemma optimize_saves_the_run_witness :
  strict_weak score_ltb /\
  BaseOptimizer.optimize demo_optimize demo_oracle [] 2 demo_ready =
    (inr tt, snd (BaseOptimizer.optimize demo_optimize demo_oracle [] 2 demo_ready)) /\
  exists s_opt,
    demo_optimize demo_oracle [] (run_started demo_oracle 2 demo_ready) =
      (inr tt, s_opt) /\
    100 <= dict_len (mol_buffer (self s_opt)).
Proof.
  assert (Hrun : BaseOptimizer.optimize demo_optimize demo_oracle [] 2 demo_ready =
    (inr tt, snd (BaseOptimizer.optimize demo_optimize demo_oracle [] 2 demo_ready)))
    by (apply returns_normally; vm_compute; reflexivity).
  split; [exact Z_ltb_strict_weak|]. split; [exact Hrun|].
  destruct (optimize_saves_the_run demo_optimize demo_oracle [] 2 demo_ready _
              Z_ltb_strict_weak Hrun) as (s_opt & Hopt & Hlen & _).
  exists s_opt. split; [exact Hopt|exact Hlen].
Defined.

Lemma production_stops_at_first_failure_witness :
  py_slice_to BaseOptimizer.seeds 3 = ([2] ++ 3 :: [5])%Z /\
  runs flaky_optimize demo_oracle [] [2]%Z demo_ready
    (snd (BaseOptimizer.optimize flaky_optimize demo_oracle [] 2 demo_ready)) /\
  BaseOptimizer.optimize flaky_optimize demo_oracle [] 3
    (snd (BaseOptimizer.optimize flaky_optimize demo_oracle [] 2 demo_ready)) =
    (inl ValueError,
     snd (BaseOptimizer.optimize flaky_optimize demo_oracle [] 3
            (snd (BaseOptimizer.optimize flaky_optimize demo_oracle [] 2 demo_ready)))) /\
  BaseOptimizer.production flaky_optimize demo_oracle [] 3 demo_ready =
    (inl ValueError,
     snd (BaseOptimizer.optimize flaky_optimize demo_oracle [] 3
            (snd (BaseOptimizer.optimize flaky_optimize demo_oracle [] 2 demo_ready)))).
Proof.
  assert (Hrun1 : BaseOptimizer.optimize flaky_optimize demo_oracle [] 2 demo_ready =
    (inr tt, snd (BaseOptimizer.optimize flaky_optimize demo_oracle [] 2 demo_ready)))
    by (apply returns_normally; vm_compute; reflexivity).
  assert (Hruns : runs flaky_optimize demo_oracle [] [2]%Z demo_ready
    (snd (BaseOptimizer.optimize flaky_optimize demo_oracle [] 2 demo_ready))).
  { apply (runs_cons flaky_optimize demo_oracle [] 2%Z [] demo_ready _ _
             eq_refl Hrun1
             (optimize_empties_buffer flaky_optimize demo_oracle [] 2 _ _ Hrun1)).
    apply runs_nil. }
  assert (Hfail : BaseOptimizer.optimize flaky_optimize demo_oracle [] 3
    (snd (BaseOptimizer.optimize flaky_optimize demo_oracle [] 2 demo_ready)) =
    (inl ValueError,
     snd (BaseOptimizer.optimize flaky_optimize demo_oracle [] 3
            (snd (BaseOptimizer.optimize flaky_optimize demo_oracle [] 2 demo_ready)))))
    by (apply raises_known; vm_compute; reflexivity).
  split; [reflexivity|]. split; [exact Hruns|]. split; [exact Hfail|].
  exact (production_stops_at_first_failure flaky_optimize demo_oracle [] 3
           [2]%Z [5]%Z 3 ValueError demo_ready _ _ eq_refl Hruns Hfail).
Defined.

Lemma production_nonpositive_runs_witness :
  ((0 = 0)%Z \/ (0 <= -25)%Z) /\
  BaseOptimizer.production demo_optimize demo_oracle [] 0 demo_ready =
    (inr tt, demo_ready) /\
  (-25 < -24 < 0)%Z /\
  mol_buffer (self demo_ready) = [] /\
  BaseOptimizer.production demo_optimize demo_oracle [] (-24) demo_ready =
    (inr tt, snd (BaseOptimizer.production demo_optimize demo_oracle [] (-24)
                    demo_ready)) /\
  runs demo_optimize demo_oracle [] [2]%Z demo_ready
    (snd (BaseOptimizer.production demo_optimize demo_oracle [] (-24) demo_ready)).
Proof.
  assert (H0 : (0 = 0)%Z \/ (0 <= -25)%Z) by (left; reflexivity).
  assert (Hn : (-25 < -24 < 0)%Z) by lia.
  assert (Hrun : BaseOptimizer.production demo_optimize demo_oracle [] (-24) demo_ready =
    (inr tt, snd (BaseOptimizer.production demo_optimize demo_oracle [] (-24)
                    demo_ready)))
    by (apply returns_normally; vm_compute; reflexivity).
  split; [exact H0|].
  split; [exact (proj1 (production_nonpositive_runs demo_optimize demo_oracle []
                          0 demo_ready) H0)|].
  split; [exact Hn|]. split; [reflexivity|]. split; [exact Hrun|].
  exact (proj2 (proj2 (production_nonpositive_runs demo_optimize demo_oracle []
                         (-24) demo_ready) Hn) _ eq_refl Hrun).
Defined.

Lemma run_files_distinct_witness :
  run_file "out" "dog_gen" "qed" 2 = run_file "out" "dog_gen" "qed" 2 /\
  2%Z = 2%Z /\
  NoDup (map (run_file "out" "dog_gen" "qed") (py_slice_to BaseOptimizer.seeds 5)).
Proof.
  destruct (run_files_distinct "out" "dog_gen" "qed" 5) as [Hinj Hnd].
  split; [reflexivity|]. split; [exact (Hinj 2%Z 2%Z eq_refl)|exact Hnd].
Defined.

Lemma DoG_Gen_optimize_with_oracle_attribute_witness :
  returns_normally_keeping_oracle demo_absent /\
  oracle_attr (self demo_with_oracle) = Some tt /\
  dict_get "n_rounds" ([] : dict Z) = None /\
  fst (DoG_Gen_Optimizer._optimize demo_absent demo_oracle [] demo_with_oracle) =
    inl (KeyError "n_rounds") /\
  dict_get "n_rounds" demo_config = Some 3%Z /\
  dict_get "n_samples_per_round" demo_config = Some 40%Z /\
  dict_get "n_samples_to_keep_per_round" demo_config = Some 10%Z /\
  fst (DoG_Gen_Optimizer._optimize demo_absent demo_oracle demo_config
         demo_with_oracle) = inr tt /\
  ostate (snd (DoG_Gen_Optimizer._optimize demo_absent demo_oracle demo_config
                 demo_with_oracle)) = ostate demo_with_oracle + 7.
Proof.
  assert (Hq : returns_normally_keeping_oracle demo_absent).
  { intros c s o. destruct c; eexists; eexists; split; reflexivity. }
  destruct (DoG_Gen_optimize_with_oracle_attribute demo_absent demo_oracle []
              demo_with_oracle tt Hq eq_refl) as (_ & Hmissing & _).
  destruct (DoG_Gen_optimize_with_oracle_attribute demo_absent demo_oracle
              demo_config demo_with_oracle tt Hq eq_refl) as (_ & _ & _ & _ & Hall).
  destruct (Hall _ _ _ eq_refl eq_refl eq_refl) as [Hrun _].
  split; [exact Hq|].
  split; [reflexivity|]. split; [reflexivity|]. split.
  - rewrite (Hmissing eq_refl). reflexivity.
  - split; [reflexivity|]. split; [reflexivity|]. split; [reflexivity|].
    rewrite Hrun. split; reflexivity.
Defined.

End OnDemoMore.
